(** * Pose mirror: landmark retargeting and pose relay

    A shallow embedding of the pose-driven viewers of the repository
    ([pose-mirror/src/skeletonRenderer.js] with the application of
    [pose-mirror/main.js] around it, [webTest/modelViewer.js],
    [webTest/characterViewer.js]) and of the relay ([PoseExporter] and
    [PoseReceiver]).  Part I is the embedding, Part II proves the properties
    the specification states about the code, Part III further properties of
    the code: what the handlers never do, what a frame does to every joint,
    sphere and part, and how the pieces work together.

    Numbers.  JavaScript numbers are IEEE doubles; here they are idealised
    to the real numbers [R], so [Math.sqrt] is [sqrt] and every arithmetic
    operation is exact.  A missing property ([undefined]) is [None].

    Objects.  A three.js object is a record of the fields the code reads or
    writes (name, position, quaternion, scale, visible).  Arrays are lists
    read with [!!]; a JavaScript object used as a dictionary is a [gmap].

    Errors.  A call that throws is [None]; the elements a handler looks up
    in the page are taken to exist unless the code itself tests for them. *)

From Stdlib Require Import Reals Lra Psatz RNsatz Ascii String.
From stdpp Require Import gmap strings list fin_maps pretty.

Open Scope R_scope.

(** * Part I: the embedding *)

(** ** Comparisons on numbers, as booleans *)

Definition Rgtb (a b : R) : bool := if Rgt_dec a b then true else false.

(** [v > t] where [v] may be [undefined]: the comparison is then false. *)
Definition gt_number (v : option R) (t : R) : bool :=
  match v with
  | Some a => Rgtb a t
  | None => false
  end.

(** ** The part of three.js the viewers use *)

Module THREE.

Record Vector3 := mkVector3 { x : R; y : R; z : R }.

Record Quaternion := mkQuaternion { qx : R; qy : R; qz : R; qw : R }.

(** What the code touches of a [THREE.Object3D] (meshes, groups and bones
    alike). *)
Record Object3D := mkObject3D {
  name : string;
  position : Vector3;
  quaternion : Quaternion;
  scale : Vector3;
  visible : bool
}.

Definition zero : Vector3 := mkVector3 0 0 0.
Definition one : Vector3 := mkVector3 1 1 1.
Definition identity : Quaternion := mkQuaternion 0 0 0 1.

(** [new THREE.Mesh(...)], [new THREE.Group()]: at the origin, unrotated,
    unscaled, visible. *)
Definition object3D (n : string) : Object3D :=
  mkObject3D n zero identity one true.

Definition set_position (o : Object3D) (p : Vector3) : Object3D :=
  mkObject3D (name o) p (quaternion o) (scale o) (visible o).

Definition set_quaternion (o : Object3D) (q : Quaternion) : Object3D :=
  mkObject3D (name o) (position o) q (scale o) (visible o).

Definition set_scale (o : Object3D) (s : Vector3) : Object3D :=
  mkObject3D (name o) (position o) (quaternion o) s (visible o).

(** [o.scale.y = v] *)
Definition set_scale_y (o : Object3D) (v : R) : Object3D :=
  set_scale o (mkVector3 (x (scale o)) v (z (scale o))).

Definition set_visible (o : Object3D) (b : bool) : Object3D :=
  mkObject3D (name o) (position o) (quaternion o) (scale o) b.

(** Modelled from the spec: three.js is a dependency and not among the
    sources; [subVectors(a, b)] is the difference [a - b] the spec writes
    as [end - start]. *)
Definition subVectors (a b : Vector3) : Vector3 :=
  mkVector3 (x a - x b) (y a - y b) (z a - z b).

(** Modelled from the spec: [Vector3.add] of three.js, componentwise. *)
Definition add (a b : Vector3) : Vector3 :=
  mkVector3 (x a + x b) (y a + y b) (z a + z b).

(** Modelled from the spec: [Vector3.multiplyScalar] of three.js. *)
Definition multiplyScalar (a : Vector3) (s : R) : Vector3 :=
  mkVector3 (x a * s) (y a * s) (z a * s).

(** Modelled from the spec: [Vector3.dot] of three.js, the [dot] of the
    spec. *)
Definition dot (a b : Vector3) : R := x a * x b + y a * y b + z a * z b.

(** Modelled from the spec: [Vector3.crossVectors] of three.js, the
    [cross] of the spec. *)
Definition cross (a b : Vector3) : Vector3 :=
  mkVector3 (y a * z b - z a * y b)
            (z a * x b - x a * z b)
            (x a * y b - y a * x b).

(** Modelled from the spec: [Vector3.length] of three.js, the Euclidean
    norm the spec writes [|v|]. *)
Definition length (a : Vector3) : R :=
  sqrt (x a * x a + y a * y a + z a * z a).

(** Modelled from the spec: [Vector3.normalize] of three.js, the
    [normalize] of the spec: division by the length, the zero vector being
    left as it is. *)
Definition normalize (a : Vector3) : Vector3 :=
  let l := length a in
  let d := if Req_dec_T l 0 then 1 else l in
  mkVector3 (x a / d) (y a / d) (z a / d).

(** Modelled from the spec: [Vector3.lerp] of three.js, the [lerp] of the
    spec: [a + (b - a) * alpha]. *)
Definition lerp (a b : Vector3) (alpha : R) : Vector3 :=
  mkVector3 (x a + (x b - x a) * alpha)
            (y a + (y b - y a) * alpha)
            (z a + (z b - z a) * alpha).

(** Modelled from the spec: [Vector3.distanceTo] of three.js, the
    [|end - start|] of the spec. *)
Definition distanceTo (a b : Vector3) : R := length (subVectors a b).

(** Modelled from the spec: [Quaternion.setFromAxisAngle] of three.js, the
    rotation by [angle] about the unit vector [axis]. *)
Definition setFromAxisAngle (axis : Vector3) (angle : R) : Quaternion :=
  let s := sin (angle / 2) in
  mkQuaternion (x axis * s) (y axis * s) (z axis * s) (cos (angle / 2)).

(** Modelled from the spec: some axis perpendicular to [v], which the spec
    leaves open ("any perpendicular axis"). *)
Definition perpendicular (v : Vector3) : Vector3 :=
  if Rgtb (Rabs (x v)) (Rabs (z v))
  then normalize (mkVector3 (- y v) (x v) 0)
  else normalize (mkVector3 0 (- z v) (y v)).

(** Modelled from the spec: [Quaternion.setFromUnitVectors] of three.js is
    not among the sources.  The spec describes it as the shortest-arc
    rotation between two unit vectors:
    axis = normalize(cross(canonical, direction)),
    angle = acos(dot(canonical, direction)),
    identity if the vectors are already parallel, a rotation by 180
    degrees about any perpendicular axis if they are antiparallel. *)
Definition setFromUnitVectors (vFrom vTo : Vector3) : Quaternion :=
  let c := cross vFrom vTo in
  if Req_dec_T (length c) 0 then
    if Rgtb 0 (dot vFrom vTo)
    then setFromAxisAngle (perpendicular vFrom) PI
    else identity
  else setFromAxisAngle (normalize c) (acos (dot vFrom vTo)).

(** Modelled from the spec: [Quaternion.multiplyQuaternions] of three.js,
    the Hamilton product. *)
Definition multiplyQuaternions (a b : Quaternion) : Quaternion :=
  mkQuaternion
    (qx a * qw b + qw a * qx b + qy a * qz b - qz a * qy b)
    (qy a * qw b + qw a * qy b + qz a * qx b - qx a * qz b)
    (qz a * qw b + qw a * qz b + qx a * qy b - qy a * qx b)
    (qw a * qw b - qx a * qx b - qy a * qy b - qz a * qz b).

(** Modelled from the spec: [Quaternion.conjugate] of three.js. *)
Definition conjugate (q : Quaternion) : Quaternion :=
  mkQuaternion (- qx q) (- qy q) (- qz q) (qw q).

(** Modelled from the spec: [Vector3.applyQuaternion] of three.js, the
    [rotate(v, q)] of the spec: the vector part of [q v q*]. *)
Definition applyQuaternion (v : Vector3) (q : Quaternion) : Vector3 :=
  let p := multiplyQuaternions
             (multiplyQuaternions q (mkQuaternion (x v) (y v) (z v) 0))
             (conjugate q) in
  mkVector3 (qx p) (qy p) (qz p).

End THREE.

(** ** Landmarks, as the pose estimator and the relay hand them over *)

Module Pose.

(** One landmark: [{x, y, z, visibility}]; [visibility] may be missing. *)
Record Landmark := mkLandmark {
  x : R;
  y : R;
  z : R;
  visibility : option R
}.

(** Every point moved by one fixed vector, confidences kept. *)
Definition translate (t : THREE.Vector3) (lm : Landmark) : Landmark :=
  mkLandmark (x lm + THREE.x t) (y lm + THREE.y t) (z lm + THREE.z t)
             (visibility lm).

(** A whole frame moved by one fixed vector; holes stay holes. *)
Definition translateFrame (t : THREE.Vector3) (lms : list (option Landmark))
    : list (option Landmark) :=
  (fun o : option Landmark => translate t <$> o) <$> lms.

(** What a viewer reads of one entry of [poseData.poses] and of the
    [poseData] it receives; [poses] may be missing. *)
Record PoseEntry := mkPoseEntry {
  landmarks : list Landmark;
  worldLandmarks : list Landmark
}.

Record PoseData := mkPoseData {
  poses : option (list PoseEntry)
}.

End Pose.

(** ** pose-mirror/src/skeletonRenderer.js *)

Module SkeletonRenderer.

(** An entry of [this.bones]: [{ mesh, start, end }]. *)
Record Bone := mkBone {
  mesh : THREE.Object3D;
  start : nat;
  end_ : nat
}.

(** The fields of a [SkeletonRenderer] that the pose path reads or
    writes. *)
Record t := mk {
  skeleton : option THREE.Object3D;
  joints : list THREE.Object3D;
  bones : list Bone;
  scale : R;
  boneThickness : R;
  showJoints : bool;
  showBones : bool
}.

(** [constructor(canvasId)] *)
Definition new : t := mk None [] [] 1.0 0.05 true true.

(** [connections] of [createSkeleton] *)
Definition connections : list (nat * nat) :=
  [ (0, 2); (0, 5);
    (11, 12);
    (11, 23); (12, 24);
    (23, 24);
    (11, 13); (13, 15);
    (12, 14); (14, 16);
    (23, 25); (25, 27); (27, 29); (27, 31);
    (24, 26); (26, 28); (28, 30); (28, 32) ]%nat.

(** [createSkeleton()]: 33 joints, one bone per connection, all at rest;
    the cylinder of a bone has height 1. *)
Definition createSkeleton (r : t) : t :=
  mk (Some (THREE.set_scale (THREE.object3D "")
              (THREE.mkVector3 (scale r) (scale r) (scale r))))
     (replicate 33 (THREE.set_visible (THREE.object3D "") (showJoints r)))
     (map (fun c : nat * nat =>
             mkBone (THREE.set_visible (THREE.object3D "") (showBones r))
                    (fst c) (snd c))
          connections)
     (scale r) (boneThickness r) (showJoints r) (showBones r).

(** [setScale(scale)] *)
Definition setScale (r : t) (s : R) : t :=
  mk ((fun g => THREE.set_scale g (THREE.mkVector3 s s s)) <$> skeleton r)
     (joints r) (bones r) s (boneThickness r) (showJoints r) (showBones r).

(** The three constants [x], [y], [z] of the joint loop: the landmark in
    centred space, before the global scale. *)
Definition centred (lm : Pose.Landmark) : THREE.Vector3 :=
  THREE.mkVector3 ((Pose.x lm - 0.5) * 2)
                  ((0.5 - Pose.y lm) * 2)
                  (- Pose.z lm * 2).

(** Where [joint.position.set(x * this.scale, y * this.scale,
    z * this.scale)] puts the joint of a landmark. *)
Definition jointPosition (r : t) (lm : Pose.Landmark) : THREE.Vector3 :=
  let c := centred lm in
  THREE.mkVector3 (THREE.x c * scale r) (THREE.y c * scale r)
                  (THREE.z c * scale r).

(** The body of [this.joints.forEach((joint, i) => ...)]. *)
Definition updateJoint (r : t) (landmarks : list (option Pose.Landmark))
    (i : nat) (joint : THREE.Object3D) : THREE.Object3D :=
  match landmarks !! i with
  | Some (Some lm) =>
      if gt_number (Pose.visibility lm) 0.3 then
        THREE.set_visible (THREE.set_position joint (jointPosition r lm))
                          (showJoints r)
      else THREE.set_visible joint false
  | _ => THREE.set_visible joint false
  end.

(** The constant [length] of the bone loop: the distance from the start
    joint at [ps] to the end joint at [pe]. *)
Definition boneLength (ps pe : THREE.Vector3) : R :=
  let dx := THREE.x pe - THREE.x ps in
  let dy := THREE.y pe - THREE.y ps in
  let dz := THREE.z pe - THREE.z ps in
  sqrt (dx * dx + dy * dy + dz * dz).

(** The constant [direction] of the bone loop. *)
Definition boneDirection (ps pe : THREE.Vector3) : THREE.Vector3 :=
  let dx := THREE.x pe - THREE.x ps in
  let dy := THREE.y pe - THREE.y ps in
  let dz := THREE.z pe - THREE.z ps in
  THREE.normalize (THREE.mkVector3 dx dy dz).

(** The height of the cylinder every bone mesh is made of
    ([new THREE.CylinderGeometry(boneThickness, boneThickness, 1, 8)]): the
    length of a bone at scale 1. *)
Definition restLength : R := 1.

(** The body of [this.bones.forEach(({ mesh, start, end }) => ...)];
    [None] is the [TypeError] of reading [visible] from a joint that does
    not exist. *)
Definition updateBone (r : t) (js : list THREE.Object3D) (b : Bone)
    : option Bone :=
  startJoint ← js !! start b;
  endJoint ← js !! end_ b;
  if THREE.visible startJoint && THREE.visible endJoint then
    let ps := THREE.position startJoint in
    let pe := THREE.position endJoint in
    let midX := (THREE.x ps + THREE.x pe) / 2 in
    let midY := (THREE.y ps + THREE.y pe) / 2 in
    let midZ := (THREE.z ps + THREE.z pe) / 2 in
    let m := THREE.set_position (mesh b) (THREE.mkVector3 midX midY midZ) in
    let length := boneLength ps pe in
    if Rgtb length 0 then
      let direction := boneDirection ps pe in
      let yAxis := THREE.mkVector3 0 1 0 in
      Some (mkBone
              (THREE.set_quaternion
                 (THREE.set_visible (THREE.set_scale_y m length)
                                    (showBones r))
                 (THREE.setFromUnitVectors yAxis direction))
              (start b) (end_ b))
    else Some (mkBone (THREE.set_visible m false) (start b) (end_ b))
  else Some (mkBone (THREE.set_visible (mesh b) false) (start b) (end_ b)).

(** [updatePose(landmarks)].  [landmarks] is [None] when the argument is
    [undefined] or [null]; an entry is [None] when the array has a hole.
    The result is [None] when the call throws. *)
Definition updatePose (r : t) (landmarks : option (list (option Pose.Landmark)))
    : option t :=
  match landmarks with
  | None => Some r
  | Some lms =>
      if decide (List.length lms ≠ 33%nat) then Some r
      else
        let js := imap (updateJoint r lms) (joints r) in
        bs ← mapM (updateBone r js) (bones r);
        Some (mk (skeleton r) js bs (scale r) (boneThickness r)
                 (showJoints r) (showBones r))
  end.

(** A malformed argument of [updatePose]: no array at all, or an array
    that does not hold 33 entries (the empty one included). *)
Definition malformed (landmarks : option (list (option Pose.Landmark))) : Prop :=
  match landmarks with
  | None => True
  | Some lms => List.length lms <> 33%nat
  end.

(** The shape [createSkeleton] establishes: 33 joints, and bones between
    joints that exist. *)
Definition rigged (r : t) : Prop :=
  List.length (joints r) = 33%nat /\
  Forall (fun b => (start b < 33)%nat /\ (end_ b < 33)%nat) (bones r).

(** The displacement of a joint when every landmark moves by [v]. *)
Definition jointShift (r : t) (v : THREE.Vector3) : THREE.Vector3 :=
  THREE.mkVector3 (THREE.x v * 2 * scale r) (- THREE.y v * 2 * scale r)
                  (- THREE.z v * 2 * scale r).

(** Two joints are alike when they are both hidden or both visible, and
    in the latter case [d] apart. *)
Definition alike (d : THREE.Vector3) (j1 j2 : THREE.Object3D) : Prop :=
  THREE.visible j2 = THREE.visible j1 /\
  (THREE.visible j1 = true ->
   THREE.position j2 = THREE.add (THREE.position j1) d).

(** [setBoneThickness(thickness)]: the skeleton is built anew. *)
Definition setBoneThickness (r : t) (thickness : R) : t :=
  createSkeleton
    (mk (skeleton r) (joints r) (bones r) (scale r) thickness
        (showJoints r) (showBones r)).

(** [setShowJoints(show)].  The test [joint.userData.visible !== false]
    always holds: nothing in the program writes [userData.visible], which
    three.js leaves undefined. *)
Definition setShowJoints (r : t) (show : bool) : t :=
  mk (skeleton r) ((fun j => THREE.set_visible j show) <$> joints r)
     (bones r) (scale r) (boneThickness r) show (showBones r).

(** [setShowBones(show)], with the same test on [mesh.userData.visible]. *)
Definition setShowBones (r : t) (show : bool) : t :=
  mk (skeleton r) (joints r)
     ((fun b => mkBone (THREE.set_visible (mesh b) show) (start b) (end_ b))
        <$> bones r)
     (scale r) (boneThickness r) (showJoints r) show.

End SkeletonRenderer.

(** ** pose-mirror/main.js *)

Module PoseMirrorApp.

(** What [onPoseDetected] reads of the results of the pose estimator. *)
Record Results := mkResults {
  poseLandmarks : option (list (option Pose.Landmark))
}.

(** [UIController]: the text of the status element and the [disabled]
    flags of the two buttons; an element the page does not have is
    [None]. *)
Record UIController := mkUI {
  statusElement : option string;
  startButton : option bool;
  stopButton : option bool
}.

(** [updateStatus(message)] *)
Definition updateStatus (ui : UIController) (message : string) : UIController :=
  mkUI ((fun _ => message) <$> statusElement ui) (startButton ui) (stopButton ui).

(** [setCameraRunning(running)] *)
Definition setCameraRunning (ui : UIController) (running : bool) : UIController :=
  mkUI (statusElement ui) ((fun _ => running) <$> startButton ui)
       ((fun _ => negb running) <$> stopButton ui).

Record t := mk {
  skeletonRenderer : option SkeletonRenderer.t;
  uiController : UIController;
  isRunning : bool
}.

(** What can happen to the application once it is set up: a result of the
    pose estimator, an input on one of the four controls, a click on one of
    the two camera buttons, and the camera answering a start ([None] when it
    starts, the message of the error otherwise). *)
Inductive Event :=
| PoseDetected (results : Results)
| ScaleInput (value : R)
| ThicknessInput (value : R)
| ShowJointsChange (checked : bool)
| ShowBonesChange (checked : bool)
| StartClicked
| CameraAnswered (error : option string)
| StopClicked.

Definition with_renderer (a : t) (r : option SkeletonRenderer.t) : t :=
  mk r (uiController a) (isRunning a).

(** [onPoseDetected(results)]; [None] when the call throws. *)
Definition onPoseDetected (a : t) (results : Results) : option t :=
  match skeletonRenderer a, poseLandmarks results with
  | Some r, Some lms =>
      r' ← SkeletonRenderer.updatePose r (Some lms);
      Some (with_renderer a (Some r'))
  | _, _ => Some a
  end.

(** [stopTracking()] *)
Definition stopTracking (a : t) : t :=
  if negb (isRunning a) then a
  else mk (skeletonRenderer a)
          (updateStatus (setCameraRunning (uiController a) false)
                        "Camera stopped.")
          false.

(** [startTracking()] up to [await this.poseTracker.start()]. *)
Definition startTracking (a : t) : t :=
  if isRunning a then a
  else mk (skeletonRenderer a)
          (updateStatus (uiController a) "Starting camera...")
          (isRunning a).

(** The rest of [startTracking()], run when the camera has answered. *)
Definition startSettled (a : t) (error : option string) : t :=
  match error with
  | None =>
      mk (skeletonRenderer a)
         (updateStatus (setCameraRunning (uiController a) true)
                       "Camera active. Pose detection running.")
         true
  | Some message =>
      mk (skeletonRenderer a)
         (updateStatus (uiController a) ("Error starting camera: " +:+ message))
         (isRunning a)
  end.

(** One event; [None] when a handler throws. *)
Definition handle (a : t) (ev : Event) : option t :=
  match ev with
  | PoseDetected results => onPoseDetected a results
  | ScaleInput value =>
      Some (with_renderer a
              ((fun r => SkeletonRenderer.setScale r value) <$> skeletonRenderer a))
  | ThicknessInput value =>
      Some (with_renderer a
              ((fun r => SkeletonRenderer.setBoneThickness r value)
                 <$> skeletonRenderer a))
  | ShowJointsChange checked =>
      Some (with_renderer a
              ((fun r => SkeletonRenderer.setShowJoints r checked)
                 <$> skeletonRenderer a))
  | ShowBonesChange checked =>
      Some (with_renderer a
              ((fun r => SkeletonRenderer.setShowBones r checked)
                 <$> skeletonRenderer a))
  | StartClicked => Some (startTracking a)
  | CameraAnswered error => Some (startSettled a error)
  | StopClicked => Some (stopTracking a)
  end.

(** A sequence of events, one after the other. *)
Fixpoint run (a : t) (evs : list Event) : option t :=
  match evs with
  | [] => Some a
  | ev :: rest => a' ← handle a ev; run a' rest
  end.

(** The character [U+0022]. *)
Definition quote : string := String (Ascii.ascii_of_nat 34) EmptyString.

(** The application as [init()] leaves it when nothing fails, on a page
    whose elements are [ui]: the skeleton built, the status set, the camera
    off. *)
Definition init (ui : UIController) : t :=
  mk (Some (SkeletonRenderer.createSkeleton SkeletonRenderer.new))
     (updateStatus ui
        ("Ready. Click " +:+ quote +:+ "Start Camera" +:+ quote +:+ " to begin."))
     false.

(** The skeleton of the application is rigged, if there is one. *)
Definition wellFormed (a : t) : Prop :=
  match skeletonRenderer a with
  | Some r => SkeletonRenderer.rigged r
  | None => True
  end.

(** While the camera runs, "start" is disabled and "stop" enabled, for the
    buttons the page has. *)
Definition buttonsAgree (a : t) : Prop :=
  isRunning a = true ->
  (forall d, startButton (uiController a) = Some d -> d = true) /\
  (forall d, stopButton (uiController a) = Some d -> d = false).

End PoseMirrorApp.

(** ** Strings, as the bone matcher uses them *)

Module JS.

(** [String.prototype.toLowerCase] on one character.  Names are taken to
    be ASCII: the letters [A]..[Z] are lowered, any other character is
    kept. *)
Definition lower (c : ascii) : ascii :=
  let n := nat_of_ascii c in
  if ((65 <=? n) && (n <=? 90))%nat then ascii_of_nat (n + 32) else c.

Fixpoint toLowerCase (s : string) : string :=
  match s with
  | EmptyString => EmptyString
  | String c s' => String (lower c) (toLowerCase s')
  end.

(** [s.startsWith(p)] *)
Fixpoint startsWith (s p : string) : bool :=
  match p, s with
  | EmptyString, _ => true
  | String _ _, EmptyString => false
  | String a p', String b s' => if decide (a = b) then startsWith s' p' else false
  end.

(** [s.includes(sub)]: [sub] occurs in [s] at some position. *)
Fixpoint includes (s sub : string) : bool :=
  if startsWith s sub then true
  else match s with
       | EmptyString => false
       | String _ s' => includes s' sub
       end.

End JS.

(** ** webTest/characterViewer.js *)

Module CharacterViewer.

(** What the viewer prints: [console.log], [console.warn],
    [console.error] and [alert], with the literal text of the message. *)
Inductive Output :=
| Log (s : string)
| Warn (s : string)
| Error (s : string)
| Alert (s : string).

(** An object of a loaded scene graph with the type flags the viewer
    tests. *)
Record Node := mkNode {
  object : THREE.Object3D;
  isBone : bool;
  isObject3D : bool;
  isMesh : bool;
  isSkinnedMesh : bool
}.

(** A loaded [gltf]: [scene] lists the objects in the order
    [gltf.scene.traverse] visits them (the root first), an object being
    identified by its position in that list; [boxSize] and [boxCenter] are
    what [Box3.setFromObject] measures. *)
Record GLTF := mkGLTF {
  scene : list Node;
  boxSize : THREE.Vector3;
  boxCenter : THREE.Vector3
}.

(** [this.characterModel]: a group the viewer built itself, or the root
    of the loaded scene (one object with [this.loadedGLTFModel]). *)
Inductive Model :=
| Procedural (group : THREE.Object3D)
| Loaded.

Record t := mk {
  characterModel : option Model;
  bones : gmap string THREE.Object3D;
  loadedGLTFModel : option (list Node);
  gltfBones : gmap string nat;
  modelType : string;
  console : list Output
}.

Definition with_bones (r : t) (b : gmap string THREE.Object3D) : t :=
  mk (characterModel r) b (loadedGLTFModel r) (gltfBones r) (modelType r)
     (console r).

Definition print (r : t) (o : Output) : t :=
  mk (characterModel r) (bones r) (loadedGLTFModel r) (gltfBones r)
     (modelType r) (console r ++ [o]).

(** A mesh of the procedural character, placed at [p]. *)
Definition meshAt (p : THREE.Vector3) : THREE.Object3D :=
  THREE.set_position (THREE.object3D "") p.

(** [createLimb(name, startPos, bodyMaterial, jointMaterial, length)] *)
Definition createLimb (bs : gmap string THREE.Object3D) (name : string)
    (startPos : THREE.Vector3) (length : R) : gmap string THREE.Object3D :=
  let down (d : R) :=
    meshAt (THREE.mkVector3 (THREE.x startPos) (THREE.y startPos - d)
                            (THREE.z startPos)) in
  <[name +:+ "End" := down (length * 2)]>
    (<[name +:+ "Lower" := down (length * 1.5)]>
       (<[name +:+ "Joint" := down length]>
          (<[name +:+ "Upper" := down (length / 2)]> bs))).

(** [createProceduralCharacter()], the default rig. *)
Definition createProceduralCharacter (r : t) : t :=
  let bs0 := <["hips" := meshAt (THREE.mkVector3 0 0.75 0)]>
               (<["torso" := meshAt (THREE.mkVector3 0 1.1 0)]>
                  (<["head" := meshAt (THREE.mkVector3 0 1.5 0)]> (bones r))) in
  let bs1 := createLimb bs0 "leftArm" (THREE.mkVector3 (-0.25) 1.3 0) 0.4 in
  let bs2 := createLimb bs1 "rightArm" (THREE.mkVector3 0.25 1.3 0) 0.4 in
  let bs3 := createLimb bs2 "leftLeg" (THREE.mkVector3 (-0.15) 0.65 0) 0.5 in
  let bs4 := createLimb bs3 "rightLeg" (THREE.mkVector3 0.15 0.65 0) 0.5 in
  mk (Some (Procedural (THREE.object3D "character"))) bs4
     (loadedGLTFModel r) (gltfBones r) (modelType r) (console r).

(** The state the constructor leaves: the procedural humanoid. *)
Definition new : t :=
  createProceduralCharacter (mk None ∅ None ∅ "humanoid" []).

(** MediaPipe landmark indices *)
Definition NOSE : nat := 0.
Definition LEFT_SHOULDER : nat := 11.
Definition RIGHT_SHOULDER : nat := 12.
Definition LEFT_ELBOW : nat := 13.
Definition RIGHT_ELBOW : nat := 14.
Definition LEFT_WRIST : nat := 15.
Definition RIGHT_WRIST : nat := 16.
Definition LEFT_HIP : nat := 23.
Definition RIGHT_HIP : nat := 24.
Definition LEFT_KNEE : nat := 25.
Definition RIGHT_KNEE : nat := 26.
Definition LEFT_ANKLE : nat := 27.
Definition RIGHT_ANKLE : nat := 28.

(** The helper [getPos] of both update functions; [world] says whether the
    world landmarks are in use.  [None] is the [TypeError] of reading a
    landmark that does not exist. *)
Definition getPos (lms : list Pose.Landmark) (world : bool) (index : nat)
    : option THREE.Vector3 :=
  lm ← lms !! index;
  Some (if world
        then THREE.mkVector3 (- Pose.x lm) (- Pose.y lm + 1.5) (- Pose.z lm)
        else THREE.mkVector3 ((Pose.x lm - 0.5) * 2)
                             (- (Pose.y lm - 0.5) * 2 + 1.5)
                             (- Pose.z lm * 2)).

(** [updateLimb(name, startIdx, midIdx, endIdx, getPos)] on [this.bones] *)
Definition updateLimb (bs : gmap string THREE.Object3D) (name : string)
    (startIdx midIdx endIdx : nat) (getPos : nat -> option THREE.Vector3)
    : option (gmap string THREE.Object3D) :=
  start ← getPos startIdx;
  mid ← getPos midIdx;
  end_ ← getPos endIdx;
  let down := THREE.mkVector3 0 (-1) 0 in
  let bs1 :=
    alter (fun b =>
             let upperMid := THREE.lerp start mid 0.5 in
             let upperDir := THREE.normalize (THREE.subVectors mid start) in
             let upperLength := THREE.distanceTo start mid in
             THREE.set_scale_y
               (THREE.set_quaternion (THREE.set_position b upperMid)
                  (THREE.setFromUnitVectors down upperDir))
               (upperLength / 0.4))
          (name +:+ "Upper") bs in
  let bs2 := alter (fun b => THREE.set_position b mid) (name +:+ "Joint") bs1 in
  let bs3 :=
    alter (fun b =>
             let lowerMid := THREE.lerp mid end_ 0.5 in
             let lowerDir := THREE.normalize (THREE.subVectors end_ mid) in
             let lowerLength := THREE.distanceTo mid end_ in
             THREE.set_scale_y
               (THREE.set_quaternion (THREE.set_position b lowerMid)
                  (THREE.setFromUnitVectors down lowerDir))
               (lowerLength / 0.4))
          (name +:+ "Lower") bs2 in
  Some (alter (fun b => THREE.set_position b end_) (name +:+ "End") bs3).

Definition node_set (f : THREE.Object3D -> THREE.Object3D) (n : Node) : Node :=
  mkNode (f (object n)) (isBone n) (isObject3D n) (isMesh n) (isSkinnedMesh n).

(** The helper [setLimbRotation(bone, startPos, endPos)] of
    [updateGLTFModelFromPose]; the caller has checked that the bone
    exists, [bone] is its place in the loaded scene. *)
Definition setLimbRotation (nodes : list Node) (bone : nat)
    (startPos endPos : THREE.Vector3) : list Node :=
  let direction := THREE.subVectors endPos startPos in
  let length := THREE.length direction in
  if Rgtb length 0.01 then
    let boneDirection := THREE.mkVector3 0 1 0 in
    alter (node_set (fun b =>
               THREE.set_quaternion b
                 (THREE.setFromUnitVectors boneDirection
                    (THREE.normalize direction))))
          bone nodes
  else nodes.

(** [if (this.gltfBones[key]) setLimbRotation(this.gltfBones[key],
    getPos(a), getPos(b))] *)
Definition rotateLimb (gb : gmap string nat)
    (getPos : nat -> option THREE.Vector3) (key : string) (a b : nat)
    (nodes : list Node) : option (list Node) :=
  match gb !! key with
  | Some bone =>
      startPos ← getPos a;
      endPos ← getPos b;
      Some (setLimbRotation nodes bone startPos endPos)
  | None => Some nodes
  end.

(** [updateGLTFModelFromPose(landmarks, useWorldCoords)] *)
Definition updateGLTFModelFromPose (r : t) (lms : list Pose.Landmark)
    (useWorldCoords : bool) : option t :=
  let getPos := getPos lms useWorldCoords in
  lh ← getPos LEFT_HIP;
  rh ← getPos RIGHT_HIP;
  let hipCenter := THREE.lerp lh rh 0.5 in
  let place (o : THREE.Object3D) :=
    THREE.set_position o
      (THREE.mkVector3 (THREE.x hipCenter) (THREE.y hipCenter - 1.0)
                       (THREE.z hipCenter)) in
  let model :=
    match characterModel r with
    | Some (Procedural g) => Some (Procedural (place g))
    | other => other
    end in
  let nodes0 :=
    match characterModel r with
    | Some Loaded =>
        (fun nodes : list Node => alter (node_set place) 0%nat nodes)
          <$> loadedGLTFModel r
    | _ => loadedGLTFModel r
    end in
  let gb := gltfBones r in
  if decide (0 < size gb)%nat then
    nodes1 ←
      match gb !! "head" with
      | Some bone =>
          nosePos ← getPos NOSE;
          ls ← getPos LEFT_SHOULDER;
          rs ← getPos RIGHT_SHOULDER;
          Some (setLimbRotation (default [] nodes0) bone
                  (THREE.lerp ls rs 0.5) nosePos)
      | None => Some (default [] nodes0)
      end;
    nodes2 ←
      match gb !! "spine" with
      | Some bone =>
          ls ← getPos LEFT_SHOULDER;
          rs ← getPos RIGHT_SHOULDER;
          Some (setLimbRotation nodes1 bone hipCenter (THREE.lerp ls rs 0.5))
      | None => Some nodes1
      end;
    nodes3 ← rotateLimb gb getPos "leftShoulder" LEFT_SHOULDER LEFT_ELBOW nodes2;
    nodes4 ← rotateLimb gb getPos "leftElbow" LEFT_ELBOW LEFT_WRIST nodes3;
    nodes5 ← rotateLimb gb getPos "rightShoulder" RIGHT_SHOULDER RIGHT_ELBOW nodes4;
    nodes6 ← rotateLimb gb getPos "rightElbow" RIGHT_ELBOW RIGHT_WRIST nodes5;
    nodes7 ← rotateLimb gb getPos "leftHip" LEFT_HIP LEFT_KNEE nodes6;
    nodes8 ← rotateLimb gb getPos "leftKnee" LEFT_KNEE LEFT_ANKLE nodes7;
    nodes9 ← rotateLimb gb getPos "rightHip" RIGHT_HIP RIGHT_KNEE nodes8;
    nodes10 ← rotateLimb gb getPos "rightKnee" RIGHT_KNEE RIGHT_ANKLE nodes9;
    Some (mk model (bones r) (Some nodes10) gb (modelType r)
             (console r ++ [Log "Updating bones with pose data"]))
  else
    Some (mk model (bones r) nodes0 gb (modelType r)
             (console r ++
              [Warn "No bones found - model may not be rigged or bone names don't match"])).

(** The block "Update head" of [updateCharacterFromPose]. *)
Definition updateHead (bs : gmap string THREE.Object3D)
    (lms : list Pose.Landmark) (getPos : nat -> option THREE.Vector3)
    : option (gmap string THREE.Object3D) :=
  match bs !! "head" with
  | Some head =>
      nose ← lms !! NOSE;
      if gt_number (Pose.visibility nose) 0.5 then
        p ← getPos NOSE;
        Some (<["head" := THREE.set_position head p]> bs)
      else Some bs
  | None => Some bs
  end.

(** The block "Update torso (between shoulders and hips)". *)
Definition updateTorso (bs : gmap string THREE.Object3D)
    (getPos : nat -> option THREE.Vector3)
    : option (gmap string THREE.Object3D) :=
  match bs !! "torso" with
  | Some torso =>
      ls ← getPos LEFT_SHOULDER;
      rs ← getPos RIGHT_SHOULDER;
      lh ← getPos LEFT_HIP;
      rh ← getPos RIGHT_HIP;
      let shoulderCenter := THREE.lerp ls rs 0.5 in
      let hipCenter := THREE.lerp lh rh 0.5 in
      (* [lerp] works in place: from here on [shoulderCenter] and
         [torsoPos] are one vector *)
      let torsoPos := THREE.lerp shoulderCenter hipCenter 0.5 in
      let torsoDir := THREE.normalize (THREE.subVectors torsoPos hipCenter) in
      Some (<["torso" :=
                THREE.set_quaternion (THREE.set_position torso torsoPos)
                  (THREE.setFromUnitVectors (THREE.mkVector3 0 1 0) torsoDir)]>
              bs)
  | None => Some bs
  end.

(** The block "Update hips". *)
Definition updateHips (bs : gmap string THREE.Object3D)
    (getPos : nat -> option THREE.Vector3)
    : option (gmap string THREE.Object3D) :=
  match bs !! "hips" with
  | Some hips =>
      lh ← getPos LEFT_HIP;
      rh ← getPos RIGHT_HIP;
      Some (<["hips" := THREE.set_position hips (THREE.lerp lh rh 0.5)]> bs)
  | None => Some bs
  end.

(** The landmark list [updateCharacterFromPose] works on: the world
    landmarks when there are any, the image landmarks otherwise. *)
Definition selected (pose : Pose.PoseEntry) : list Pose.Landmark :=
  if bool_decide (0 < List.length (Pose.worldLandmarks pose))%nat
  then Pose.worldLandmarks pose else Pose.landmarks pose.

(** The frames [updateCharacterFromPose] turns down: no pose, or fewer than
    33 landmarks for the first pose. *)
Definition tooShort (poseData : Pose.PoseData) : Prop :=
  match Pose.poses poseData with
  | None | Some [] => True
  | Some (pose :: _) => (List.length (selected pose) < 33)%nat
  end.

(** [updateCharacterFromPose(poseData)]; [None] when the call throws. *)
Definition updateCharacterFromPose (r : t) (poseData : Pose.PoseData) : option t :=
  match Pose.poses poseData with
  | None | Some [] => Some r
  | Some (pose :: _) =>
      let world := bool_decide (0 < List.length (Pose.worldLandmarks pose))%nat in
      let lms := selected pose in
      if decide (List.length lms < 33)%nat then Some r
      else if bool_decide (modelType r = "custom")
              && bool_decide (is_Some (loadedGLTFModel r))
      then updateGLTFModelFromPose r lms world
      else
        let getPos := getPos lms world in
        bs1 ← updateHead (bones r) lms getPos;
        bs2 ← updateTorso bs1 getPos;
        bs3 ← updateHips bs2 getPos;
        bs4 ← updateLimb bs3 "leftArm" LEFT_SHOULDER LEFT_ELBOW LEFT_WRIST getPos;
        bs5 ← updateLimb bs4 "rightArm" RIGHT_SHOULDER RIGHT_ELBOW RIGHT_WRIST getPos;
        bs6 ← updateLimb bs5 "leftLeg" LEFT_HIP LEFT_KNEE LEFT_ANKLE getPos;
        bs7 ← updateLimb bs6 "rightLeg" RIGHT_HIP RIGHT_KNEE RIGHT_ANKLE getPos;
        Some (with_bones r bs7)
  end.

(** The warning of [updateGLTFModelFromPose]. *)
Definition noBonesWarning : Output :=
  Warn "No bones found - model may not be rigged or bone names don't match".

(** Two lists of objects with the same rotations, object by object. *)
Definition sameRotations (nodes nodes' : list Node) : Prop :=
  Forall2 (fun n n' =>
             THREE.quaternion (object n') = THREE.quaternion (object n))
          nodes nodes'.

(** The alias table [commonBoneNames] of [findGLTFBones], in the order it
    is written (the order [Object.entries] yields). *)
Definition commonBoneNames : list (string * list string) :=
  [ ("head", ["head"; "Head"; "HEAD"; "neck"; "Neck"; "cranium"; "mixamorigHead"; "mixamorigNeck"]);
    ("spine", ["spine"; "Spine"; "SPINE"; "torso"; "Torso"; "chest"; "Chest"; "back"; "mixamorigSpine"; "mixamorigSpine1"; "mixamorigSpine2"]);
    ("hips", ["hips"; "Hips"; "HIPS"; "pelvis"; "Pelvis"; "root"; "mixamorigHips"]);
    ("leftShoulder", ["LeftShoulder"; "L_Shoulder"; "shoulder.L"; "LeftArm"; "shoulder_L"; "upperarm_l"; "mixamorigLeftShoulder"; "mixamorigLeftArm"]);
    ("rightShoulder", ["RightShoulder"; "R_Shoulder"; "shoulder.R"; "RightArm"; "shoulder_R"; "upperarm_r"; "mixamorigRightShoulder"; "mixamorigRightArm"]);
    ("leftElbow", ["LeftElbow"; "L_Elbow"; "elbow.L"; "LeftForeArm"; "forearm_l"; "lowerarm_l"; "mixamorigLeftForeArm"]);
    ("rightElbow", ["RightElbow"; "R_Elbow"; "elbow.R"; "RightForeArm"; "forearm_r"; "lowerarm_r"; "mixamorigRightForeArm"]);
    ("leftWrist", ["LeftHand"; "L_Hand"; "hand.L"; "LeftWrist"; "hand_l"; "mixamorigLeftHand"]);
    ("rightWrist", ["RightHand"; "R_Hand"; "hand.R"; "RightWrist"; "hand_r"; "mixamorigRightHand"]);
    ("leftHip", ["LeftHip"; "L_Hip"; "hip.L"; "LeftUpLeg"; "thigh_l"; "upperleg_l"; "mixamorigLeftUpLeg"]);
    ("rightHip", ["RightHip"; "R_Hip"; "hip.R"; "RightUpLeg"; "thigh_r"; "upperleg_r"; "mixamorigRightUpLeg"]);
    ("leftKnee", ["LeftKnee"; "L_Knee"; "knee.L"; "LeftLeg"; "shin_l"; "lowerleg_l"; "calf_l"; "mixamorigLeftLeg"]);
    ("rightKnee", ["RightKnee"; "R_Knee"; "knee.R"; "RightLeg"; "shin_r"; "lowerleg_r"; "calf_r"; "mixamorigRightLeg"]);
    ("leftAnkle", ["LeftAnkle"; "L_Ankle"; "ankle.L"; "LeftFoot"; "foot_l"; "mixamorigLeftFoot"]);
    ("rightAnkle", ["RightAnkle"; "R_Ankle"; "ankle.R"; "RightFoot"; "foot_r"; "mixamorigRightFoot"]) ].

(** The test of the innermost loop:
    [name.toLowerCase().includes(alias.toLowerCase())] *)
Definition nameMatches (name alias : string) : bool :=
  JS.includes (JS.toLowerCase name) (JS.toLowerCase alias).

(** An object answers to a role when the traversal looks at it at all and
    its name matches one of the aliases of the role. *)
Definition roleMatches (aliases : list string) (n : Node) : bool :=
  (isBone n || isObject3D n)
  && existsb (nameMatches (THREE.name (object n))) aliases.

(** [for (const alias of aliases) { if (match) { if (!gltfBones[key])
    gltfBones[key] = object; break; } }] for the object at place [obj]. *)
Fixpoint tryAliases (name : string) (obj : nat) (key : string)
    (aliases : list string) (gb : gmap string nat) : gmap string nat :=
  match aliases with
  | [] => gb
  | alias :: rest =>
      if nameMatches name alias then
        match gb !! key with
        | Some _ => gb
        | None => <[key := obj]> gb
        end
      else tryAliases name obj key rest gb
  end.

(** [for (const [key, aliases] of Object.entries(table)) ...] *)
Definition tryRoles (table : list (string * list string)) (name : string)
    (obj : nat) (gb : gmap string nat) : gmap string nat :=
  foldl (fun gb ka => tryAliases name obj (fst ka) (snd ka) gb) gb table.

(** The callback of the second [gltf.scene.traverse] of [findGLTFBones]. *)
Definition visit (table : list (string * list string))
    (gb : gmap string nat) (on : nat * Node) : gmap string nat :=
  if isBone (snd on) || isObject3D (snd on)
  then tryRoles table (THREE.name (object (snd on))) (fst on) gb
  else gb.

(** The traversal, started with the objects numbered from [from]. *)
Definition matchBones (table : list (string * list string))
    (gb : gmap string nat) (from : nat) (nodes : list Node) : gmap string nat :=
  foldl (visit table) gb (imap (fun i n => ((from + i)%nat, n)) nodes).

(** [findGLTFBones(gltf)].  The console lines are recorded by their
    literal text, without the values appended to them; the lines that
    list every object and every bone of a skinned mesh are left out. *)
Definition findGLTFBones (r : t) (nodes : list Node) : t :=
  let gb := matchBones commonBoneNames ∅ 0 nodes in
  let out :=
    [Log "=== MODEL STRUCTURE ==="; Log "=== BONES FOUND ===";
     Log "Total bones matched:"; Log "Bone mapping:"] ++
    (if decide (size gb = 0)%nat
     then [Log "No bones found by name matching. Checking for SkinnedMesh..."]
     else []) in
  mk (characterModel r) (bones r) (loadedGLTFModel r) gb (modelType r)
     (console r ++ out).

(** The part of [loadGLTFModel(modelPath)] that runs before the loader
    answers. *)
Definition startLoad (r : t) : t :=
  let r1 := print r (Log "Attempting to load model:") in
  match characterModel r1 with
  | Some _ => mk (characterModel r1) ∅ (loadedGLTFModel r1) ∅ (modelType r1)
                 (console r1)
  | None => r1
  end.

(** The success callback of [this.gltfLoader.load]. *)
Definition onLoad (r : t) (gltf : GLTF) : t :=
  let r1 := print r (Log "GLTF Model loaded successfully!") in
  let size := boxSize gltf in
  let maxDim := Rmax (Rmax (THREE.x size) (THREE.y size)) (THREE.z size) in
  let targetHeight := 2 in
  let scale := targetHeight / maxDim in
  let center := boxCenter gltf in
  let fit (o : THREE.Object3D) :=
    THREE.set_position
      (THREE.set_scale o (THREE.mkVector3 scale scale scale))
      (THREE.mkVector3 (- THREE.x center * scale) 0 (- THREE.z center * scale)) in
  let nodes := alter (node_set fit) 0%nat (scene gltf) in
  let r2 := mk (Some Loaded) (bones r1) (Some nodes) (gltfBones r1) "custom"
               (console r1 ++ [Log "Model size:"]) in
  let r3 := findGLTFBones r2 nodes in
  print r3 (Log "Model added to scene. Bones found:").

(** The error callback of [this.gltfLoader.load]. *)
Definition onError (r : t) : t :=
  let r1 := print r (Error "Error loading GLTF model:") in
  let r2 := print r1 (Alert "Failed to load") in
  let r3 := print r2 (Error "Full error:") in
  createProceduralCharacter r3.

(** [loadGLTFModel(modelPath)] with the answer of the loader: the loaded
    [gltf], or [None] when loading fails. *)
Definition loadGLTFModel (r : t) (answer : option GLTF) : t :=
  match answer with
  | Some gltf => onLoad (startLoad r) gltf
  | None => onError (startLoad r)
  end.

End CharacterViewer.

(** ** webTest/modelViewer.js *)

Module ModelViewer.

(** A bone of the stick figure: a cylinder of the given height.  (The
    colours of the materials are not part of the model.) *)
Record Cylinder := mkCylinder {
  height : R;
  cylinder : THREE.Object3D
}.

Record t := mk {
  jointSpheres : gmap nat THREE.Object3D;
  boneCylinders : list Cylinder;
  boneConnections : list (nat * nat);
  showSkeleton : bool;
  poseCount : nat
}.

(** [createSkeletonStructure()]: 33 hidden spheres and the connections. *)
Definition createSkeletonStructure (r : t) : t :=
  mk (foldl (fun js i => <[i := THREE.set_visible (THREE.object3D "") false]> js)
            (jointSpheres r) (seq 0 33))
     (boneCylinders r)
     [ (0, 1); (1, 2); (2, 3); (3, 7);
       (0, 4); (4, 5); (5, 6); (6, 8);
       (9, 10);
       (11, 12);
       (11, 13); (13, 15);
       (12, 14); (14, 16);
       (15, 17); (15, 19); (15, 21);
       (16, 18); (16, 20); (16, 22);
       (11, 23); (12, 24); (23, 24);
       (23, 25); (25, 27);
       (24, 26); (26, 28);
       (27, 29); (27, 31);
       (28, 30); (28, 32) ]%nat
     (showSkeleton r) (poseCount r).

(** The state the constructor leaves. *)
Definition new : t := createSkeletonStructure (mk ∅ [] [] true 0).

(** The body of [landmarks.forEach((landmark, index) => ...)]. *)
Definition updateSphere (world : bool) (js : gmap nat THREE.Object3D)
    (il : nat * Pose.Landmark) : gmap nat THREE.Object3D :=
  let index := fst il in
  let landmark := snd il in
  match js !! index with
  | Some sphere =>
      let p :=
        if world
        then THREE.mkVector3 (- Pose.x landmark) (- Pose.y landmark)
                             (- Pose.z landmark)
        else THREE.mkVector3 ((Pose.x landmark - 0.5) * 2)
                             (- (Pose.y landmark - 0.5) * 2)
                             (- Pose.z landmark) in
      <[index :=
          THREE.set_visible
            (THREE.set_position sphere
               (THREE.mkVector3 (THREE.x p) (THREE.y p + 1) (THREE.z p)))
            (gt_number (Pose.visibility landmark) 0.5)]> js
  | None => js
  end.

(** The body of [this.boneConnections.forEach(([startIdx, endIdx]) =>
    ...)]: the cylinder to add, if any; the outer [None] is the
    [TypeError] of reading [visible] from a sphere that does not exist. *)
Definition boneCylinder (js : gmap nat THREE.Object3D) (c : nat * nat)
    : option (option Cylinder) :=
  start ← js !! fst c;
  end_ ← js !! snd c;
  if THREE.visible start && THREE.visible end_ then
    let direction := THREE.subVectors (THREE.position end_) (THREE.position start) in
    let length := THREE.length direction in
    if Rgtb length 0.01 then
      (* [multiplyScalar] works in place: [direction] is halved from here on *)
      let half := THREE.multiplyScalar direction 0.5 in
      let axis := THREE.mkVector3 0 1 0 in
      Some (Some (mkCylinder length
              (THREE.set_quaternion
                 (THREE.set_position (THREE.object3D "")
                    (THREE.add (THREE.position start) half))
                 (THREE.setFromUnitVectors axis (THREE.normalize half)))))
    else Some None
  else Some None.

(** [updateBones()] *)
Definition updateBones (r : t) : option t :=
  if showSkeleton r then
    cs ← mapM (boneCylinder (jointSpheres r)) (boneConnections r);
    Some (mk (jointSpheres r) (omap (fun c : option Cylinder => c) cs)
             (boneConnections r)
             (showSkeleton r) (poseCount r))
  else Some (mk (jointSpheres r) [] (boneConnections r) (showSkeleton r)
                (poseCount r)).

(** [updateVisualization(poseData)] *)
Definition updateVisualization (r : t) (poseData : Pose.PoseData) : option t :=
  match Pose.poses poseData with
  | None | Some [] => Some r
  | Some ((pose :: _) as ps) =>
      let world := bool_decide (0 < List.length (Pose.worldLandmarks pose))%nat in
      let landmarks :=
        if world then Pose.worldLandmarks pose else Pose.landmarks pose in
      let js := foldl (updateSphere world) (jointSpheres r)
                      (imap pair landmarks) in
      r1 ← updateBones (mk js (boneCylinders r) (boneConnections r)
                           (showSkeleton r) (poseCount r));
      Some (mk (jointSpheres r1) (boneCylinders r1) (boneConnections r1)
               (showSkeleton r1) (List.length ps))
  end.

End ModelViewer.

(** ** webTest/poseExporter.js *)

Module PoseExporter.

(** [WebSocket.readyState] *)
Inductive ReadyState := CONNECTING | OPEN | CLOSING | CLOSED.

#[global] Instance ReadyState_eq_dec : EqDecision ReadyState.
Proof. solve_decision. Defined.

(** A [BroadcastChannel]: listening, or closed by [close()]. *)
Inductive ChannelState := Listening | Closed.

(** The exporter: [channel] holds the state of the broadcast channel, if
    one could be created, [websocket] the state of the socket, if one was
    created. *)
Record t := mk {
  channel : option ChannelState;
  websocket : option ReadyState;
  enabled : bool;
  exportFormat : string;
  frameCount : nat;
  lastExportTime : R
}.

(** A MediaPipe result: [landmarks] and [worldLandmarks], one list per
    person, either of which may be missing. *)
Record Result := mkResult {
  landmarks : option (list (list Pose.Landmark));
  worldLandmarks : option (list (list Pose.Landmark))
}.

Record VideoInfo := mkVideoInfo { width : option R; height : option R }.

(** The relay wire format. *)
Record Landmark := mkLandmark {
  id : nat;
  name : string;
  x : R;
  y : R;
  z : R;
  visibility : R
}.

Record PersonPose := mkPersonPose {
  personId : nat;
  pose_landmarks : list Landmark;
  pose_worldLandmarks : list Landmark
}.

Record PoseData := mkPoseData {
  timestamp : R;
  data_frameCount : nat;
  poses : list PersonPose;
  videoInfo : VideoInfo
}.

(** What a publish does to the outside: a message posted on the
    broadcast channel, a frame sent on the socket (as JSON), a listener
    of the [pose-data] event of the window called, an error printed on the
    console. *)
Inductive Effect :=
| PostMessage (d : PoseData)
| Send (d : PoseData)
| Invoke (listener : nat) (d : PoseData)
| ConsoleError (s : string).

Definition landmarkNames : list string :=
  [ "nose"; "left_eye_inner"; "left_eye"; "left_eye_outer";
    "right_eye_inner"; "right_eye"; "right_eye_outer";
    "left_ear"; "right_ear"; "mouth_left"; "mouth_right";
    "left_shoulder"; "right_shoulder"; "left_elbow"; "right_elbow";
    "left_wrist"; "right_wrist"; "left_pinky"; "right_pinky";
    "left_index"; "right_index"; "left_thumb"; "right_thumb";
    "left_hip"; "right_hip"; "left_knee"; "right_knee";
    "left_ankle"; "right_ankle"; "left_heel"; "right_heel";
    "left_foot_index"; "right_foot_index" ].

(** [getLandmarkName(index)] *)
Definition getLandmarkName (index : nat) : string :=
  match landmarkNames !! index with
  | Some n => n
  | None => "landmark_" +:+ pretty index
  end.

(** [landmark.visibility || 1.0]: a missing or zero visibility is
    replaced by 1. *)
Definition orOne (v : option R) : R :=
  match v with
  | Some a => if Req_dec_T a 0 then 1.0 else a
  | None => 1.0
  end.

(** The callback of both inner [map]s. *)
Definition exportLandmark (idx : nat) (landmark : Pose.Landmark) : Landmark :=
  mkLandmark idx (getLandmarkName idx) (Pose.x landmark) (Pose.y landmark)
             (Pose.z landmark) (orOne (Pose.visibility landmark)).

(** The callback of the outer [map]. *)
Definition exportPerson (result : Result) (index : nat)
    (landmarks : list Pose.Landmark) : PersonPose :=
  mkPersonPose index
    (imap exportLandmark landmarks)
    (match worldLandmarks result ≫= (fun w => w !! index) with
     | Some wl => imap exportLandmark wl
     | None => []
     end).

(** The block "Broadcast via BroadcastChannel": [postMessage] throws on a
    channel that has been closed, and the error is caught and printed. *)
Definition broadcast (c : option ChannelState) (poseData : PoseData)
    : list Effect :=
  match c with
  | Some Listening => [PostMessage poseData]
  | Some Closed => [ConsoleError "PoseExporter: BroadcastChannel error"]
  | None => []
  end.

(** The block "Send via WebSocket". *)
Definition sendSocket (ws : option ReadyState) (poseData : PoseData)
    : list Effect :=
  match ws with
  | Some OPEN => [Send poseData]
  | _ => []
  end.

(** The block "Dispatch custom event for same-page listeners", with the
    listeners the window has for [pose-data]. *)
Definition dispatchEvent (listeners : list nat) (poseData : PoseData)
    : list Effect :=
  map (fun l => Invoke l poseData) listeners.

(** [exportPose(result, timestamp, videoInfo)], with the listeners the
    window has for [pose-data]: the new state and what was sent. *)
Definition exportPose (e : t) (listeners : list nat) (result : Result)
    (timestamp : R) (videoInfo : VideoInfo) : t * list Effect :=
  if negb (enabled e) then (e, [])
  else
    match landmarks result with
    | None => (e, [])
    | Some lms =>
        if bool_decide (List.length lms = 0%nat) then (e, [])
        else
          let poseData :=
            mkPoseData timestamp (frameCount e)
                       (imap (exportPerson result) lms) videoInfo in
          (mk (channel e) (websocket e) (enabled e) (exportFormat e)
              (S (frameCount e)) timestamp,
           broadcast (channel e) poseData ++
           sendSocket (websocket e) poseData ++
           dispatchEvent listeners poseData)
    end.



(** [setEnabled(enabled)] *)
Definition setEnabled (e : t) (b : bool) : t :=
  mk (channel e) (websocket e) b (exportFormat e) (frameCount e)
     (lastExportTime e).

(** [destroy()]: the channel is closed, the socket starts closing. *)
Definition destroy (e : t) : t :=
  mk ((fun _ => Closed) <$> channel e)
     ((fun st => match st with
                 | CONNECTING | OPEN => CLOSING
                 | other => other
                 end) <$> websocket e)
     (enabled e) (exportFormat e) (frameCount e) (lastExportTime e).

End PoseExporter.

(** ** The conversion of coordinates, in the words of the specification *)

Module Spec.

(** Normalized space to centred space:
    [x' = (x - 0.5) * 2], [y' = -(y - 0.5) * 2], [z' = -z * depthScale]. *)
Definition normalizedToCentred (depthScale : R) (lm : Pose.Landmark)
    : THREE.Vector3 :=
  THREE.mkVector3 ((Pose.x lm - 0.5) * 2) (- (Pose.y lm - 0.5) * 2)
                  (- Pose.z lm * depthScale).

(** World space to centred space:
    [x' = -x], [y' = -y + verticalOffset], [z' = -z]. *)
Definition worldToCentred (verticalOffset : R) (lm : Pose.Landmark)
    : THREE.Vector3 :=
  THREE.mkVector3 (- Pose.x lm) (- Pose.y lm + verticalOffset) (- Pose.z lm).

(** A point lifted by [h]. *)
Definition raised (h : R) (p : THREE.Vector3) : THREE.Vector3 :=
  THREE.mkVector3 (THREE.x p) (THREE.y p + h) (THREE.z p).

End Spec.

(** ** Sample frames and states *)

Module Examples.

(** A frame of 33 landmarks on a line, landmark [i] at [x = i], all seen
    with confidence 1. *)
Definition lineFrame : list Pose.Landmark :=
  map (fun i => Pose.mkLandmark (INR i) 0 0 (Some 1)) (seq 0 33).

Definition lineFrame_entries : list (option Pose.Landmark) :=
  Some <$> lineFrame.

(** A renderer as [init] leaves it, at scale [s]. *)
Definition rendererAt (s : R) : SkeletonRenderer.t :=
  SkeletonRenderer.createSkeleton
    (SkeletonRenderer.mk None [] [] s 0.05 true true).

(** The same with the "show bones" box unchecked. *)
Definition bonesOff : SkeletonRenderer.t :=
  SkeletonRenderer.createSkeleton
    (SkeletonRenderer.mk None [] [] 1 0.05 true false).

(** The first bone of the skeleton: nose to left eye, [[0, 2]]. *)
Definition firstBone : SkeletonRenderer.Bone :=
  SkeletonRenderer.mkBone (THREE.object3D "") 0 2.

(** A frame of 34 landmarks, one more than the body model has. *)
Definition longFrame : Pose.PoseData :=
  Pose.mkPoseData
    (Some [Pose.mkPoseEntry (replicate 34 (Pose.mkLandmark 1 0.5 0 (Some 1))) []]).

(** A frame of 33 landmarks, all at the centre of the image. *)
Definition stillFrame : Pose.PoseData :=
  Pose.mkPoseData
    (Some [Pose.mkPoseEntry (replicate 33 (Pose.mkLandmark 0.5 0.5 0 (Some 1))) []]).

(** An exporter with a broadcast channel and a socket that is still
    connecting. *)
Definition exporter : PoseExporter.t :=
  PoseExporter.mk (Some PoseExporter.Listening) (Some PoseExporter.CONNECTING)
                  true "normalized" 0 0.

(** A result with one person and one landmark, of confidence 0. *)
Definition unseenResult : PoseExporter.Result :=
  PoseExporter.mkResult (Some [[Pose.mkLandmark 0.5 0.5 0 (Some 0)]]) None.

Definition noVideoInfo : PoseExporter.VideoInfo :=
  PoseExporter.mkVideoInfo None None.

(** The objects of a small rig, in the order of the traversal. *)
Definition rig : list CharacterViewer.Node :=
  [ CharacterViewer.mkNode (THREE.object3D "Armature") false true false false;
    CharacterViewer.mkNode (THREE.object3D "mixamorigHips") true true false false;
    CharacterViewer.mkNode (THREE.object3D "mixamorigSpine") true true false false;
    CharacterViewer.mkNode (THREE.object3D "mixamorigHead") true true false false;
    CharacterViewer.mkNode (THREE.object3D "mixamorigHeadTop_End") true true false false ].

(** A loaded model none of whose objects bears a bone name: a scene with
    one cube. *)
Definition cube : CharacterViewer.GLTF :=
  CharacterViewer.mkGLTF
    [ CharacterViewer.mkNode (THREE.object3D "Scene") false true false false;
      CharacterViewer.mkNode (THREE.object3D "Cube") false true true false ]
    (THREE.mkVector3 1 1 1) (THREE.mkVector3 0 0 0).

End Examples.

(** ** What the skeleton renderer shows *)

Module SkeletonDisplay.
Import SkeletonRenderer.

(** Two joints that look the same: both hidden, or both shown at the same
    place. *)
Definition sameJoint (j1 j2 : THREE.Object3D) : Prop :=
  THREE.visible j2 = THREE.visible j1 /\
  (THREE.visible j1 = true -> THREE.position j2 = THREE.position j1).

(** Two bones that look the same: between the same joints, both hidden, or
    both shown at the same place, with the same rotation and the same
    length. *)
Definition sameBone (b1 b2 : Bone) : Prop :=
  start b2 = start b1 /\ end_ b2 = end_ b1 /\
  THREE.visible (mesh b2) = THREE.visible (mesh b1) /\
  (THREE.visible (mesh b1) = true ->
   THREE.position (mesh b2) = THREE.position (mesh b1) /\
   THREE.quaternion (mesh b2) = THREE.quaternion (mesh b1) /\
   THREE.y (THREE.scale (mesh b2)) = THREE.y (THREE.scale (mesh b1))).

(** Two renderers with the same settings and the same connections,
    whatever their joints and bones have been through. *)
Definition sameSettings (r1 r2 : t) : Prop :=
  scale r2 = scale r1 /\ showJoints r2 = showJoints r1 /\
  showBones r2 = showBones r1 /\
  Forall2 (fun b1 b2 => start b2 = start b1 /\ end_ b2 = end_ b1)
          (bones r1) (bones r2).

End SkeletonDisplay.

(** ** webTest/characterViewer.js: the other characters and the handlers *)

Module CharacterViewerApp.
Import CharacterViewer.

(** [createRobotCharacter()].  The eyes and the power core are added to
    the group without being entered in [this.bones]; they are left out. *)
Definition createRobotCharacter (r : t) : t :=
  let bs0 := <["hips" := meshAt (THREE.mkVector3 0 0.75 0)]>
               (<["torso" := meshAt (THREE.mkVector3 0 1.1 0)]>
                  (<["head" := meshAt (THREE.mkVector3 0 1.5 0)]> (bones r))) in
  let bs1 := createLimb bs0 "leftArm" (THREE.mkVector3 (-0.27) 1.3 0) 0.35 in
  let bs2 := createLimb bs1 "rightArm" (THREE.mkVector3 0.27 1.3 0) 0.35 in
  let bs3 := createLimb bs2 "leftLeg" (THREE.mkVector3 (-0.15) 0.65 0) 0.45 in
  let bs4 := createLimb bs3 "rightLeg" (THREE.mkVector3 0.15 0.65 0) 0.45 in
  mk (Some (Procedural (THREE.object3D "robot"))) bs4
     (loadedGLTFModel r) (gltfBones r) (modelType r) (console r).

(** [createStickman()] *)
Definition createStickman (r : t) : t :=
  let bs0 := <["hips" := meshAt (THREE.mkVector3 0 0.7 0)]>
               (<["torso" := meshAt (THREE.mkVector3 0 1.05 0)]>
                  (<["head" := meshAt (THREE.mkVector3 0 1.5 0)]> (bones r))) in
  let bs1 := createLimb bs0 "leftArm" (THREE.mkVector3 (-0.15) 1.35 0) 0.35 in
  let bs2 := createLimb bs1 "rightArm" (THREE.mkVector3 0.15 1.35 0) 0.35 in
  let bs3 := createLimb bs2 "leftLeg" (THREE.mkVector3 (-0.1) 0.7 0) 0.45 in
  let bs4 := createLimb bs3 "rightLeg" (THREE.mkVector3 0.1 0.7 0) 0.45 in
  mk (Some (Procedural (THREE.object3D "stickman"))) bs4
     (loadedGLTFModel r) (gltfBones r) (modelType r) (console r).

(** [changeModel(modelType)] *)
Definition changeModel (r : t) (type : string) : t :=
  let r1 := mk (characterModel r) (bones r) (loadedGLTFModel r) (gltfBones r)
               type (console r) in
  let r2 :=
    match characterModel r1 with
    | Some _ => mk (characterModel r1) ∅ (loadedGLTFModel r1) ∅ (modelType r1)
                   (console r1)
    | None => r1
    end in
  if decide (type = "humanoid") then createProceduralCharacter r2
  else if decide (type = "robot") then createRobotCharacter r2
  else if decide (type = "stickman") then createStickman r2
  else r2.

(** The [change] handler of the [model-choice] list. *)
Definition modelChoice (r : t) (value : string) : t :=
  if decide (value <> "custom") then changeModel r value else r.

(** The callback [setupPoseReceiver] hands to the [PoseReceiver]: the new
    state and the number written into the [pose-count] element; [None]
    when the callback throws. *)
Definition onPoseData (r : t) (poseData : Pose.PoseData) : option (t * nat) :=
  r' ← updateCharacterFromPose r poseData;
  poses ← Pose.poses poseData;
  Some (r', List.length poses).

(** The names [createLimb] enters for the four limbs, with the three of
    the trunk: the parts of a built-in character. *)
Definition parts : list string :=
  ["head"; "torso"; "hips"] ++
  (limb ← ["leftArm"; "rightArm"; "leftLeg"; "rightLeg"];
   (fun part => limb +:+ part) <$> ["Upper"; "Joint"; "Lower"; "End"]).

(** The roles [updateGLTFModelFromPose] turns. *)
Definition turnedRoles : list string :=
  ["head"; "spine"; "leftShoulder"; "leftElbow"; "rightShoulder"; "rightElbow";
   "leftHip"; "leftKnee"; "rightHip"; "rightKnee"].

(** What a pose never changes of an object of a loaded model. *)
Definition sameButPose (n n' : Node) : Prop :=
  THREE.name (object n') = THREE.name (object n) /\
  THREE.scale (object n') = THREE.scale (object n) /\
  THREE.visible (object n') = THREE.visible (object n) /\
  isBone n' = isBone n /\ isObject3D n' = isObject3D n /\
  isMesh n' = isMesh n /\ isSkinnedMesh n' = isSkinnedMesh n.

(** The objects [nodes'] are the objects [nodes] after a pose: as many,
    each one as it was but for the position of the root and the rotations
    of the objects that [turned] holds of. *)
Definition posed (turned : nat -> Prop) (nodes nodes' : list Node) : Prop :=
  List.length nodes' = List.length nodes /\
  forall i n n', nodes !! i = Some n -> nodes' !! i = Some n' ->
    sameButPose n n' /\
    (i <> 0%nat -> THREE.position (object n') = THREE.position (object n)) /\
    (~ turned i -> THREE.quaternion (object n') = THREE.quaternion (object n)).

(** The object at place [i] is bound to one of the roles that
    [updateGLTFModelFromPose] turns. *)
Definition bound (gb : gmap string nat) (i : nat) : Prop :=
  exists key, key ∈ turnedRoles /\ gb !! key = Some i.

(** The test [this.modelType === 'custom' && this.loadedGLTFModel] of
    [updateCharacterFromPose]: the pose goes to the loaded model. *)
Definition drivesLoaded (r : t) : bool :=
  bool_decide (modelType r = "custom")
  && bool_decide (is_Some (loadedGLTFModel r)).

(** The four calls of [updateLimb] in [updateCharacterFromPose]: each limb
    with the landmarks of its start, its middle and its end. *)
Definition limbs : list (string * (nat * nat * nat)) :=
  [ ("leftArm", (LEFT_SHOULDER, LEFT_ELBOW, LEFT_WRIST));
    ("rightArm", (RIGHT_SHOULDER, RIGHT_ELBOW, RIGHT_WRIST));
    ("leftLeg", (LEFT_HIP, LEFT_KNEE, LEFT_ANKLE));
    ("rightLeg", (RIGHT_HIP, RIGHT_KNEE, RIGHT_ANKLE)) ].

(** A frame for the viewer with [pose] as its first pose. *)
Definition frame (pose : Pose.PoseEntry) (rest : list Pose.PoseEntry)
    : Pose.PoseData :=
  Pose.mkPoseData (Some (pose :: rest)).

(** Whether the world landmarks of a pose are in use. *)
Definition usesWorld (pose : Pose.PoseEntry) : bool :=
  bool_decide (0 < List.length (Pose.worldLandmarks pose))%nat.

(** The viewer after the cube of the examples has been loaded. *)
Definition loadedCube : t := loadGLTFModel new (Some Examples.cube).

(** The viewer after the small rig of the examples has been loaded. *)
Definition loadedRig : t :=
  loadGLTFModel new
    (Some (mkGLTF Examples.rig (THREE.mkVector3 1 2 1) THREE.zero)).

End CharacterViewerApp.

(** ** webTest/modelViewer.js: the handlers *)

Module ModelViewerApp.
Import ModelViewer.

(** The [click] handler of the [toggle-skeleton] button. *)
Definition toggleSkeleton (r : t) : option t :=
  updateBones (mk (jointSpheres r) (boneCylinders r) (boneConnections r)
                  (negb (showSkeleton r)) (poseCount r)).

(** What can happen to the viewer once it is set up: a frame handed over
    by the receiver, or a click on [toggle-skeleton]. *)
Inductive Event :=
| PoseData (poseData : Pose.PoseData)
| ToggleSkeleton.

(** One event; [None] when the handler throws. *)
Definition handle (r : t) (ev : Event) : option t :=
  match ev with
  | PoseData poseData => updateVisualization r poseData
  | ToggleSkeleton => toggleSkeleton r
  end.

(** A sequence of events, one after the other. *)
Fixpoint run (r : t) (evs : list Event) : option t :=
  match evs with
  | [] => Some r
  | ev :: rest => r' ← handle r ev; run r' rest
  end.

(** The shape [createSkeletonStructure] establishes: a sphere for each of
    the 33 landmarks, and connections between spheres that exist. *)
Definition rigged (r : t) : Prop :=
  (forall i, (i < 33)%nat -> is_Some (jointSpheres r !! i)) /\
  Forall (fun c : nat * nat => (c.1 < 33)%nat /\ (c.2 < 33)%nat)
         (boneConnections r).

(** The landmark list [updateVisualization] works on. *)
Definition selected (pose : Pose.PoseEntry) : list Pose.Landmark :=
  if bool_decide (0 < List.length (Pose.worldLandmarks pose))%nat
  then Pose.worldLandmarks pose else Pose.landmarks pose.

(** Where [position.set(x, y + 1, z)] puts the sphere of a landmark. *)
Definition spherePosition (world : bool) (landmark : Pose.Landmark)
    : THREE.Vector3 :=
  if world
  then THREE.mkVector3 (- Pose.x landmark) (- Pose.y landmark + 1)
                       (- Pose.z landmark)
  else THREE.mkVector3 ((Pose.x landmark - 0.5) * 2)
                       (- (Pose.y landmark - 0.5) * 2 + 1)
                       (- Pose.z landmark).

(** A cylinder [cyl] drawn from the sphere [s] to the sphere [e]: as high
    as the two are apart, with its two ends, half its height up and down
    its y-axis, on the two spheres. *)
Definition links (cyl : Cylinder) (s e : THREE.Object3D) : Prop :=
  height cyl = THREE.distanceTo (THREE.position e) (THREE.position s) /\
  THREE.add (THREE.position (cylinder cyl))
    (THREE.applyQuaternion (THREE.mkVector3 0 (height cyl / 2) 0)
       (THREE.quaternion (cylinder cyl)))
  = THREE.position e /\
  THREE.add (THREE.position (cylinder cyl))
    (THREE.applyQuaternion (THREE.mkVector3 0 (- (height cyl / 2)) 0)
       (THREE.quaternion (cylinder cyl)))
  = THREE.position s.

(** A frame for the viewer with [pose] as its first pose. *)
Definition frame (pose : Pose.PoseEntry) (rest : list Pose.PoseEntry)
    : Pose.PoseData :=
  Pose.mkPoseData (Some (pose :: rest)).

(** Whether the world landmarks of a pose are in use. *)
Definition usesWorld (pose : Pose.PoseEntry) : bool :=
  bool_decide (0 < List.length (Pose.worldLandmarks pose))%nat.

(** What [updateBones] makes of the connection [c] when the spheres are
    [js]: a cylinder from the one sphere to the other when both are shown
    and more than 0.01 apart, nothing otherwise. *)
Definition drawn (js : gmap nat THREE.Object3D) (c : nat * nat)
    (o : option Cylinder) : Prop :=
  exists s e,
    js !! c.1 = Some s /\ js !! c.2 = Some e /\
    match o with
    | Some cyl =>
        THREE.visible s = true /\ THREE.visible e = true /\
        THREE.distanceTo (THREE.position e) (THREE.position s) > 0.01 /\
        links cyl s e
    | None =>
        THREE.visible s = false \/ THREE.visible e = false \/
        ~ THREE.distanceTo (THREE.position e) (THREE.position s) > 0.01
    end.

End ModelViewerApp.

(** ** webTest/poseExporter.js: calls in sequence, and the receiver *)

Module PoseRelay.
Import PoseExporter.

(** A call of a method of the exporter. *)
Inductive Call :=
| ExportPose (result : Result) (timestamp : R) (videoInfo : VideoInfo)
| SetEnabled (enabled : bool)
| Destroy.

(** One call, with the listeners the window has for [pose-data]: the new
    state and what was sent.  (The line [setEnabled] logs is not among the
    effects.) *)
Definition call (listeners : list nat) (e : t) (c : Call) : t * list Effect :=
  match c with
  | ExportPose result timestamp videoInfo =>
      exportPose e listeners result timestamp videoInfo
  | SetEnabled b => (setEnabled e b, [])
  | Destroy => (destroy e, [])
  end.

(** A sequence of calls, one after the other. *)
Fixpoint calls (listeners : list nat) (e : t) (cs : list Call)
    : t * list Effect :=
  match cs with
  | [] => (e, [])
  | c :: rest =>
      let (e1, out1) := call listeners e c in
      let (e2, out2) := calls listeners e1 rest in
      (e2, out1 ++ out2)
  end.

(** The frames one listener of [pose-data] is called with, in order. *)
Definition seenBy (listener : nat) (effs : list Effect) : list PoseData :=
  omap (fun eff =>
          match eff with
          | Invoke l d => if decide (l = listener) then Some d else None
          | _ => None
          end) effs.

(** What a viewer reads of a landmark of the relay. *)
Definition asLandmark (l : Landmark) : Pose.Landmark :=
  Pose.mkLandmark (x l) (y l) (z l) (Some (visibility l)).

(** What a viewer reads of a frame of the relay. *)
Definition asPoseData (d : PoseData) : Pose.PoseData :=
  Pose.mkPoseData
    (Some ((fun p => Pose.mkPoseEntry (asLandmark <$> pose_landmarks p)
                                      (asLandmark <$> pose_worldLandmarks p))
             <$> poses d)).

(** [PoseReceiver]: the handler of the channel and the listener of the
    window hand the frame they get to the callback; [s] is the state of the
    owner of the callback. *)
Definition receive {S : Type} (callback : S -> Pose.PoseData -> option S)
    (s : S) (eff : Effect) : option S :=
  match eff with
  | PostMessage d | Invoke _ d => callback s (asPoseData d)
  | Send _ | ConsoleError _ => Some s
  end.

(** The landmarks of the first person that a viewer will work on: the
    world landmarks of that person when the result has any, the image
    landmarks otherwise. *)
Definition viewed (result : Result) (person : list Pose.Landmark)
    : list Pose.Landmark :=
  match worldLandmarks result ≫= (fun w => w !! 0%nat) with
  | Some (w :: ws) => w :: ws
  | _ => person
  end.

(** A session: a frame, the exporter switched off, a frame that is not
    published, the exporter switched on again and destroyed, a last
    frame. *)
Definition session : list Call :=
  [ExportPose Examples.unseenResult 0 Examples.noVideoInfo;
   SetEnabled false;
   ExportPose Examples.unseenResult 1 Examples.noVideoInfo;
   SetEnabled true;
   Destroy;
   ExportPose Examples.unseenResult 2 Examples.noVideoInfo].

End PoseRelay.

(** * Part II: the properties *)

(** ** Numbers *)

Lemma Rgtb_true (a b : R) : Rgtb a b = true <-> a > b.
Proof. unfold Rgtb. destruct (Rgt_dec a b); split; intros; done. Qed.

Lemma Rgtb_false (a b : R) : Rgtb a b = false <-> ~ a > b.
Proof. unfold Rgtb. destruct (Rgt_dec a b); split; intros; done. Qed.

Lemma gt_number_below (v t : R) : v < t -> gt_number (Some v) t = false.
Proof. intros H. simpl. apply Rgtb_false. lra. Qed.

Lemma gt_number_above (v t : R) : v > t -> gt_number (Some v) t = true.
Proof. intros H. simpl. by apply Rgtb_true. Qed.

(** ** The skeleton renderer *)

Module SkeletonRendererFacts.
Import SkeletonRenderer.

Lemma createSkeleton_rigged (r : t) : rigged (createSkeleton r).
Proof.
  split; [reflexivity |].
  unfold createSkeleton, connections; simpl.
  repeat constructor; simpl; lia.
Qed.

Lemma updateBone_is_Some (r : t) (js : list THREE.Object3D) (b : Bone) :
  List.length js = 33%nat -> (start b < 33)%nat -> (end_ b < 33)%nat ->
  is_Some (updateBone r js b).
Proof.
  intros Hl Hs He. unfold updateBone.
  destruct (lookup_lt_is_Some_2 js (start b)) as [sj ->]; [lia |].
  destruct (lookup_lt_is_Some_2 js (end_ b)) as [ej ->]; [lia |].
  simpl. destruct (_ && _); [destruct (Rgtb _ _) |]; eauto.
Qed.

(** On a rigged skeleton a frame of 33 entries is always processed: the
    call returns, every joint has been through [updateJoint] and every bone
    through [updateBone]. *)
Lemma updatePose_frame (r : t) (lms : list (option Pose.Landmark)) :
  rigged r -> List.length lms = 33%nat ->
  exists r',
    updatePose r (Some lms) = Some r' /\
    joints r' = imap (updateJoint r lms) (joints r) /\
    scale r' = scale r /\ showJoints r' = showJoints r /\
    showBones r' = showBones r /\
    forall k b, bones r !! k = Some b ->
      exists b', bones r' !! k = Some b' /\
                 updateBone r (joints r') b = Some b'.
Proof.
  intros [Hj Hb] Hl. unfold updatePose.
  destruct (decide (List.length lms ≠ 33%nat)) as [Hn | _]; [done |].
  set (js := imap (updateJoint r lms) (joints r)).
  assert (Hjs : List.length js = 33%nat) by (unfold js; by rewrite length_imap).
  destruct (mapM_is_Some_2 (updateBone r js) (bones r)) as [bs Hbs].
  { eapply Forall_impl; [exact Hb |]. intros b [Hs He]. simpl.
    by apply updateBone_is_Some. }
  rewrite Hbs. simpl. eexists; split; [reflexivity |]. simpl.
  repeat split; try done.
  intros k b Hk. apply mapM_Some_1 in Hbs.
  destruct (Forall2_lookup_l _ _ _ _ _ Hbs Hk) as (b' & Hb' & Hu). eauto.
Qed.

End SkeletonRendererFacts.

(** ** Vectors and quaternions *)

Module THREEFacts.
Import THREE.

Lemma Vector3_eq (a b : Vector3) :
  x a = x b -> y a = y b -> z a = z b -> a = b.
Proof. destruct a, b; simpl; intros; subst; reflexivity. Qed.

Lemma sum_squares_nonneg (a b c : R) : 0 <= a * a + b * b + c * c.
Proof. nra. Qed.

Lemma sum_squares_zero (a b c : R) :
  a * a + b * b + c * c = 0 -> a = 0 /\ b = 0 /\ c = 0.
Proof. intros H. repeat split; nra. Qed.

Lemma length_nonneg (a : Vector3) : 0 <= length a.
Proof. apply sqrt_pos. Qed.

Lemma length_square (a : Vector3) : length a * length a = dot a a.
Proof. unfold length, dot. apply sqrt_sqrt, sum_squares_nonneg. Qed.

Lemma length_zero (a : Vector3) :
  length a = 0 -> x a = 0 /\ y a = 0 /\ z a = 0.
Proof.
  intros H. pose proof (length_square a) as Hs. rewrite H in Hs.
  unfold dot in Hs. repeat split; nra.
Qed.

(** Halving a vector does not change the direction it points in. *)
Lemma normalize_half (a : Vector3) :
  normalize (multiplyScalar a 0.5) = normalize a.
Proof.
  assert (Hl : length (multiplyScalar a 0.5) = length a * 0.5).
  { unfold length, multiplyScalar; simpl.
    replace (x a * 0.5 * (x a * 0.5) + y a * 0.5 * (y a * 0.5) +
             z a * 0.5 * (z a * 0.5))
      with ((x a * x a + y a * y a + z a * z a) * (0.5 * 0.5)) by ring.
    rewrite sqrt_mult; [| apply sum_squares_nonneg | lra].
    rewrite sqrt_square; [reflexivity | lra]. }
  unfold normalize. rewrite Hl.
  destruct (Req_dec_T (length a) 0) as [H0 | Hn].
  - destruct (length_zero a H0) as (Hx & Hy & Hz).
    destruct (Req_dec_T (length a * 0.5) 0) as [_ | Hc]; [| lra].
    simpl. rewrite Hx, Hy, Hz. f_equal; lra.
  - destruct (Req_dec_T (length a * 0.5) 0) as [Hc | _]; [lra |].
    simpl. f_equal; field; lra.
Qed.

(** A vector that is not zero is normalised to a unit vector. *)
Lemma normalize_unit (a : Vector3) :
  length a <> 0 -> dot (normalize a) (normalize a) = 1.
Proof.
  intros Hn. pose proof (length_square a) as Hs.
  unfold normalize. destruct (Req_dec_T (length a) 0) as [H0 | _]; [done |].
  unfold dot in *; simpl. set (l := length a) in *.
  replace (x a / l * (x a / l) + y a / l * (y a / l) + z a / l * (z a / l))
    with ((x a * x a + y a * y a + z a * z a) / (l * l)) by (field; exact Hn).
  rewrite <- Hs. field. exact Hn.
Qed.

(** A half turn about an axis perpendicular to [u] takes [u] to its
    opposite. *)
Lemma half_turn (u w : Vector3) :
  dot w u = 0 -> 0 < dot w w ->
  let p := normalize w in
  applyQuaternion u (mkQuaternion (x p * 1) (y p * 1) (z p * 1) 0)
  = mkVector3 (- x u) (- y u) (- z u).
Proof.
  intros Hperp Hpos. pose proof (length_square w) as Hw.
  pose proof (length_nonneg w) as Hw0.
  assert (Hn : length w <> 0) by nra.
  unfold normalize. destruct (Req_dec_T (length w) 0) as [| _]; [done |].
  set (l := length w) in *.
  assert (Hinv : l * / l = 1) by (field; exact Hn).
  destruct u as [ux uy uz], w as [wx wy wz]. unfold dot in *; simpl in *.
  unfold Rdiv. set (il := / l) in *.
  unfold applyQuaternion, multiplyQuaternions, conjugate; simpl.
  f_equal; nsatz.
Qed.

(** The shortest-arc rotation does rotate: for unit vectors [u] and [v],
    the quaternion of [setFromUnitVectors u v] takes [u] onto [v], the
    parallel and the antiparallel case included. *)
Lemma setFromUnitVectors_rotates (u v : Vector3) :
  dot u u = 1 -> dot v v = 1 ->
  applyQuaternion u (setFromUnitVectors u v) = v.
Proof.
  destruct u as [ux uy uz], v as [vx vy vz]. unfold dot; simpl.
  intros Hu Hv. unfold setFromUnitVectors.
  set (c := cross _ _). set (d := dot _ _).
  assert (Hlag : dot c c = 1 - d * d).
  { unfold c, d, dot, cross; simpl. nsatz. }
  pose proof (length_square c) as Hsq.
  destruct (Req_dec_T (length c) 0) as [H0 | Hn].
  - destruct (length_zero c H0) as (Hcx & Hcy & Hcz).
    rewrite H0 in Hsq. rewrite Hlag in Hsq.
    unfold c, cross in Hcx, Hcy, Hcz; simpl in Hcx, Hcy, Hcz.
    destruct (Rgtb 0 d) eqn:Hd.
    + apply Rgtb_true in Hd.
      assert (Hd1 : d = -1) by nra.
      assert (Hsum : (ux + vx) * (ux + vx) + (uy + vy) * (uy + vy) +
                     (uz + vz) * (uz + vz) = 0).
      { unfold d, dot in Hd1; simpl in Hd1. nra. }
      apply sum_squares_zero in Hsum as (Hx & Hy & Hz).
      assert (vx = - ux /\ vy = - uy /\ vz = - uz) as (-> & -> & ->)
        by (repeat split; lra).
      clear Hx Hy Hz.
      unfold setFromAxisAngle. rewrite sin_PI2, cos_PI2.
      unfold perpendicular; simpl.
      destruct (Rgtb (Rabs ux) (Rabs uz)) eqn:Hp.
      * apply Rgtb_true in Hp.
        assert (Hux : 0 < ux * ux).
        { destruct (Rtotal_order ux 0) as [? | [-> | ?]]; [nra | | nra].
          rewrite Rabs_R0 in Hp. pose proof (Rabs_pos uz). lra. }
        apply half_turn; unfold dot; simpl; nra.
      * apply Rgtb_false in Hp.
        assert (Hyz : 0 < uy * uy + uz * uz).
        { destruct (Rtotal_order uz 0) as [? | [-> | ?]]; [nra | | nra].
          rewrite Rabs_R0 in Hp. pose proof (Rabs_pos ux).
          assert (Hx0 : ux = 0).
          { destruct (Req_dec_T ux 0) as [| Hne]; [done |].
            apply Rabs_pos_lt in Hne. lra. }
          subst ux. nra. }
        apply half_turn; unfold dot; simpl; nra.
    + apply Rgtb_false in Hd.
      assert (Hd1 : d = 1) by nra.
      assert (Hsum : (ux - vx) * (ux - vx) + (uy - vy) * (uy - vy) +
                     (uz - vz) * (uz - vz) = 0).
      { unfold d, dot in Hd1; simpl in Hd1. nra. }
      apply sum_squares_zero in Hsum as (Hx & Hy & Hz).
      assert (vx = ux /\ vy = uy /\ vz = uz) as (-> & -> & ->)
        by (repeat split; lra).
      unfold applyQuaternion, multiplyQuaternions, conjugate, identity; simpl.
      f_equal; ring.
  - pose proof (length_nonneg c) as Hc0.
    assert (Hrange : -1 <= d <= 1) by nra.
    set (h := acos d / 2).
    assert (Hcos : cos h * cos h - sin h * sin h = d).
    { rewrite <- cos_2a. replace (2 * h) with (acos d) by (unfold h; field).
      by apply cos_acos. }
    assert (Hsin : 2 * sin h * cos h = length c).
    { rewrite <- sin_2a. replace (2 * h) with (acos d) by (unfold h; field).
      rewrite sin_acos by done. unfold Rsqr. rewrite <- Hlag.
      unfold length, dot. reflexivity. }
    pose proof (sin2_cos2 h) as Hone. unfold Rsqr in Hone.
    unfold setFromAxisAngle, normalize. fold h.
    destruct (Req_dec_T (length c) 0) as [| _]; [done |].
    unfold dot in Hsq. unfold d, dot in Hcos; simpl in Hcos.
    unfold c, cross in Hsq |- *; simpl in Hsq |- *. fold c in Hsq, Hsin, Hn |- *.
    set (l := length c) in *. set (sh := sin h) in *. set (ch := cos h) in *.
    assert (Hinv : l * / l = 1) by (field; exact Hn).
    unfold Rdiv. set (il := / l) in *.
    unfold applyQuaternion, multiplyQuaternions, conjugate; simpl.
    f_equal; nsatz.
Qed.

End THREEFacts.

(** ** Segments of the skeleton renderer *)

Module SkeletonRendererProps.
Import SkeletonRenderer SkeletonRendererFacts.

(** What one frame does to one bone: the call returns, and the bone is the
    result of [updateBone] on its two joints, each the result of
    [updateJoint]. *)
Lemma bone_after (r : t) (lms : list (option Pose.Landmark)) (k : nat) (b : Bone) :
  rigged r -> List.length lms = 33%nat -> bones r !! k = Some b ->
  exists r' b' j1 j2,
    updatePose r (Some lms) = Some r' /\
    bones r' !! k = Some b' /\
    joints r !! start b = Some j1 /\ joints r !! end_ b = Some j2 /\
    joints r' !! start b = Some (updateJoint r lms (start b) j1) /\
    joints r' !! end_ b = Some (updateJoint r lms (end_ b) j2) /\
    updateBone r (joints r') b = Some b'.
Proof.
  intros Hr Hl Hk.
  destruct (updatePose_frame r lms Hr Hl) as (r' & Hu & Hj & _ & _ & _ & Hb).
  destruct (Hb k b Hk) as (b' & Hk' & Hb').
  destruct Hr as [Hlen Hall].
  rewrite Forall_forall in Hall.
  destruct (Hall b) as [Hs He]; [by eapply list_elem_of_lookup_2 |].
  destruct (lookup_lt_is_Some_2 (joints r) (start b)) as [j1 H1]; [lia |].
  destruct (lookup_lt_is_Some_2 (joints r) (end_ b)) as [j2 H2]; [lia |].
  exists r', b', j1, j2. repeat split; try done.
  - rewrite Hj, list_lookup_imap, H1. reflexivity.
  - rewrite Hj, list_lookup_imap, H2. reflexivity.
Qed.

Lemma updateJoint_unseen (r : t) (lms : list (option Pose.Landmark)) (i : nat)
    (lm : Pose.Landmark) (j : THREE.Object3D) :
  lms !! i = Some (Some lm) -> gt_number (Pose.visibility lm) 0.3 = false ->
  THREE.visible (updateJoint r lms i j) = false.
Proof. intros Hi Hv. unfold updateJoint. rewrite Hi, Hv. reflexivity. Qed.

Lemma updateJoint_seen (r : t) (lms : list (option Pose.Landmark)) (i : nat)
    (lm : Pose.Landmark) (j : THREE.Object3D) :
  lms !! i = Some (Some lm) -> gt_number (Pose.visibility lm) 0.3 = true ->
  updateJoint r lms i j =
  THREE.set_visible (THREE.set_position j (jointPosition r lm)) (showJoints r).
Proof. intros Hi Hv. unfold updateJoint. rewrite Hi, Hv. reflexivity. Qed.

(** A bone one of whose joints is hidden is hidden. *)
Lemma updateBone_hidden (r : t) (js : list THREE.Object3D) (b b' : Bone)
    (sj ej : THREE.Object3D) :
  js !! start b = Some sj -> js !! end_ b = Some ej ->
  updateBone r js b = Some b' ->
  THREE.visible sj = false \/ THREE.visible ej = false ->
  THREE.visible (mesh b') = false.
Proof.
  intros Hs He Hu Hv. unfold updateBone in Hu. rewrite Hs, He in Hu.
  simpl in Hu.
  assert (Hand : THREE.visible sj && THREE.visible ej = false).
  { destruct Hv as [-> | ->]; [done | by rewrite andb_false_r]. }
  rewrite Hand in Hu. by inversion Hu.
Qed.

(** A bone between two visible joints: measured, and shown and oriented
    when its length is positive, hidden when it is not. *)
Lemma updateBone_visible (r : t) (js : list THREE.Object3D) (b b' : Bone)
    (sj ej : THREE.Object3D) :
  js !! start b = Some sj -> js !! end_ b = Some ej ->
  updateBone r js b = Some b' ->
  THREE.visible sj = true -> THREE.visible ej = true ->
  let ps := THREE.position sj in
  let pe := THREE.position ej in
  (boneLength ps pe > 0 ->
     THREE.visible (mesh b') = showBones r /\
     THREE.y (THREE.scale (mesh b')) = boneLength ps pe /\
     THREE.quaternion (mesh b') =
       THREE.setFromUnitVectors (THREE.mkVector3 0 1 0) (boneDirection ps pe)) /\
  (~ boneLength ps pe > 0 ->
     THREE.visible (mesh b') = false /\
     THREE.quaternion (mesh b') = THREE.quaternion (mesh b) /\
     THREE.scale (mesh b') = THREE.scale (mesh b)).
Proof.
  intros Hs He Hu Hvs Hve ps pe. unfold updateBone in Hu.
  rewrite Hs, He in Hu. simpl in Hu. rewrite Hvs, Hve in Hu. simpl in Hu.
  fold ps pe in Hu. split; intros Hlen.
  - apply Rgtb_true in Hlen. rewrite Hlen in Hu. by inversion Hu.
  - apply Rgtb_false in Hlen. rewrite Hlen in Hu. by inversion Hu.
Qed.

(** C2, as the code has it.  On a rigged skeleton and a frame of 33
    landmarks, a segment is hidden as soon as the confidence of one of its
    endpoints is below the threshold 0.3, in particular when it is 0; with
    confidence 1 on both endpoints and a positive length the segment is
    visible, provided the display of joints and of bones is switched on. *)
Theorem segment_visibility (r : t) (lms : list (option Pose.Landmark))
    (k : nat) (b : Bone) (ls le : Pose.Landmark) :
  rigged r -> List.length lms = 33%nat -> bones r !! k = Some b ->
  lms !! start b = Some (Some ls) -> lms !! end_ b = Some (Some le) ->
  exists r' b',
    updatePose r (Some lms) = Some r' /\ bones r' !! k = Some b' /\
    (forall v, Pose.visibility ls = Some v \/ Pose.visibility le = Some v ->
               v < 0.3 -> THREE.visible (mesh b') = false) /\
    (Pose.visibility ls = Some 0 \/ Pose.visibility le = Some 0 ->
     THREE.visible (mesh b') = false) /\
    (Pose.visibility ls = Some 1 -> Pose.visibility le = Some 1 ->
     boneLength (jointPosition r ls) (jointPosition r le) > 0 ->
     showJoints r = true -> showBones r = true ->
     THREE.visible (mesh b') = true).
Proof.
  intros Hr Hl Hk Hls Hle.
  destruct (bone_after r lms k b Hr Hl Hk)
    as (r' & b' & j1 & j2 & Hu & Hk' & _ & _ & Hs & He & Hb).
  exists r', b'. split; [done |]. split; [done |].
  assert (Hlow : forall v, Pose.visibility ls = Some v \/ Pose.visibility le = Some v ->
                           v < 0.3 -> THREE.visible (mesh b') = false).
  { intros v Hv Hlt. eapply updateBone_hidden; [exact Hs | exact He | exact Hb |].
    destruct Hv as [Hv | Hv]; [left | right];
      (eapply updateJoint_unseen; [eassumption |]);
      rewrite Hv; by apply gt_number_below. }
  split; [exact Hlow |]. split.
  - intros Hz. apply (Hlow 0 Hz). lra.
  - intros H1 H2 Hlen Hsj Hsb.
    assert (G1 : gt_number (Pose.visibility ls) 0.3 = true)
      by (rewrite H1; apply gt_number_above; lra).
    assert (G2 : gt_number (Pose.visibility le) 0.3 = true)
      by (rewrite H2; apply gt_number_above; lra).
    rewrite (updateJoint_seen r lms _ ls j1 Hls G1) in Hs.
    rewrite (updateJoint_seen r lms _ le j2 Hle G2) in He.
    destruct (updateBone_visible r _ b b' _ _ Hs He Hb) as [Hshow _];
      [by simpl | by simpl |].
    simpl in Hshow. destruct (Hshow Hlen) as (Hv & _). by rewrite Hv.
Qed.

(** The sample frame on the sample renderers: the joints of the first bone
    end up at [x = -s] and [x = 3s], four rig units apart at scale 1. *)
Lemma lineFrame_nose : Examples.lineFrame_entries !! 0%nat
                       = Some (Some (Pose.mkLandmark (INR 0) 0 0 (Some 1))).
Proof. reflexivity. Qed.

Lemma lineFrame_eye : Examples.lineFrame_entries !! 2%nat
                      = Some (Some (Pose.mkLandmark (INR 2) 0 0 (Some 1))).
Proof. reflexivity. Qed.

Lemma firstBone_length (r : t) :
  boneLength (jointPosition r (Pose.mkLandmark (INR 0) 0 0 (Some 1)))
             (jointPosition r (Pose.mkLandmark (INR 2) 0 0 (Some 1)))
  = 4 * Rabs (scale r).
Proof.
  unfold boneLength, jointPosition, centred; simpl.
  replace (_ + _ + _) with (Rsqr (4 * scale r)) by (unfold Rsqr; ring).
  rewrite sqrt_Rsqr_abs, Rabs_mult, (Rabs_right 4); [reflexivity | lra].
Qed.

Lemma segment_visibility_witness :
  exists r' b',
    updatePose (Examples.rendererAt 1) (Some Examples.lineFrame_entries) = Some r' /\
    bones r' !! 0%nat = Some b' /\
    THREE.visible (mesh b') = true.
Proof.
  destruct (segment_visibility (Examples.rendererAt 1)
              Examples.lineFrame_entries 0 Examples.firstBone
              (Pose.mkLandmark (INR 0) 0 0 (Some 1))
              (Pose.mkLandmark (INR 2) 0 0 (Some 1))
              (createSkeleton_rigged _) eq_refl eq_refl
              lineFrame_nose lineFrame_eye)
    as (r' & b' & Hu & Hk & _ & _ & Hshow).
  exists r', b'. split; [exact Hu |]. split; [exact Hk |].
  apply Hshow; try reflexivity.
  rewrite firstBone_length. simpl. rewrite Rabs_R1. lra.
Defined.

(** C2 as stated fails: with the "show bones" box unchecked, a segment
    whose two endpoints have confidence 1 and which is four units long is
    not visible. *)
Lemma confident_segment_hidden :
  exists r' b',
    updatePose Examples.bonesOff (Some Examples.lineFrame_entries) = Some r' /\
    bones r' !! 0%nat = Some b' /\
    start b' = 0%nat /\ end_ b' = 2%nat /\
    (Examples.lineFrame_entries !! start b' ≫= fmap Pose.visibility) = Some (Some 1) /\
    (Examples.lineFrame_entries !! end_ b' ≫= fmap Pose.visibility) = Some (Some 1) /\
    boneLength (jointPosition Examples.bonesOff (Pose.mkLandmark (INR 0) 0 0 (Some 1)))
               (jointPosition Examples.bonesOff
                  (Pose.mkLandmark (INR 2) 0 0 (Some 1))) > 0 /\
    THREE.visible (mesh b') = false.
Proof.
  destruct (bone_after Examples.bonesOff Examples.lineFrame_entries 0
              (mkBone (THREE.set_visible (THREE.object3D "") false) 0 2)
              (createSkeleton_rigged _) eq_refl eq_refl)
    as (r' & b' & j1 & j2 & Hu & Hk & _ & _ & Hs & He & Hb).
  assert (G : gt_number (Some 1) 0.3 = true) by (apply gt_number_above; lra).
  rewrite (updateJoint_seen _ _ _ _ j1 lineFrame_nose G) in Hs.
  rewrite (updateJoint_seen _ _ _ _ j2 lineFrame_eye G) in He.
  assert (Hlen : boneLength
                   (jointPosition Examples.bonesOff (Pose.mkLandmark (INR 0) 0 0 (Some 1)))
                   (jointPosition Examples.bonesOff
                      (Pose.mkLandmark (INR 2) 0 0 (Some 1))) > 0).
  { rewrite firstBone_length. simpl. rewrite Rabs_R1. lra. }
  destruct (updateBone_visible _ _ _ b' _ _ Hs He Hb eq_refl eq_refl) as [Hshow _].
  destruct (Hshow Hlen) as (Hv & _).
  assert (Hse : start b' = 0%nat /\ end_ b' = 2%nat).
  { unfold updateBone in Hb. rewrite Hs, He in Hb. simpl in Hb.
    destruct (Rgtb _ _); inversion Hb; by simpl. }
  destruct Hse as [Hst Hen].
  exists r', b'. rewrite Hst, Hen. repeat split; try done.
Qed.

Lemma boneLength_distanceTo (ps pe : THREE.Vector3) :
  boneLength ps pe = THREE.distanceTo pe ps.
Proof. reflexivity. Qed.

Lemma boneDirection_normalize (ps pe : THREE.Vector3) :
  boneDirection ps pe = THREE.normalize (THREE.subVectors pe ps).
Proof. reflexivity. Qed.

(** A segment both of whose endpoints are seen, joints being displayed:
    what [updatePose] leaves in its bone. *)
Lemma seen_segment (r : t) (lms : list (option Pose.Landmark))
    (k : nat) (b : Bone) (ls le : Pose.Landmark) :
  rigged r -> List.length lms = 33%nat -> bones r !! k = Some b ->
  lms !! start b = Some (Some ls) -> lms !! end_ b = Some (Some le) ->
  gt_number (Pose.visibility ls) 0.3 = true ->
  gt_number (Pose.visibility le) 0.3 = true ->
  showJoints r = true ->
  let ps := jointPosition r ls in
  let pe := jointPosition r le in
  exists r' b',
    updatePose r (Some lms) = Some r' /\ bones r' !! k = Some b' /\
    (THREE.distanceTo pe ps > 0 ->
       THREE.visible (mesh b') = showBones r /\
       THREE.y (THREE.scale (mesh b')) = THREE.distanceTo pe ps /\
       THREE.quaternion (mesh b') =
         THREE.setFromUnitVectors (THREE.mkVector3 0 1 0)
           (THREE.normalize (THREE.subVectors pe ps))) /\
    (~ THREE.distanceTo pe ps > 0 ->
       THREE.visible (mesh b') = false /\
       THREE.quaternion (mesh b') = THREE.quaternion (mesh b) /\
       THREE.scale (mesh b') = THREE.scale (mesh b)).
Proof.
  intros Hr Hl Hk Hls Hle G1 G2 Hsj ps pe.
  destruct (bone_after r lms k b Hr Hl Hk)
    as (r' & b' & j1 & j2 & Hu & Hk' & _ & _ & Hs & He & Hb).
  rewrite (updateJoint_seen r lms _ ls j1 Hls G1) in Hs.
  rewrite (updateJoint_seen r lms _ le j2 Hle G2) in He.
  exists r', b'. split; [done |]. split; [done |].
  exact (updateBone_visible r _ b b' _ _ Hs He Hb Hsj Hsj).
Qed.

(** C3.  For a segment both of whose endpoints are seen: when the distance
    between its endpoints is positive, the quaternion given to the bone
    rotates the up-axis of the rig, (0, 1, 0), onto the normalised vector
    from start to end, whatever that direction is; when the distance is
    not positive, the bone is hidden. *)
Theorem orientation_aligns (r : t) (lms : list (option Pose.Landmark))
    (k : nat) (b : Bone) (ls le : Pose.Landmark) :
  rigged r -> List.length lms = 33%nat -> bones r !! k = Some b ->
  lms !! start b = Some (Some ls) -> lms !! end_ b = Some (Some le) ->
  gt_number (Pose.visibility ls) 0.3 = true ->
  gt_number (Pose.visibility le) 0.3 = true ->
  showJoints r = true ->
  let ps := jointPosition r ls in
  let pe := jointPosition r le in
  exists r' b',
    updatePose r (Some lms) = Some r' /\ bones r' !! k = Some b' /\
    (THREE.distanceTo pe ps > 0 ->
       THREE.applyQuaternion (THREE.mkVector3 0 1 0) (THREE.quaternion (mesh b'))
       = THREE.normalize (THREE.subVectors pe ps)) /\
    (~ THREE.distanceTo pe ps > 0 -> THREE.visible (mesh b') = false).
Proof.
  intros Hr Hl Hk Hls Hle G1 G2 Hsj ps pe.
  destruct (seen_segment r lms k b ls le Hr Hl Hk Hls Hle G1 G2 Hsj)
    as (r' & b' & Hu & Hk' & Hpos & Hzero).
  exists r', b'. split; [done |]. split; [done |]. split.
  - intros Hlen. destruct (Hpos Hlen) as (_ & _ & ->).
    apply THREEFacts.setFromUnitVectors_rotates.
    + unfold THREE.dot; simpl; ring.
    + apply THREEFacts.normalize_unit. unfold THREE.distanceTo in Hlen.
      fold ps pe. lra.
  - intros Hlen. by destruct (Hzero Hlen).
Qed.

Lemma seen_one : gt_number (Some 1) 0.3 = true.
Proof. apply gt_number_above. lra. Qed.

Lemma orientation_aligns_witness :
  exists r' b',
    updatePose (Examples.rendererAt 1) (Some Examples.lineFrame_entries) = Some r' /\
    bones r' !! 0%nat = Some b' /\
    THREE.applyQuaternion (THREE.mkVector3 0 1 0) (THREE.quaternion (mesh b'))
    = THREE.normalize
        (THREE.subVectors
           (jointPosition (Examples.rendererAt 1) (Pose.mkLandmark (INR 2) 0 0 (Some 1)))
           (jointPosition (Examples.rendererAt 1) (Pose.mkLandmark (INR 0) 0 0 (Some 1)))).
Proof.
  destruct (orientation_aligns (Examples.rendererAt 1)
              Examples.lineFrame_entries 0 Examples.firstBone
              (Pose.mkLandmark (INR 0) 0 0 (Some 1))
              (Pose.mkLandmark (INR 2) 0 0 (Some 1))
              (createSkeleton_rigged _) eq_refl eq_refl
              lineFrame_nose lineFrame_eye seen_one seen_one eq_refl)
    as (r' & b' & Hu & Hk & Hrot & _).
  exists r', b'. split; [exact Hu |]. split; [exact Hk |].
  apply Hrot. rewrite <- boneLength_distanceTo, firstBone_length.
  simpl. rewrite Rabs_R1. lra.
Defined.

(** The distance between two joints is the distance between the two
    landmarks in centred space times the size of the global scale. *)
Lemma distance_scales (r : t) (ls le : Pose.Landmark) :
  THREE.distanceTo (jointPosition r le) (jointPosition r ls)
  = Rabs (scale r) * THREE.distanceTo (centred le) (centred ls).
Proof.
  unfold THREE.distanceTo, THREE.length, jointPosition; simpl.
  set (dx := _ - _). set (dy := (_ - _) * 2 - _). set (dz := _ - _).
  rewrite <- sqrt_Rsqr_abs, <- sqrt_mult;
    [| apply Rle_0_sqr | apply THREEFacts.sum_squares_nonneg].
  f_equal. unfold Rsqr, dx, dy, dz. ring.
Qed.

(** C5, as the code has it.  The scale given to a visible segment is the
    distance between its two joints over the rest length of a bone; the
    joints being placed after the global scale has been applied, it is the
    distance of the landmarks in centred space multiplied by the size of
    the global scale parameter. *)
Theorem segment_scale (r : t) (lms : list (option Pose.Landmark))
    (k : nat) (b : Bone) (ls le : Pose.Landmark) :
  rigged r -> List.length lms = 33%nat -> bones r !! k = Some b ->
  lms !! start b = Some (Some ls) -> lms !! end_ b = Some (Some le) ->
  gt_number (Pose.visibility ls) 0.3 = true ->
  gt_number (Pose.visibility le) 0.3 = true ->
  showJoints r = true ->
  THREE.distanceTo (jointPosition r le) (jointPosition r ls) > 0 ->
  exists r' b',
    updatePose r (Some lms) = Some r' /\ bones r' !! k = Some b' /\
    THREE.y (THREE.scale (mesh b'))
    = THREE.distanceTo (jointPosition r le) (jointPosition r ls) / restLength /\
    THREE.y (THREE.scale (mesh b'))
    = Rabs (scale r) * THREE.distanceTo (centred le) (centred ls) / restLength.
Proof.
  intros Hr Hl Hk Hls Hle G1 G2 Hsj Hlen.
  destruct (seen_segment r lms k b ls le Hr Hl Hk Hls Hle G1 G2 Hsj)
    as (r' & b' & Hu & Hk' & Hpos & _).
  destruct (Hpos Hlen) as (_ & Hy & _).
  exists r', b'. split; [done |]. split; [done |].
  rewrite <- distance_scales, Hy. unfold restLength. split; field.
Qed.

Lemma firstBone_distance (s : R) :
  THREE.distanceTo
    (jointPosition (Examples.rendererAt s) (Pose.mkLandmark (INR 2) 0 0 (Some 1)))
    (jointPosition (Examples.rendererAt s) (Pose.mkLandmark (INR 0) 0 0 (Some 1)))
  = 4 * Rabs s.
Proof. rewrite <- boneLength_distanceTo. apply firstBone_length. Qed.

Lemma firstBone_scale_at (s : R) :
  0 < s ->
  exists r' b',
    updatePose (Examples.rendererAt s) (Some Examples.lineFrame_entries) = Some r' /\
    bones r' !! 0%nat = Some b' /\
    THREE.visible (mesh b') = true /\
    THREE.y (THREE.scale (mesh b')) = 4 * s.
Proof.
  intros Hs.
  destruct (seen_segment (Examples.rendererAt s)
              Examples.lineFrame_entries 0 Examples.firstBone
              (Pose.mkLandmark (INR 0) 0 0 (Some 1))
              (Pose.mkLandmark (INR 2) 0 0 (Some 1))
              (createSkeleton_rigged _) eq_refl eq_refl
              lineFrame_nose lineFrame_eye seen_one seen_one eq_refl)
    as (r' & b' & Hu & Hk & Hpos & _).
  destruct Hpos as (Hv & Hy & _).
  { rewrite firstBone_distance, Rabs_right; lra. }
  exists r', b'. split; [exact Hu |]. split; [exact Hk |]. split; [exact Hv |].
  rewrite Hy, firstBone_distance, Rabs_right by lra. reflexivity.
Qed.

Lemma segment_scale_witness :
  exists r' b',
    updatePose (Examples.rendererAt 1) (Some Examples.lineFrame_entries) = Some r' /\
    bones r' !! 0%nat = Some b' /\
    THREE.y (THREE.scale (mesh b'))
    = Rabs 1 * THREE.distanceTo (centred (Pose.mkLandmark (INR 2) 0 0 (Some 1)))
                                (centred (Pose.mkLandmark (INR 0) 0 0 (Some 1)))
      / restLength.
Proof.
  destruct (segment_scale (Examples.rendererAt 1)
              Examples.lineFrame_entries 0 Examples.firstBone
              (Pose.mkLandmark (INR 0) 0 0 (Some 1))
              (Pose.mkLandmark (INR 2) 0 0 (Some 1))
              (createSkeleton_rigged _) eq_refl eq_refl
              lineFrame_nose lineFrame_eye seen_one seen_one eq_refl)
    as (r' & b' & Hu & Hk & _ & Hy).
  { rewrite firstBone_distance, Rabs_R1. lra. }
  exists r', b'. split; [exact Hu |]. split; [exact Hk |]. exact Hy.
Defined.

(** C5 as stated fails: the same frame on the same skeleton at global scale
    1 and at global scale 2 gives the first segment, visible both times,
    the scale 4 and the scale 8. *)
Lemma scale_follows_global_scale :
  exists r1 b1 r2 b2,
    updatePose (Examples.rendererAt 1) (Some Examples.lineFrame_entries) = Some r1 /\
    bones r1 !! 0%nat = Some b1 /\
    updatePose (Examples.rendererAt 2) (Some Examples.lineFrame_entries) = Some r2 /\
    bones r2 !! 0%nat = Some b2 /\
    THREE.visible (mesh b1) = true /\ THREE.visible (mesh b2) = true /\
    THREE.y (THREE.scale (mesh b1)) = 4 /\
    THREE.y (THREE.scale (mesh b2)) = 8 /\
    THREE.y (THREE.scale (mesh b1)) <> THREE.y (THREE.scale (mesh b2)).
Proof.
  destruct (firstBone_scale_at 1) as (r1 & b1 & Hu1 & Hk1 & Hv1 & Hy1); [lra |].
  destruct (firstBone_scale_at 2) as (r2 & b2 & Hu2 & Hk2 & Hv2 & Hy2); [lra |].
  exists r1, b1, r2, b2. rewrite Hy1, Hy2. repeat split; try done; lra.
Qed.

(** *** Translating a frame *)

Lemma updatePose_bones_length (r r' : t) (lms : list (option Pose.Landmark)) :
  updatePose r (Some lms) = Some r' ->
  List.length (bones r') = List.length (bones r).
Proof.
  unfold updatePose. destruct (decide _); [by intros [= ->] |].
  destruct (mapM _ _) as [bs |] eqn:Hm; [| done].
  simpl. intros [= <-]. simpl. symmetry. by eapply length_mapM.
Qed.

Lemma jointPosition_translate (r : t) (v : THREE.Vector3) (lm : Pose.Landmark) :
  jointPosition r (Pose.translate v lm)
  = THREE.add (jointPosition r lm) (jointShift r v).
Proof.
  unfold jointPosition, jointShift, centred, THREE.add; simpl. f_equal; ring.
Qed.

Lemma updateJoint_translate (r : t) (lms : list (option Pose.Landmark))
    (v : THREE.Vector3) (i : nat) (j : THREE.Object3D) :
  alike (jointShift r v) (updateJoint r lms i j)
        (updateJoint r (Pose.translateFrame v lms) i j).
Proof.
  unfold alike, updateJoint, Pose.translateFrame. rewrite list_lookup_fmap.
  destruct (lms !! i) as [[lm |] |]; simpl; try done.
  destruct (gt_number (Pose.visibility lm) 0.3); simpl; [| done].
  split; [done |]. intros _. apply jointPosition_translate.
Qed.

Lemma boneLength_shift (ps pe d : THREE.Vector3) :
  boneLength (THREE.add ps d) (THREE.add pe d) = boneLength ps pe.
Proof. unfold boneLength; simpl. f_equal. ring. Qed.

Lemma boneDirection_shift (ps pe d : THREE.Vector3) :
  boneDirection (THREE.add ps d) (THREE.add pe d) = boneDirection ps pe.
Proof.
  unfold boneDirection; simpl.
  replace (THREE.x pe + THREE.x d - (THREE.x ps + THREE.x d))
    with (THREE.x pe - THREE.x ps) by ring.
  replace (THREE.y pe + THREE.y d - (THREE.y ps + THREE.y d))
    with (THREE.y pe - THREE.y ps) by ring.
  replace (THREE.z pe + THREE.z d - (THREE.z ps + THREE.z d))
    with (THREE.z pe - THREE.z ps) by ring.
  reflexivity.
Qed.

(** Bones between joints that are alike get the same orientation, the same
    scale and the same visibility. *)
Lemma updateBone_alike (r : t) (d : THREE.Vector3)
    (js1 js2 : list THREE.Object3D) (b b1 b2 : Bone) (s1 e1 s2 e2 : THREE.Object3D) :
  js1 !! start b = Some s1 -> js1 !! end_ b = Some e1 ->
  js2 !! start b = Some s2 -> js2 !! end_ b = Some e2 ->
  alike d s1 s2 -> alike d e1 e2 ->
  updateBone r js1 b = Some b1 -> updateBone r js2 b = Some b2 ->
  THREE.quaternion (mesh b1) = THREE.quaternion (mesh b2) /\
  THREE.scale (mesh b1) = THREE.scale (mesh b2) /\
  THREE.visible (mesh b1) = THREE.visible (mesh b2).
Proof.
  intros Hs1 He1 Hs2 He2 [Hvs Hps] [Hve Hpe] H1 H2.
  unfold updateBone in H1, H2.
  rewrite Hs1, He1 in H1. rewrite Hs2, He2 in H2. simpl in H1, H2.
  rewrite Hvs, Hve in H2.
  destruct (THREE.visible s1) eqn:V1; simpl in H1, H2;
    [destruct (THREE.visible e1) eqn:V2; simpl in H1, H2 |].
  - rewrite Hps, Hpe in H2 by done.
    rewrite boneLength_shift, boneDirection_shift in H2.
    destruct (Rgtb _ _); inversion H1; inversion H2; by simpl.
  - inversion H1; inversion H2; by simpl.
  - inversion H1; inversion H2; by simpl.
Qed.

(** C6.  Two frames of 33 landmarks that differ by one translation of all
    points give every segment the same orientation and the same scale (and
    the same visibility). *)
Theorem translation_invariance (r : t) (lms : list (option Pose.Landmark))
    (v : THREE.Vector3) :
  rigged r -> List.length lms = 33%nat ->
  exists r1 r2,
    updatePose r (Some lms) = Some r1 /\
    updatePose r (Some (Pose.translateFrame v lms)) = Some r2 /\
    Forall2 (fun b1 b2 =>
               THREE.quaternion (mesh b1) = THREE.quaternion (mesh b2) /\
               THREE.scale (mesh b1) = THREE.scale (mesh b2) /\
               THREE.visible (mesh b1) = THREE.visible (mesh b2))
            (bones r1) (bones r2).
Proof.
  intros Hr Hl.
  assert (Hl' : List.length (Pose.translateFrame v lms) = 33%nat)
    by (unfold Pose.translateFrame; by rewrite length_fmap).
  destruct (updatePose_frame r lms Hr Hl) as (r1 & Hu1 & _).
  destruct (updatePose_frame r _ Hr Hl') as (r2 & Hu2 & _).
  exists r1, r2. split; [done |]. split; [done |].
  apply Forall2_same_length_lookup_2.
  { rewrite (updatePose_bones_length _ _ _ Hu1).
    by rewrite (updatePose_bones_length _ _ _ Hu2). }
  intros k b1 b2 Hk1 Hk2.
  destruct (lookup_lt_is_Some_2 (bones r) k) as [b Hk].
  { rewrite <- (updatePose_bones_length _ _ _ Hu1). by eapply lookup_lt_Some. }
  destruct (bone_after r lms k b Hr Hl Hk)
    as (r1' & b1' & j1 & j2 & Hu1' & Hk1' & Hj1 & Hj2 & Hs1 & He1 & Hb1).
  destruct (bone_after r _ k b Hr Hl' Hk)
    as (r2' & b2' & j1' & j2' & Hu2' & Hk2' & Hj1' & Hj2' & Hs2 & He2 & Hb2).
  assert (r1' = r1) by congruence. assert (r2' = r2) by congruence. subst.
  assert (b1' = b1) by congruence. assert (b2' = b2) by congruence. subst.
  assert (j1' = j1) by congruence. assert (j2' = j2) by congruence. subst.
  eapply (updateBone_alike r (jointShift r v));
    [exact Hs1 | exact He1 | exact Hs2 | exact He2 | | | exact Hb1 | exact Hb2];
    apply updateJoint_translate.
Qed.

Lemma translation_invariance_witness :
  exists r1 r2,
    updatePose (Examples.rendererAt 1) (Some Examples.lineFrame_entries) = Some r1 /\
    updatePose (Examples.rendererAt 1)
      (Some (Pose.translateFrame (THREE.mkVector3 1 2 3)
               Examples.lineFrame_entries)) = Some r2 /\
    Forall2 (fun b1 b2 =>
               THREE.quaternion (mesh b1) = THREE.quaternion (mesh b2) /\
               THREE.scale (mesh b1) = THREE.scale (mesh b2) /\
               THREE.visible (mesh b1) = THREE.visible (mesh b2))
            (bones r1) (bones r2).
Proof.
  apply (translation_invariance (Examples.rendererAt 1)
           Examples.lineFrame_entries (THREE.mkVector3 1 2 3)
           (createSkeleton_rigged _) eq_refl).
Defined.

End SkeletonRendererProps.

(** ** Coordinates *)

Module ConversionProps.

(** C4, as the code has it.  The skeleton renderer converts a normalized
    landmark as the specification says, with depth scale 2, and then applies
    the global scale; the character viewer converts a world landmark as the
    specification says, with vertical offset 1.5, and a normalized landmark
    with depth scale 2 and the same vertical offset 1.5 added to [y']. *)
Theorem coordinate_conversion :
  (forall lm, SkeletonRenderer.centred lm = Spec.normalizedToCentred 2 lm) /\
  (forall r lm, SkeletonRenderer.jointPosition r lm
                = THREE.multiplyScalar (Spec.normalizedToCentred 2 lm)
                                       (SkeletonRenderer.scale r)) /\
  (forall lms i, CharacterViewer.getPos lms true i
                 = Spec.worldToCentred 1.5 <$> lms !! i) /\
  (forall lms i, CharacterViewer.getPos lms false i
                 = (fun lm => Spec.raised 1.5 (Spec.normalizedToCentred 2 lm))
                     <$> lms !! i).
Proof.
  assert (H : forall lm, SkeletonRenderer.centred lm = Spec.normalizedToCentred 2 lm).
  { intros lm. unfold SkeletonRenderer.centred, Spec.normalizedToCentred.
    f_equal; ring. }
  split; [exact H |]. split; [| split].
  - intros r lm. unfold SkeletonRenderer.jointPosition. rewrite H. reflexivity.
  - intros lms i. unfold CharacterViewer.getPos. by destruct (lms !! i).
  - intros lms i. unfold CharacterViewer.getPos. by destruct (lms !! i).
Qed.

(** C4 as stated fails: the character viewer takes the normalized landmark
    at the centre of the image, (0.5, 0.5, 0), to the height 1.5, and not
    to the height 0 of [y' = -(y - 0.5) * 2], whatever the depth scale. *)
Lemma normalized_landmark_is_raised :
  CharacterViewer.getPos [Pose.mkLandmark 0.5 0.5 0 (Some 1)] false 0
  = Some (THREE.mkVector3 ((0.5 - 0.5) * 2) (- (0.5 - 0.5) * 2 + 1.5) (- 0 * 2)) /\
  ~ exists depthScale,
      CharacterViewer.getPos [Pose.mkLandmark 0.5 0.5 0 (Some 1)] false 0
      = Some (Spec.normalizedToCentred depthScale
                (Pose.mkLandmark 0.5 0.5 0 (Some 1))).
Proof.
  split; [reflexivity |]. intros [d Hd].
  unfold CharacterViewer.getPos, Spec.normalizedToCentred in Hd. simpl in Hd.
  injection Hd; intros; lra.
Qed.

End ConversionProps.

(** ** The relay *)

Module PoseExporterProps.
Import PoseExporter.

Lemma elem_of_broadcast (c : option ChannelState) (d : PoseData) (eff : Effect) :
  eff ∈ broadcast c d <->
  (c = Some Listening /\ eff = PostMessage d) \/
  (c = Some Closed /\
   eff = ConsoleError "PoseExporter: BroadcastChannel error").
Proof.
  destruct c as [[] |]; simpl;
    rewrite ?list_elem_of_singleton, ?elem_of_nil.
  - split; [by left | by intros [[_ ->] | [[=] _]]].
  - split; [by right | by intros [[[=] _] | [_ ->]]].
  - split; [done | by intros [[[=] _] | [[=] _]]].
Qed.

Lemma elem_of_sendSocket (ws : option ReadyState) (d : PoseData) (eff : Effect) :
  eff ∈ sendSocket ws d <-> ws = Some OPEN /\ eff = Send d.
Proof.
  destruct ws as [[] |]; simpl;
    rewrite ?list_elem_of_singleton, ?elem_of_nil;
    (split; [try done; by intros -> | try (by intros [[=] _]); by intros [_ ->]]).
Qed.

Lemma elem_of_dispatchEvent (listeners : list nat) (d : PoseData) (eff : Effect) :
  eff ∈ dispatchEvent listeners d <-> exists l, l ∈ listeners /\ eff = Invoke l d.
Proof.
  unfold dispatchEvent. rewrite list_elem_of_fmap.
  split; intros (l & H1 & H2); by exists l.
Qed.

(** A publish that goes through: the frame built, and what is done with
    it, transport by transport. *)
Lemma exportPose_enabled (e : t) (listeners : list nat) (result : Result)
    (timestamp : R) (videoInfo : VideoInfo) (lms : list (list Pose.Landmark)) :
  enabled e = true -> landmarks result = Some lms -> lms <> [] ->
  let d := mkPoseData timestamp (frameCount e) (imap (exportPerson result) lms)
                      videoInfo in
  exportPose e listeners result timestamp videoInfo
  = (mk (channel e) (websocket e) (enabled e) (exportFormat e)
        (S (frameCount e)) timestamp,
     broadcast (channel e) d ++ sendSocket (websocket e) d ++
     dispatchEvent listeners d).
Proof.
  intros He Hl Hne d. unfold exportPose. rewrite He, Hl. simpl.
  by rewrite bool_decide_eq_false_2 by (by destruct lms).
Qed.

(** C9, as the code has it.  A publish on a disabled exporter sends
    nothing, calls no listener and leaves the exporter as it was.  A publish
    that goes through builds one frame from the result (the time stamp and
    the video information it was given, the frame count of the exporter, one
    pose per person of the result), counts it, and hands that frame to each
    transport that is connected and to it only: the socket gets it exactly
    when it is open, the channel exactly when it is listening, and every
    listener is called once per registration, whatever the state of the
    others.  A transport that is not connected gets nothing; this is silent
    for a socket that is missing or not open and for a channel that is
    missing, but not for a channel that has been closed: the failure to post
    on it is printed as an error, and it is the only thing printed. *)
Theorem publish_transports (e : t) (listeners : list nat) (result : Result)
    (timestamp : R) (videoInfo : VideoInfo) :
  (enabled e = false ->
   exportPose e listeners result timestamp videoInfo = (e, [])) /\
  (forall lms, enabled e = true -> landmarks result = Some lms -> lms <> [] ->
   exists d,
     PoseExporter.timestamp d = timestamp /\
     data_frameCount d = frameCount e /\
     PoseExporter.videoInfo d = videoInfo /\
     poses d = imap (exportPerson result) lms /\
     let e' := fst (exportPose e listeners result timestamp videoInfo) in
     let effects := snd (exportPose e listeners result timestamp videoInfo) in
     frameCount e' = S (frameCount e) /\ lastExportTime e' = timestamp /\
     channel e' = channel e /\ websocket e' = websocket e /\
     enabled e' = enabled e /\
     (forall d', Send d' ∈ effects <-> websocket e = Some OPEN /\ d' = d) /\
     (forall d', PostMessage d' ∈ effects <->
                 channel e = Some Listening /\ d' = d) /\
     (forall l d', Invoke l d' ∈ effects <-> l ∈ listeners /\ d' = d) /\
     (forall s, ConsoleError s ∈ effects <->
                channel e = Some Closed /\
                s = "PoseExporter: BroadcastChannel error")).
Proof.
  split.
  - intros He. unfold exportPose. by rewrite He.
  - intros lms He Hl Hne.
    exists (mkPoseData timestamp (frameCount e) (imap (exportPerson result) lms)
                       videoInfo).
    split; [reflexivity |]. split; [reflexivity |]. split; [reflexivity |].
    split; [reflexivity |]. intros e' effects. unfold e', effects.
    rewrite (exportPose_enabled e listeners result timestamp videoInfo lms He Hl Hne).
    cbn [fst snd frameCount lastExportTime channel websocket enabled].
    split; [reflexivity |]. split; [reflexivity |]. split; [reflexivity |].
    split; [reflexivity |]. split; [reflexivity |].
    split; [| split; [| split]].
    + intros d'. rewrite !elem_of_app, elem_of_broadcast, elem_of_sendSocket,
        elem_of_dispatchEvent. split.
      * intros [[[_ [=]] | [_ [=]]] | [[Hw [= ->]] | (l & _ & [=])]]. done.
      * intros [Hw ->]. right; left. done.
    + intros d'. rewrite !elem_of_app, elem_of_broadcast, elem_of_sendSocket,
        elem_of_dispatchEvent. split.
      * intros [[[Hc [= ->]] | [_ [=]]] | [[_ [=]] | (l & _ & [=])]]. done.
      * intros [Hc ->]. left; left. done.
    + intros l d'. rewrite !elem_of_app, elem_of_broadcast, elem_of_sendSocket,
        elem_of_dispatchEvent. split.
      * intros [[[_ [=]] | [_ [=]]] | [[_ [=]] | (l' & Hin & [= -> ->])]]. done.
      * intros [Hin ->]. right; right. by exists l.
    + intros s. rewrite !elem_of_app, elem_of_broadcast, elem_of_sendSocket,
        elem_of_dispatchEvent. split.
      * intros [[[_ [=]] | [Hc [= ->]]] | [[_ [=]] | (l' & _ & [=])]]. done.
      * intros [Hc ->]. left; right. done.
Qed.

Lemma publish_transports_witness :
  exportPose (setEnabled Examples.exporter false) [7%nat]
             Examples.unseenResult 0 Examples.noVideoInfo
  = (setEnabled Examples.exporter false, []) /\
  exists d,
    PoseExporter.timestamp d = 0 /\
    data_frameCount d = frameCount Examples.exporter /\
    PoseExporter.videoInfo d = Examples.noVideoInfo /\
    poses d = imap (exportPerson Examples.unseenResult)
                   [[Pose.mkLandmark 0.5 0.5 0 (Some 0)]] /\
    let e' := fst (exportPose Examples.exporter [7%nat]
                     Examples.unseenResult 0 Examples.noVideoInfo) in
    let effects := snd (exportPose Examples.exporter [7%nat]
                          Examples.unseenResult 0 Examples.noVideoInfo) in
    frameCount e' = S (frameCount Examples.exporter) /\
    lastExportTime e' = 0 /\
    channel e' = channel Examples.exporter /\
    websocket e' = websocket Examples.exporter /\
    enabled e' = enabled Examples.exporter /\
    (forall d', Send d' ∈ effects <->
                websocket Examples.exporter = Some OPEN /\ d' = d) /\
    (forall d', PostMessage d' ∈ effects <->
                channel Examples.exporter = Some Listening /\ d' = d) /\
    (forall l d', Invoke l d' ∈ effects <-> l ∈ [7%nat] /\ d' = d) /\
    (forall s, ConsoleError s ∈ effects <->
               channel Examples.exporter = Some Closed /\
               s = "PoseExporter: BroadcastChannel error").
Proof.
  split.
  - apply (proj1 (publish_transports (setEnabled Examples.exporter false)
                    [7%nat] Examples.unseenResult 0 Examples.noVideoInfo)).
    reflexivity.
  - apply (proj2 (publish_transports Examples.exporter [7%nat]
                    Examples.unseenResult 0 Examples.noVideoInfo)
             [[Pose.mkLandmark 0.5 0.5 0 (Some 0)]]);
      [reflexivity | reflexivity | discriminate].
Defined.

(** C9 as stated fails: after [destroy()] the channel of the exporter is
    closed, hence not connected, and the socket is closing; a publish then
    posts nothing on the channel and sends nothing on the socket, and the
    listener of the window still gets the frame, but the publish is not
    silent for the channel: the error of posting on it is printed. *)
Lemma closed_channel_is_reported :
  enabled (destroy Examples.exporter) = true /\
  channel (destroy Examples.exporter) = Some Closed /\
  websocket (destroy Examples.exporter) = Some CLOSING /\
  snd (exportPose (destroy Examples.exporter) [7%nat]
         Examples.unseenResult 0 Examples.noVideoInfo)
  = [ConsoleError "PoseExporter: BroadcastChannel error";
     Invoke 7
       (mkPoseData 0 0
          (imap (exportPerson Examples.unseenResult)
                [[Pose.mkLandmark 0.5 0.5 0 (Some 0)]])
          Examples.noVideoInfo)].
Proof.
  split; [reflexivity |]. split; [reflexivity |]. split; [reflexivity |].
  rewrite (exportPose_enabled (destroy Examples.exporter) [7%nat]
             Examples.unseenResult 0 Examples.noVideoInfo
             [[Pose.mkLandmark 0.5 0.5 0 (Some 0)]] eq_refl eq_refl)
    by discriminate.
  reflexivity.
Qed.





End PoseExporterProps.

(** ** Strings *)

Module JSFacts.
Import JS.

Lemma append_cons (c : ascii) (s t : string) :
  String c s +:+ t = String c (s +:+ t).
Proof. reflexivity. Qed.

Lemma append_empty (t : string) : EmptyString +:+ t = t.
Proof. reflexivity. Qed.

Lemma startsWith_spec (s p : string) :
  startsWith s p = true <-> exists post, s = p +:+ post.
Proof.
  revert s. induction p as [| a p IH]; intros s.
  - split; [intros _; by exists s | by destruct s].
  - destruct s as [| b s]; simpl.
    + split; [done | intros [post Hp]; by rewrite append_cons in Hp].
    + destruct (decide (a = b)) as [-> | Hne].
      * rewrite IH. split; intros [post Hp]; exists post;
          rewrite append_cons in *; congruence.
      * split; [done | intros [post Hp]; rewrite append_cons in Hp; congruence].
Qed.

Lemma includes_unfold (s sub : string) :
  includes s sub =
  if startsWith s sub then true
  else match s with
       | EmptyString => false
       | String _ s' => includes s' sub
       end.
Proof. by destruct s. Qed.

(** [s.includes(sub)] holds exactly when [sub] occurs in [s]. *)
Lemma includes_spec (s sub : string) :
  includes s sub = true <-> exists pre post, s = pre +:+ sub +:+ post.
Proof.
  split.
  - induction s as [| c s IH]; rewrite includes_unfold;
      destruct (startsWith _ sub) eqn:Hs; try done.
    + apply startsWith_spec in Hs as [post Hp]. by exists EmptyString, post.
    + apply startsWith_spec in Hs as [post Hp]. intros _.
      by exists EmptyString, post.
    + intros Hi. destruct (IH Hi) as (pre & post & ->).
      by exists (String c pre), post.
  - intros (pre & post & ->). induction pre as [| c pre IH].
    + rewrite includes_unfold, append_empty.
      replace (startsWith _ sub) with true; [done |].
      symmetry. apply startsWith_spec. by exists post.
    + rewrite includes_unfold, append_cons. by destruct (startsWith _ sub).
Qed.

End JSFacts.

(** ** Matching bones to roles *)

Module BoneMatching.
Import CharacterViewer.

(** The alias loop stops at the first alias that matches, and then assigns
    the role only if it is still free. *)
Lemma tryAliases_find (name : string) (obj : nat) (key : string)
    (aliases : list string) (gb : gmap string nat) :
  tryAliases name obj key aliases gb =
  match List.find (nameMatches name) aliases with
  | Some _ => match gb !! key with
              | Some _ => gb
              | None => <[key := obj]> gb
              end
  | None => gb
  end.
Proof.
  induction aliases as [| alias rest IH]; simpl; [done |].
  by destruct (nameMatches name alias).
Qed.

Lemma find_existsb {A : Type} (f : A -> bool) (l : list A) :
  existsb f l = bool_decide (is_Some (List.find f l)).
Proof.
  induction l as [| a l IH]; simpl; [done |].
  by destruct (f a).
Qed.

Lemma tryAliases_lookup (name : string) (obj : nat) (key k : string)
    (aliases : list string) (gb : gmap string nat) :
  tryAliases name obj key aliases gb !! k =
  match gb !! k with
  | Some v => Some v
  | None => if decide (k = key)
            then (if existsb (nameMatches name) aliases then Some obj else None)
            else None
  end.
Proof.
  rewrite tryAliases_find, find_existsb.
  destruct (List.find _ aliases) as [a |]; simpl.
  - destruct (gb !! key) eqn:Hk.
    + destruct (gb !! k) eqn:Hk'; [done |]. case_decide; [congruence | done].
    + destruct (decide (k = key)) as [-> | Hne].
      * by rewrite lookup_insert_eq, Hk.
      * rewrite lookup_insert_ne by done. by destruct (gb !! k).
  - destruct (gb !! k); [done |]. by case_decide.
Qed.

(** One object against the whole table: a free role is taken exactly when
    the name matches one of its aliases; a role that is taken stays. *)
Lemma tryRoles_lookup (table : list (string * list string)) (name : string)
    (obj : nat) (gb : gmap string nat) (key : string) (aliases : list string) :
  NoDup (table.*1) -> (key, aliases) ∈ table ->
  tryRoles table name obj gb !! key =
  match gb !! key with
  | Some v => Some v
  | None => if existsb (nameMatches name) aliases then Some obj else None
  end.
Proof.
  unfold tryRoles. revert gb.
  induction table as [| [k al] table IH]; intros gb Hnd Hin; simpl.
  - by apply elem_of_nil in Hin.
  - simpl in Hnd. apply NoDup_cons in Hnd as [Hk Hnd].
    apply elem_of_cons in Hin as [[= <- <-] | Hin].
    + assert (Hkeep : forall g : gmap string nat,
                foldl (fun gb ka => tryAliases name obj ka.1 ka.2 gb) g table !! key
                = g !! key).
      { clear IH Hnd. induction table as [| [k' al'] table IH']; intros g; [done |].
        simpl. rewrite IH'.
        - rewrite tryAliases_lookup. destruct (g !! key); [done |].
          case_decide as Hd; [| done]. subst k'. exfalso. apply Hk. simpl. left.
        - intros Hin'. apply Hk. simpl. by right. }
      rewrite Hkeep, tryAliases_lookup. destruct (gb !! key); [done |].
      by case_decide.
    + rewrite IH by done. rewrite tryAliases_lookup.
      destruct (gb !! key); [done |].
      case_decide as Hd; [| done]. subst k. exfalso. apply Hk.
      apply list_elem_of_fmap. by exists (key, aliases).
Qed.

Lemma visit_lookup (table : list (string * list string)) (gb : gmap string nat)
    (i : nat) (n : Node) (key : string) (aliases : list string) :
  NoDup (table.*1) -> (key, aliases) ∈ table ->
  visit table gb (i, n) !! key =
  match gb !! key with
  | Some v => Some v
  | None => if roleMatches aliases n then Some i else None
  end.
Proof.
  intros Hnd Hin. unfold visit, roleMatches; simpl.
  destruct (isBone n || isObject3D n); simpl.
  - by apply tryRoles_lookup.
  - by destruct (gb !! key).
Qed.

Lemma matchBones_cons (table : list (string * list string))
    (gb : gmap string nat) (from : nat) (n : Node) (nodes : list Node) :
  matchBones table gb from (n :: nodes)
  = matchBones table (visit table gb (from, n)) (S from) nodes.
Proof.
  unfold matchBones. simpl. rewrite Nat.add_0_r. f_equal.
  apply imap_ext. intros i x _. simpl. f_equal. lia.
Qed.

(** A role that has a bone keeps it, whatever is traversed afterwards. *)
Lemma matchBones_keeps (table : list (string * list string))
    (gb : gmap string nat) (from : nat) (nodes : list Node)
    (key : string) (aliases : list string) (i : nat) :
  NoDup (table.*1) -> (key, aliases) ∈ table ->
  gb !! key = Some i -> matchBones table gb from nodes !! key = Some i.
Proof.
  intros Hnd Hin. revert gb from.
  induction nodes as [| n nodes IH]; intros gb from Hk; [done |].
  rewrite matchBones_cons. apply IH.
  by rewrite (visit_lookup _ _ _ _ _ aliases), Hk.
Qed.

(** A role that is free goes to the first object traversed that answers to
    it, if there is one. *)
Lemma matchBones_first (table : list (string * list string))
    (gb : gmap string nat) (from : nat) (nodes : list Node)
    (key : string) (aliases : list string) (i : nat) :
  NoDup (table.*1) -> (key, aliases) ∈ table -> gb !! key = None ->
  matchBones table gb from nodes !! key = Some i <->
  exists k n, i = (from + k)%nat /\ nodes !! k = Some n /\
              roleMatches aliases n = true /\
              forall j m, (j < k)%nat -> nodes !! j = Some m ->
                          roleMatches aliases m = false.
Proof.
  intros Hnd Hin. revert gb from.
  induction nodes as [| n nodes IH]; intros gb from Hk.
  - unfold matchBones; simpl. rewrite Hk. split; [done |].
    by intros (k & n & _ & Hn & _).
  - rewrite matchBones_cons.
    destruct (roleMatches aliases n) eqn:Hm.
    + rewrite (matchBones_keeps _ _ _ _ key aliases from) by
        (try done; by rewrite (visit_lookup _ _ _ _ _ aliases), Hk, Hm).
      split.
      * intros [= <-]. exists 0%nat, n.
        split; [lia |]. split; [done |]. split; [done |].
        intros j m Hj. lia.
      * intros (k & n' & -> & Hn & Hr & Hfirst). destruct k as [| k].
        -- f_equal. lia.
        -- specialize (Hfirst 0%nat n). simpl in Hfirst.
           rewrite Hfirst in Hm by (done || lia). done.
    + rewrite IH by (by rewrite (visit_lookup _ _ _ _ _ aliases), Hk, Hm).
      split.
      * intros (k & n' & -> & Hn & Hr & Hfirst).
        exists (S k), n'.
        split; [lia |]. split; [done |]. split; [done |].
        intros [| j] m Hj Hjm; simpl in Hjm; [congruence |].
        apply (Hfirst j); [lia | done].
      * intros (k & n' & -> & Hn & Hr & Hfirst). destruct k as [| k].
        -- simpl in Hn. congruence.
        -- exists k, n'.
           split; [lia |]. split; [done |]. split; [done |].
           intros j m Hj Hjm. apply (Hfirst (S j)); [lia | done].
Qed.

Lemma commonBoneNames_NoDup : NoDup (commonBoneNames.*1).
Proof. refine (bool_decide_unpack _ _). vm_compute. exact I. Qed.

(** C7.  For a loaded rig and a role of the alias table: a name matches an
    alias exactly when the name, lowered, contains the alias, lowered, as a
    substring; the alias loop stops at the first alias that matches and
    assigns the role only if it is free; the role ends up with the first
    object of the traversal whose name matches one of its aliases, and with
    none if there is no such object; and a role that has a bone is not given
    another one. *)
Theorem bone_role_matching (r : t) (nodes : list Node) (key : string)
    (aliases : list string) :
  (key, aliases) ∈ commonBoneNames ->
  (forall name alias,
     nameMatches name alias = true <->
     exists pre post,
       JS.toLowerCase name = pre +:+ JS.toLowerCase alias +:+ post) /\
  (forall name obj gb,
     tryAliases name obj key aliases gb =
     match List.find (nameMatches name) aliases with
     | Some _ => match gb !! key with
                 | Some _ => gb
                 | None => <[key := obj]> gb
                 end
     | None => gb
     end) /\
  (forall i,
     gltfBones (findGLTFBones r nodes) !! key = Some i <->
     exists n, nodes !! i = Some n /\ roleMatches aliases n = true /\
               forall j m, (j < i)%nat -> nodes !! j = Some m ->
                           roleMatches aliases m = false) /\
  (forall gb from more i,
     gb !! key = Some i ->
     matchBones commonBoneNames gb from more !! key = Some i).
Proof.
  intros Hin. split; [| split; [| split]].
  - intros name alias. apply JSFacts.includes_spec.
  - intros name obj gb. apply tryAliases_find.
  - intros i. unfold findGLTFBones; simpl.
    rewrite (matchBones_first _ _ _ _ key aliases i commonBoneNames_NoDup Hin)
      by done.
    split.
    + intros (k & n & -> & Hrest). by exists n.
    + intros (n & Hrest). by exists i, n.
  - intros gb from more i.
    exact (matchBones_keeps _ gb from more key aliases i commonBoneNames_NoDup Hin).
Qed.

End BoneMatching.

Module BoneMatchingWitness.
Import CharacterViewer.

Lemma bone_role_matching_witness :
  gltfBones (findGLTFBones new Examples.rig) !! "head" = Some 3%nat.
Proof.
  destruct (BoneMatching.bone_role_matching new Examples.rig "head"
              ["head"; "Head"; "HEAD"; "neck"; "Neck"; "cranium";
               "mixamorigHead"; "mixamorigNeck"])
    as (_ & _ & Hfirst & _); [apply list_elem_of_here |].
  apply Hfirst. eexists. split; [reflexivity |]. split; [reflexivity |].
  intros [| [| [| j]]] m Hj Hm; try lia; injection Hm as <-; reflexivity.
Defined.

End BoneMatchingWitness.

(** ** The character viewer *)

Module CharacterViewerFacts.
Import CharacterViewer.

Lemma getPos_is_Some (lms : list Pose.Landmark) (world : bool) (i : nat) :
  (i < List.length lms)%nat -> is_Some (getPos lms world i).
Proof.
  intros Hi. unfold getPos.
  destruct (lookup_lt_is_Some_2 lms i Hi) as [lm ->]. simpl. eauto.
Qed.

(** The head block moves the head, and nothing else, to the nose when the
    nose is seen. *)
Lemma updateHead_seen (bs : gmap string THREE.Object3D)
    (lms : list Pose.Landmark) (world : bool) (head : THREE.Object3D)
    (nose : Pose.Landmark) (p : THREE.Vector3) :
  bs !! "head" = Some head -> lms !! NOSE = Some nose ->
  gt_number (Pose.visibility nose) 0.5 = true ->
  getPos lms world NOSE = Some p ->
  updateHead bs lms (getPos lms world)
  = Some (<["head" := THREE.set_position head p]> bs).
Proof.
  intros Hh Hn Hv Hp. unfold updateHead. rewrite Hh, Hn. simpl.
  rewrite Hv, Hp. reflexivity.
Qed.

Lemma updateTorso_other (bs : gmap string THREE.Object3D)
    (lms : list Pose.Landmark) (world : bool) :
  (33 <= List.length lms)%nat ->
  exists bs', updateTorso bs (getPos lms world) = Some bs' /\
              forall k, k <> "torso" -> bs' !! k = bs !! k.
Proof.
  intros Hl. unfold updateTorso.
  destruct (bs !! "torso") as [torso |]; [| by exists bs].
  destruct (getPos_is_Some lms world LEFT_SHOULDER) as [ls ->];
    [unfold LEFT_SHOULDER; lia |].
  destruct (getPos_is_Some lms world RIGHT_SHOULDER) as [rs ->];
    [unfold RIGHT_SHOULDER; lia |].
  destruct (getPos_is_Some lms world LEFT_HIP) as [lh ->];
    [unfold LEFT_HIP; lia |].
  destruct (getPos_is_Some lms world RIGHT_HIP) as [rh ->];
    [unfold RIGHT_HIP; lia |].
  simpl. eexists. split; [reflexivity |].
  intros k Hk. by rewrite lookup_insert_ne.
Qed.

Lemma updateHips_other (bs : gmap string THREE.Object3D)
    (lms : list Pose.Landmark) (world : bool) :
  (33 <= List.length lms)%nat ->
  exists bs', updateHips bs (getPos lms world) = Some bs' /\
              forall k, k <> "hips" -> bs' !! k = bs !! k.
Proof.
  intros Hl. unfold updateHips.
  destruct (bs !! "hips") as [hips |]; [| by exists bs].
  destruct (getPos_is_Some lms world LEFT_HIP) as [lh ->];
    [unfold LEFT_HIP; lia |].
  destruct (getPos_is_Some lms world RIGHT_HIP) as [rh ->];
    [unfold RIGHT_HIP; lia |].
  simpl. eexists. split; [reflexivity |].
  intros k Hk. by rewrite lookup_insert_ne.
Qed.

(** A limb: the call returns when its three landmarks exist; the upper and
    the lower segment get the scale [distance / 0.4]; no bone of another
    name is touched. *)
Lemma updateLimb_Some (bs : gmap string THREE.Object3D) (name : string)
    (a b c : nat) (getPos : nat -> option THREE.Vector3)
    (pa pb pc : THREE.Vector3) :
  getPos a = Some pa -> getPos b = Some pb -> getPos c = Some pc ->
  exists bs',
    updateLimb bs name a b c getPos = Some bs' /\
    (forall k, k <> name +:+ "Upper" -> k <> name +:+ "Joint" ->
               k <> name +:+ "Lower" -> k <> name +:+ "End" ->
               bs' !! k = bs !! k) /\
    (name +:+ "Upper" <> name +:+ "Joint" ->
     name +:+ "Upper" <> name +:+ "Lower" ->
     name +:+ "Upper" <> name +:+ "End" ->
     forall m, bs' !! (name +:+ "Upper") = Some m ->
       THREE.y (THREE.scale m) = THREE.distanceTo pa pb / 0.4).
Proof.
  intros Ha Hb Hc. unfold updateLimb. rewrite Ha, Hb, Hc. simpl.
  eexists. split; [reflexivity |]. split.
  - intros k H1 H2 H3 H4. by rewrite !lookup_alter_ne.
  - intros H1 H2 H3 m.
    rewrite !lookup_alter_ne, lookup_alter_eq by done.
    destruct (bs !! (name +:+ "Upper")); simpl; [| done].
    by intros [= <-].
Qed.

End CharacterViewerFacts.

Module CharacterViewerProps.
Import CharacterViewer CharacterViewerFacts.

Ltac key_ne := let H := fresh in intros H; vm_compute in H; discriminate H.

Ltac limb_positions lms world a b c :=
  let pa := fresh "pa" in let pb := fresh "pb" in let pc := fresh "pc" in
  let Ha := fresh "Ha" in let Hb := fresh "Hb" in let Hc := fresh "Hc" in
  destruct (getPos_is_Some lms world a) as [pa Ha]; [unfold a; lia |];
  destruct (getPos_is_Some lms world b) as [pb Hb]; [unfold b; lia |];
  destruct (getPos_is_Some lms world c) as [pc Hc]; [unfold c; lia |].

(** A frame of 33 landmarks or more on a procedural character: the call
    returns, and when the nose is seen the head is at the nose. *)
Lemma procedural_head (r : t) (pose : Pose.PoseEntry)
    (rest : list Pose.PoseEntry) (head : THREE.Object3D) (nose : Pose.Landmark) :
  (33 <= List.length (selected pose))%nat ->
  bool_decide (modelType r = "custom")
  && bool_decide (is_Some (loadedGLTFModel r)) = false ->
  bones r !! "head" = Some head ->
  selected pose !! NOSE = Some nose ->
  gt_number (Pose.visibility nose) 0.5 = true ->
  exists r' p,
    updateCharacterFromPose r (Pose.mkPoseData (Some (pose :: rest))) = Some r' /\
    getPos (selected pose)
           (bool_decide (0 < List.length (Pose.worldLandmarks pose))%nat) NOSE
    = Some p /\
    bones r' !! "head" = Some (THREE.set_position head p).
Proof.
  intros Hl Hc Hh Hn Hv. unfold updateCharacterFromPose. simpl.
  destruct (decide (List.length (selected pose) < 33)%nat) as [Hlt | _]; [lia |].
  rewrite Hc.
  set (lms := selected pose) in *.
  set (world := bool_decide (0 < List.length (Pose.worldLandmarks pose))%nat).
  destruct (getPos_is_Some lms world NOSE) as [p Hp]; [unfold NOSE; lia |].
  rewrite (updateHead_seen _ lms world head nose p Hh Hn Hv Hp). simpl.
  destruct (updateTorso_other (<["head" := THREE.set_position head p]> (bones r))
              lms world Hl) as (bs2 & -> & H2). simpl.
  destruct (updateHips_other bs2 lms world Hl) as (bs3 & -> & H3). simpl.
  limb_positions lms world LEFT_SHOULDER LEFT_ELBOW LEFT_WRIST.
  destruct (updateLimb_Some bs3 "leftArm" _ _ _ _ _ _ _ Ha Hb Hc0)
    as (bs4 & -> & H4 & _). simpl.
  limb_positions lms world RIGHT_SHOULDER RIGHT_ELBOW RIGHT_WRIST.
  destruct (updateLimb_Some bs4 "rightArm" _ _ _ _ _ _ _ Ha0 Hb0 Hc1)
    as (bs5 & -> & H5 & _). simpl.
  limb_positions lms world LEFT_HIP LEFT_KNEE LEFT_ANKLE.
  destruct (updateLimb_Some bs5 "leftLeg" _ _ _ _ _ _ _ Ha1 Hb1 Hc2)
    as (bs6 & -> & H6 & _). simpl.
  limb_positions lms world RIGHT_HIP RIGHT_KNEE RIGHT_ANKLE.
  destruct (updateLimb_Some bs6 "rightLeg" _ _ _ _ _ _ _ Ha2 Hb2 Hc3)
    as (bs7 & -> & H7 & _). simpl.
  eexists _, p. split; [reflexivity |]. split; [exact Hp |]. simpl.
  rewrite H7, H6, H5, H4, H3, H2 by key_ne.
  apply lookup_insert_eq.
Qed.

(** C1, as the code has it.  The skeleton renderer leaves everything as it
    is, and raises nothing, when the landmark array is missing or does not
    hold exactly 33 entries; the character viewer does so when there is no
    pose or when the landmark list of the first pose holds fewer than 33
    entries. *)
Theorem malformed_frame_ignored :
  (forall r landmarks,
     SkeletonRenderer.malformed landmarks ->
     SkeletonRenderer.updatePose r landmarks = Some r) /\
  (forall r poseData,
     tooShort poseData -> updateCharacterFromPose r poseData = Some r).
Proof.
  split.
  - intros r [lms |] Hm; simpl in *; [| done].
    by destruct (decide (List.length lms ≠ 33%nat)).
  - intros r [[[| pose rest] |]] Hs; unfold updateCharacterFromPose; simpl in *;
      try done.
    by destruct (decide (List.length (selected pose) < 33)%nat).
Qed.

Lemma malformed_frame_ignored_witness :
  SkeletonRenderer.updatePose (Examples.rendererAt 1)
    (Some (take 32 Examples.lineFrame_entries))
  = Some (Examples.rendererAt 1) /\
  updateCharacterFromPose new
    (Pose.mkPoseData
       (Some [Pose.mkPoseEntry (take 32 Examples.lineFrame) []]))
  = Some new.
Proof.
  split.
  - apply (proj1 malformed_frame_ignored). lazy. lia.
  - apply (proj2 malformed_frame_ignored). lazy. lia.
Defined.

(** C1 as stated fails: a list of 34 landmarks does not hold 33 entries,
    yet the character viewer processes it and moves the head of the
    character. *)
Lemma long_frame_is_processed :
  Pose.poses Examples.longFrame
  = Some [Pose.mkPoseEntry (replicate 34 (Pose.mkLandmark 1 0.5 0 (Some 1))) []] /\
  List.length (replicate 34 (Pose.mkLandmark 1 0.5 0 (Some 1))) <> 33%nat /\
  is_Some (updateCharacterFromPose new Examples.longFrame) /\
  updateCharacterFromPose new Examples.longFrame <> Some new.
Proof.
  split; [reflexivity |]. split; [simpl; lia |].
  assert (Hv : gt_number (Some 1) 0.5 = true) by (apply gt_number_above; lra).
  destruct (procedural_head new
              (Pose.mkPoseEntry (replicate 34 (Pose.mkLandmark 1 0.5 0 (Some 1))) [])
              [] (meshAt (THREE.mkVector3 0 1.5 0))
              (Pose.mkLandmark 1 0.5 0 (Some 1)))
    as (r' & p & Hu & Hp & Hhead);
    [simpl; lia | reflexivity | reflexivity | reflexivity | exact Hv |].
  unfold Examples.longFrame. rewrite Hu. split; [eauto |].
  intros [= ->].
  assert (Hnew : bones new !! "head" = Some (meshAt (THREE.mkVector3 0 1.5 0)))
    by reflexivity.
  rewrite Hnew in Hhead. injection Hhead as Hpos.
  simpl in Hp. injection Hp as <-. injection Hpos as Hx. lra.
Qed.

End CharacterViewerProps.

Module UnriggedModel.
Import CharacterViewer CharacterViewerFacts.

(** A model that has been loaded is the custom model of the viewer. *)
Lemma loaded_is_custom (r : t) (gltf : GLTF) :
  let loaded := loadGLTFModel r (Some gltf) in
  modelType loaded = "custom" /\ characterModel loaded = Some Loaded /\
  is_Some (loadedGLTFModel loaded) /\
  gltfBones loaded = matchBones commonBoneNames ∅ 0
                       (default [] (loadedGLTFModel loaded)).
Proof. simpl. repeat split. eauto. Qed.

(** A pose on a custom model without bones: a warning, the model moved as
    a whole, and nothing else. *)
Lemma unrigged_update (r : t) (pose : Pose.PoseEntry)
    (rest : list Pose.PoseEntry) (nodes : list Node) :
  modelType r = "custom" -> loadedGLTFModel r = Some nodes ->
  characterModel r = Some Loaded ->
  size (gltfBones r) = 0%nat -> (33 <= List.length (selected pose))%nat ->
  exists r' nodes',
    updateCharacterFromPose r (Pose.mkPoseData (Some (pose :: rest))) = Some r' /\
    console r' = console r ++ [noBonesWarning] /\
    characterModel r' = Some Loaded /\ modelType r' = "custom" /\
    bones r' = bones r /\ gltfBones r' = gltfBones r /\
    loadedGLTFModel r' = Some nodes' /\ sameRotations nodes nodes'.
Proof.
  intros Hm Hn Hc Hs Hl. unfold updateCharacterFromPose. simpl.
  destruct (decide (List.length (selected pose) < 33)%nat) as [Hlt | _]; [lia |].
  rewrite Hm, Hn. simpl. unfold updateGLTFModelFromPose.
  set (world := bool_decide (0 < List.length (Pose.worldLandmarks pose))%nat).
  destruct (getPos_is_Some (selected pose) world LEFT_HIP) as [lh ->];
    [unfold LEFT_HIP; lia |].
  destruct (getPos_is_Some (selected pose) world RIGHT_HIP) as [rh ->];
    [unfold RIGHT_HIP; lia |].
  simpl. rewrite Hs, Hc, Hn. simpl.
  eexists _, _. split; [reflexivity |]. simpl.
  split; [reflexivity |]. split; [reflexivity |]. split; [exact Hm |].
  split; [reflexivity |]. split; [reflexivity |]. split; [reflexivity |].
  unfold sameRotations. destruct nodes as [| n nodes]; simpl; [constructor |].
  constructor; [done |]. apply Forall2_same_length_lookup_2; [done |].
  intros i x y Hx Hy. congruence.
Qed.

(** C8, as the code has it.  When a loaded model yields no bone-role match,
    every pose update reports the warning on the console and only moves the
    model as a whole: the loaded model stays the model of the viewer, none
    of its objects is rotated, no procedural rig is built.  The procedural
    rig is the fall-back when loading the model fails. *)
Theorem unrigged_model_warns (r : t) (gltf : GLTF) (pose : Pose.PoseEntry)
    (rest : list Pose.PoseEntry) :
  let loaded := loadGLTFModel r (Some gltf) in
  size (gltfBones loaded) = 0%nat ->
  (33 <= List.length (selected pose))%nat ->
  (exists r' nodes nodes',
     updateCharacterFromPose loaded (Pose.mkPoseData (Some (pose :: rest)))
     = Some r' /\
     console r' = console loaded ++ [noBonesWarning] /\
     characterModel r' = Some Loaded /\ modelType r' = "custom" /\
     bones r' = bones loaded /\
     loadedGLTFModel loaded = Some nodes /\ loadedGLTFModel r' = Some nodes' /\
     sameRotations nodes nodes') /\
  characterModel (loadGLTFModel r None)
  = Some (Procedural (THREE.object3D "character")) /\
  is_Some (bones (loadGLTFModel r None) !! "head").
Proof.
  intros loaded Hs Hl. split; [| split].
  - destruct (loaded_is_custom r gltf) as (Hm & Hc & [nodes Hn] & _).
    fold loaded in Hm, Hc, Hn.
    destruct (unrigged_update loaded pose rest nodes Hm Hn Hc Hs Hl)
      as (r' & nodes' & Hu & Hw & Hc' & Hm' & Hb & _ & Hn' & Hrot).
    exists r', nodes, nodes'. repeat split; done.
  - reflexivity.
  - simpl. unfold createProceduralCharacter; simpl.
    unfold createLimb.
    rewrite !lookup_insert_ne by (intros H; vm_compute in H; discriminate H).
    rewrite lookup_insert_eq. eauto.
Qed.

Lemma cube_unmatched :
  size (gltfBones (loadGLTFModel new (Some Examples.cube))) = 0%nat.
Proof. reflexivity. Qed.

Lemma stillFrame_pose :
  Examples.stillFrame
  = Pose.mkPoseData
      (Some [Pose.mkPoseEntry (replicate 33 (Pose.mkLandmark 0.5 0.5 0 (Some 1))) []]).
Proof. reflexivity. Qed.

Lemma unrigged_model_warns_witness :
  exists r',
    updateCharacterFromPose (loadGLTFModel new (Some Examples.cube))
                            Examples.stillFrame = Some r' /\
    console r'
    = console (loadGLTFModel new (Some Examples.cube)) ++ [noBonesWarning].
Proof.
  destruct (unrigged_model_warns new Examples.cube
              (Pose.mkPoseEntry
                 (replicate 33 (Pose.mkLandmark 0.5 0.5 0 (Some 1))) [])
              [] cube_unmatched)
    as ((r' & nodes & nodes' & Hu & Hw & _) & _); [lazy; lia |].
  exists r'. rewrite stillFrame_pose. split; [exact Hu | exact Hw].
Defined.

(** C8 as stated fails: after a cube has been loaded, which yields no
    bone-role match, a pose update leaves the loaded model as the model of
    the viewer, with no bone of a procedural rig. *)
Lemma unrigged_model_stays :
  size (gltfBones (loadGLTFModel new (Some Examples.cube))) = 0%nat /\
  exists r',
    updateCharacterFromPose (loadGLTFModel new (Some Examples.cube))
                            Examples.stillFrame = Some r' /\
    characterModel r' = Some Loaded /\
    characterModel r' <> characterModel new /\
    bones r' = ∅.
Proof.
  split; [exact cube_unmatched |].
  destruct (loaded_is_custom new Examples.cube) as (Hm & Hc & [nodes Hn] & _).
  destruct (unrigged_update _
              (Pose.mkPoseEntry
                 (replicate 33 (Pose.mkLandmark 0.5 0.5 0 (Some 1))) [])
              [] nodes Hm Hn Hc cube_unmatched)
    as (r' & nodes' & Hu & _ & Hc' & _ & Hb & _); [lazy; lia |].
  exists r'. rewrite stillFrame_pose. split; [exact Hu |].
  split; [exact Hc' |]. split; [by rewrite Hc' |].
  rewrite Hb. reflexivity.
Qed.

End UnriggedModel.

(** ** The model viewer *)

Module ModelViewerFacts.
Import ModelViewer.

(** After the joint loop, the sphere of landmark [i] is visible exactly
    when the confidence of the landmark is above 0.5. *)
Lemma updateSpheres_lookup (world : bool) (lms : list Pose.Landmark)
    (js : gmap nat THREE.Object3D) (i : nat) :
  foldl (updateSphere world) js (imap pair lms) !! i =
  match lms !! i, js !! i with
  | Some lm, Some sphere => updateSphere world js (i, lm) !! i
  | _, other => other
  end.
Proof.
  induction lms as [| lm lms IH] using rev_ind.
  - simpl. by destruct (js !! i).
  - rewrite imap_app, foldl_app. simpl. rewrite Nat.add_0_r.
    unfold updateSphere at 1. simpl.
    destruct (decide (i = List.length lms)) as [-> | Hne].
    + rewrite lookup_app_r, Nat.sub_diag by lia. simpl.
      rewrite lookup_ge_None_2 in IH by lia. rewrite IH.
      destruct (js !! List.length lms) as [sphere |] eqn:Hs.
      * unfold updateSphere; simpl. rewrite Hs, !lookup_insert_eq. reflexivity.
      * by rewrite IH.
    + assert (Hi : (lms ++ [lm]) !! i = lms !! i).
      { destruct (decide (i < List.length lms)%nat).
        - by rewrite lookup_app_l.
        - rewrite !lookup_ge_None_2; [done | lia | rewrite length_app; simpl; lia]. }
      rewrite Hi, <- IH.
      destruct (foldl _ _ _ !! List.length lms); [| done].
      by rewrite lookup_insert_ne.
Qed.

Lemma sphere_visibility (world : bool) (lms : list Pose.Landmark)
    (js : gmap nat THREE.Object3D) (i : nat) (lm : Pose.Landmark)
    (sphere : THREE.Object3D) :
  lms !! i = Some lm -> js !! i = Some sphere ->
  exists sphere',
    foldl (updateSphere world) js (imap pair lms) !! i = Some sphere' /\
    THREE.visible sphere' = gt_number (Pose.visibility lm) 0.5.
Proof.
  intros Hl Hj. rewrite updateSpheres_lookup, Hl, Hj.
  unfold updateSphere; simpl. rewrite Hj, lookup_insert_eq. eauto.
Qed.

(** A connection gets a cylinder exactly when both its spheres are visible
    and further than 0.01 apart; the cylinder is as long as the spheres are
    apart and its quaternion rotates the axis (0, 1, 0) onto the normalised
    vector from start to end. *)
Lemma boneCylinder_spec (js : gmap nat THREE.Object3D) (c : nat * nat)
    (start end_ : THREE.Object3D) :
  js !! c.1 = Some start -> js !! c.2 = Some end_ ->
  let d := THREE.subVectors (THREE.position end_) (THREE.position start) in
  (THREE.visible start = true -> THREE.visible end_ = true ->
   THREE.length d > 0.01 ->
   exists cyl,
     boneCylinder js c = Some (Some cyl) /\ height cyl = THREE.length d /\
     THREE.applyQuaternion (THREE.mkVector3 0 1 0)
                           (THREE.quaternion (cylinder cyl))
     = THREE.normalize d) /\
  (THREE.visible start = false \/ THREE.visible end_ = false \/
   ~ THREE.length d > 0.01 ->
   boneCylinder js c = Some None).
Proof.
  intros Hs He d. unfold boneCylinder. rewrite Hs, He. simpl. fold d. split.
  - intros -> -> Hlen. simpl.
    rewrite (proj2 (Rgtb_true _ _) Hlen).
    eexists. split; [reflexivity |]. split; [reflexivity |]. simpl.
    rewrite THREEFacts.normalize_half.
    apply THREEFacts.setFromUnitVectors_rotates.
    + unfold THREE.dot; simpl; ring.
    + apply THREEFacts.normalize_unit. lra.
  - intros [-> | [-> | Hlen]]; simpl; try done.
    + by rewrite andb_false_r.
    + rewrite (proj2 (Rgtb_false _ _) Hlen). by destruct (_ && _).
Qed.

End ModelViewerFacts.

(** * Part III: further properties of the code *)

(** ** The skeleton renderer under frames and controls *)

Module SkeletonRendererMore.
Import SkeletonRenderer SkeletonRendererFacts.

Lemma updateBone_ends (r : t) (js : list THREE.Object3D) (b b' : Bone) :
  updateBone r js b = Some b' -> start b' = start b /\ end_ b' = end_ b.
Proof.
  unfold updateBone.
  destruct (js !! start b) as [sj |]; [| done].
  destruct (js !! end_ b) as [ej |]; [| done]. simpl.
  destruct (_ && _); [destruct (Rgtb _ _) |]; by intros [= <-].
Qed.

(** What [updatePose] never touches: the number of joints, the bones'
    endpoints, the scale, the thickness, the two switches and the group. *)
Lemma updatePose_keeps (r r' : t) (landmarks : option (list (option Pose.Landmark))) :
  updatePose r landmarks = Some r' ->
  List.length (joints r') = List.length (joints r) /\
  Forall2 (fun b b' => start b' = start b /\ end_ b' = end_ b) (bones r) (bones r') /\
  scale r' = scale r /\ boneThickness r' = boneThickness r /\
  showJoints r' = showJoints r /\ showBones r' = showBones r /\
  skeleton r' = skeleton r.
Proof.
  unfold updatePose. destruct landmarks as [lms |].
  - destruct (decide _).
    + intros [= <-]. repeat split; try done. by apply Forall2_same_length_lookup_2;
        [| intros i x y Hx Hy; split; congruence].
    + destruct (mapM _ _) as [bs |] eqn:Hm; [| done]. simpl. intros [= <-]. simpl.
      split; [by rewrite length_imap |]. split; [| done].
      apply mapM_Some_1 in Hm. eapply Forall2_impl; [exact Hm |].
      intros b b' Hb. exact (updateBone_ends _ _ _ _ Hb).
  - intros [= <-]. repeat split; try done. by apply Forall2_same_length_lookup_2;
      [| intros i x y Hx Hy; split; congruence].
Qed.

Lemma rigged_bones (bs bs' : list Bone) :
  Forall2 (fun b b' => start b' = start b /\ end_ b' = end_ b) bs bs' ->
  Forall (fun b => (start b < 33)%nat /\ (end_ b < 33)%nat) bs ->
  Forall (fun b => (start b < 33)%nat /\ (end_ b < 33)%nat) bs'.
Proof.
  intros H2 H. induction H2 as [| b b' bs bs' [Hs He] _ IH]; [constructor |].
  inversion H as [| ? ? [H1 H3] Hrest]; subst.
  constructor; [rewrite Hs, He; done | by apply IH].
Qed.

Lemma updatePose_never_throws_helper (r : t)
    (landmarks : option (list (option Pose.Landmark))) :
  rigged r ->
  exists r', updatePose r landmarks = Some r' /\ rigged r'.
Proof.
  intros Hr.
  assert (Hex : exists r', updatePose r landmarks = Some r').
  { destruct landmarks as [lms |]; [| by exists r].
    destruct (decide (List.length lms = 33%nat)) as [Hl | Hl].
    - destruct (updatePose_frame r lms Hr Hl) as (r' & Hu & _). by exists r'.
    - exists r. simpl. by destruct (decide (List.length lms ≠ 33%nat)). }
  destruct Hex as [r' Hu]. exists r'. split; [done |].
  destruct (updatePose_keeps _ _ _ Hu) as (Hj & Hb & _).
  destruct Hr as [Hlen Hall]. split; [congruence |].
  exact (rigged_bones _ _ Hb Hall).
Qed.

(** X1.  On a rigged skeleton, as [createSkeleton] builds it, [updatePose]
    returns for every argument, and the skeleton it leaves is rigged again:
    the number of joints and the endpoints of the bones are as before. *)
Theorem updatePose_never_throws (r : t)
    (landmarks : option (list (option Pose.Landmark))) :
  rigged r ->
  exists r',
    updatePose r landmarks = Some r' /\ rigged r' /\
    List.length (joints r') = List.length (joints r) /\
    Forall2 (fun b b' => start b' = start b /\ end_ b' = end_ b)
            (bones r) (bones r').
Proof.
  intros Hr.
  destruct (updatePose_never_throws_helper r landmarks Hr) as (r' & Hu & Hr').
  destruct (updatePose_keeps _ _ _ Hu) as (Hj & Hb & _).
  by exists r'.
Qed.

Lemma updatePose_never_throws_witness :
  exists r',
    updatePose (Examples.rendererAt 1) (Some Examples.lineFrame_entries) = Some r' /\
    rigged r' /\
    List.length (joints r') = List.length (joints (Examples.rendererAt 1)) /\
    Forall2 (fun b b' => start b' = start b /\ end_ b' = end_ b)
            (bones (Examples.rendererAt 1)) (bones r').
Proof.
  apply (updatePose_never_throws (Examples.rendererAt 1)
           (Some Examples.lineFrame_entries) (createSkeleton_rigged _)).
Defined.

Lemma set_visible_idem (o : THREE.Object3D) (b : bool) :
  THREE.set_visible (THREE.set_visible o b) b = THREE.set_visible o b.
Proof. by destruct o. Qed.

Lemma updateJoint_idem (r : t) (lms : list (option Pose.Landmark)) (i : nat)
    (j : THREE.Object3D) :
  updateJoint r lms i (updateJoint r lms i j) = updateJoint r lms i j.
Proof.
  unfold updateJoint. destruct (lms !! i) as [[lm |] |]; try by destruct j.
  destruct (gt_number _ _); by destruct j.
Qed.

Lemma updateBone_idem (r : t) (js : list THREE.Object3D) (b b' : Bone) :
  updateBone r js b = Some b' -> updateBone r js b' = Some b'.
Proof.
  intros Hb. destruct (updateBone_ends _ _ _ _ Hb) as [Hs He].
  unfold updateBone in *. rewrite Hs, He.
  destruct (js !! start b) as [sj |]; [| done].
  destruct (js !! end_ b) as [ej |]; [| done]. simpl in *.
  destruct (_ && _); [destruct (Rgtb _ _) |];
    injection Hb as <-; simpl; by destruct (mesh b).
Qed.

Lemma updateJoint_ext (r1 r2 : t) (lms : list (option Pose.Landmark)) (i : nat)
    (j : THREE.Object3D) :
  scale r1 = scale r2 -> showJoints r1 = showJoints r2 ->
  updateJoint r1 lms i j = updateJoint r2 lms i j.
Proof.
  intros Hs Hj. unfold updateJoint, jointPosition. by rewrite Hs, Hj.
Qed.

Lemma updateBone_ext (r1 r2 : t) (js : list THREE.Object3D) (b : Bone) :
  showBones r1 = showBones r2 -> updateBone r1 js b = updateBone r2 js b.
Proof. intros Hb. unfold updateBone. by rewrite Hb. Qed.

(** X2.  Handing [updatePose] the frame it has just processed changes
    nothing. *)
Theorem updatePose_idempotent (r r' : t)
    (landmarks : option (list (option Pose.Landmark))) :
  updatePose r landmarks = Some r' -> updatePose r' landmarks = Some r'.
Proof.
  unfold updatePose. destruct landmarks as [lms |]; [| done].
  destruct (decide (List.length lms ≠ 33%nat)) as [Hl | Hl].
  - intros [= <-]. by destruct (decide (List.length lms ≠ 33%nat)).
  - destruct (mapM _ _) as [bs |] eqn:Hm; [| done]. simpl. intros [= <-]. simpl.
    destruct (decide (List.length lms ≠ 33%nat)) as [| _]; [done |].
    set (js := imap (updateJoint r lms) (joints r)).
    assert (Hjs : imap (updateJoint
                          (mk (skeleton r) js bs (scale r) (boneThickness r)
                              (showJoints r) (showBones r)) lms) js = js).
    { apply list_eq. intros i. unfold js.
      rewrite !list_lookup_imap. destruct (joints r !! i) as [j |]; [| done].
      simpl. f_equal.
      rewrite (updateJoint_ext _ r) by done. apply updateJoint_idem. }
    rewrite Hjs.
    assert (Hbs : mapM (updateBone
                          (mk (skeleton r) js bs (scale r) (boneThickness r)
                              (showJoints r) (showBones r)) js) bs = Some bs).
    { apply mapM_Some_2. apply mapM_Some_1 in Hm.
      apply Forall2_same_length_lookup_2; [done |].
      intros i x y Hx Hy. assert (x = y) as -> by congruence.
      destruct (Forall2_lookup_r _ _ _ _ _ Hm Hy) as (b & _ & Hb).
      rewrite (updateBone_ext _ r) by done.
      by apply (updateBone_idem r js b y). }
    rewrite Hbs. reflexivity.
Qed.

Lemma updatePose_idempotent_witness :
  exists r',
    updatePose (Examples.rendererAt 1) (Some Examples.lineFrame_entries) = Some r' /\
    updatePose r' (Some Examples.lineFrame_entries) = Some r'.
Proof.
  destruct (updatePose_frame (Examples.rendererAt 1) Examples.lineFrame_entries
              (createSkeleton_rigged _) eq_refl) as (r' & Hu & _).
  exists r'. split; [exact Hu |].
  exact (updatePose_idempotent _ _ _ Hu).
Defined.

(** X3.  What a frame of 33 entries does to one joint: a landmark seen
    with confidence above 0.3 places the joint, wherever it was before; a
    landmark that is missing or not seen hides the joint and leaves it where
    it was.  Rotation and scale of a joint are never touched. *)
Theorem joint_after_frame (r r' : t) (lms : list (option Pose.Landmark))
    (i : nat) (j : THREE.Object3D) :
  updatePose r (Some lms) = Some r' -> List.length lms = 33%nat ->
  joints r !! i = Some j ->
  exists j',
    joints r' !! i = Some j' /\
    THREE.quaternion j' = THREE.quaternion j /\ THREE.scale j' = THREE.scale j /\
    (forall lm, lms !! i = Some (Some lm) ->
       gt_number (Pose.visibility lm) 0.3 = true ->
       THREE.position j' = jointPosition r lm /\
       THREE.visible j' = showJoints r) /\
    ((forall lm, lms !! i = Some (Some lm) ->
        gt_number (Pose.visibility lm) 0.3 = false) ->
     THREE.position j' = THREE.position j /\ THREE.visible j' = false).
Proof.
  intros Hu Hl Hj. unfold updatePose in Hu.
  destruct (decide (List.length lms ≠ 33%nat)) as [| _]; [done |].
  destruct (mapM _ _) as [bs |]; [| done]. simpl in Hu. injection Hu as <-.
  simpl. rewrite list_lookup_imap, Hj. simpl. eexists. split; [reflexivity |].
  unfold updateJoint.
  destruct (lms !! i) as [[lm |] |] eqn:Hi.
  - destruct (gt_number (Pose.visibility lm) 0.3) eqn:Hv; simpl.
    + split; [done |]. split; [done |]. split.
      * intros lm' [= <-] _. done.
      * intros H. specialize (H lm eq_refl). congruence.
    + split; [done |]. split; [done |]. split.
      * intros lm' [= <-] Hv'. congruence.
      * done.
  - simpl. split; [done |]. split; [done |]. split; [by intros lm' [=] | done].
  - simpl. split; [done |]. split; [done |]. split; [by intros lm' [=] | done].
Qed.

Lemma joint_after_frame_witness :
  exists r' j',
    updatePose (Examples.rendererAt 1) (Some Examples.lineFrame_entries) = Some r' /\
    joints r' !! 2%nat = Some j' /\
    THREE.position j'
    = jointPosition (Examples.rendererAt 1) (Pose.mkLandmark (INR 2) 0 0 (Some 1)).
Proof.
  destruct (updatePose_frame (Examples.rendererAt 1) Examples.lineFrame_entries
              (createSkeleton_rigged _) eq_refl) as (r' & Hu & _).
  destruct (joint_after_frame (Examples.rendererAt 1) r'
              Examples.lineFrame_entries 2
              (THREE.set_visible (THREE.object3D "") true) Hu eq_refl eq_refl)
    as (j' & Hj' & _ & _ & Hseen & _).
  exists r', j'. split; [exact Hu |]. split; [exact Hj' |].
  apply (Hseen (Pose.mkLandmark (INR 2) 0 0 (Some 1)) eq_refl).
  apply gt_number_above. lra.
Defined.

Lemma applyQuaternion_scaled (k : R) (q : THREE.Quaternion) :
  THREE.applyQuaternion (THREE.mkVector3 0 k 0) q
  = THREE.multiplyScalar (THREE.applyQuaternion (THREE.mkVector3 0 1 0) q) k.
Proof.
  unfold THREE.applyQuaternion, THREE.multiplyQuaternions, THREE.conjugate,
    THREE.multiplyScalar; simpl. f_equal; ring.
Qed.

Lemma normalize_nonzero (a : THREE.Vector3) :
  THREE.length a <> 0 ->
  THREE.normalize a
  = THREE.mkVector3 (THREE.x a / THREE.length a) (THREE.y a / THREE.length a)
                    (THREE.z a / THREE.length a).
Proof.
  intros Hn. unfold THREE.normalize.
  by destruct (Req_dec_T (THREE.length a) 0).
Qed.

(** A cylinder of height 1 along the axis [up], stretched by [len], turned
    by the shortest arc from [up] to the direction from [ps] to [pe] and
    put half-way between the two: its ends are at [pe] and at [ps]. *)
Lemma spans (ps pe : THREE.Vector3) :
  THREE.distanceTo pe ps > 0 ->
  let q := THREE.setFromUnitVectors (THREE.mkVector3 0 1 0)
             (THREE.normalize (THREE.subVectors pe ps)) in
  let len := THREE.distanceTo pe ps in
  THREE.add (THREE.lerp ps pe 0.5)
            (THREE.applyQuaternion (THREE.mkVector3 0 (len / 2) 0) q) = pe /\
  THREE.add (THREE.lerp ps pe 0.5)
            (THREE.applyQuaternion (THREE.mkVector3 0 (- (len / 2)) 0) q) = ps.
Proof.
  intros Hlen q len. unfold THREE.distanceTo in *.
  assert (Hn : THREE.length (THREE.subVectors pe ps) <> 0) by lra.
  assert (Hrot : THREE.applyQuaternion (THREE.mkVector3 0 1 0) q
                 = THREE.normalize (THREE.subVectors pe ps)).
  { apply THREEFacts.setFromUnitVectors_rotates.
    - unfold THREE.dot; simpl; ring.
    - by apply THREEFacts.normalize_unit. }
  rewrite (applyQuaternion_scaled (len / 2)),
    (applyQuaternion_scaled (- (len / 2))), Hrot, normalize_nonzero by done.
  unfold len. set (l := THREE.length _) in *.
  unfold THREE.add, THREE.lerp, THREE.multiplyScalar; simpl.
  clear Hrot Hlen. subst len. clearbody l.
  assert (Hup : forall p e : R, p + (e - p) * 0.5 + (e - p) / l * (l / 2) = e).
  { intros p e.
    replace ((e - p) / l * (l / 2)) with ((e - p) / 2) by (field; exact Hn).
    lra. }
  assert (Hdown : forall p e : R, p + (e - p) * 0.5 + (e - p) / l * - (l / 2) = p).
  { intros p e.
    replace ((e - p) / l * - (l / 2)) with (- ((e - p) / 2)) by (field; exact Hn).
    lra. }
  split; apply THREEFacts.Vector3_eq; simpl; (apply Hup || apply Hdown).
Qed.

Lemma updateBone_position (r : t) (js : list THREE.Object3D) (b b' : Bone)
    (sj ej : THREE.Object3D) :
  js !! start b = Some sj -> js !! end_ b = Some ej ->
  updateBone r js b = Some b' ->
  THREE.visible sj = true -> THREE.visible ej = true ->
  THREE.position (mesh b') = THREE.lerp (THREE.position sj) (THREE.position ej) 0.5.
Proof.
  intros Hs He Hu Hvs Hve. unfold updateBone in Hu.
  rewrite Hs, He in Hu. simpl in Hu. rewrite Hvs, Hve in Hu. simpl in Hu.
  assert (Hmid : forall a c : R, (a + c) / 2 = a + (c - a) * 0.5)
    by (intros; lra).
  destruct (Rgtb _ _); injection Hu as <-; simpl;
    unfold THREE.lerp; f_equal; apply Hmid.
Qed.

(** X4.  A segment both of whose endpoints are seen and which is not of
    length 0 is drawn from joint to joint: the bone sits half-way between
    the two joints, and its cylinder (height 1 along the y-axis), stretched
    by the scale and turned by the quaternion the bone was given, ends
    exactly at the end joint and at the start joint. *)
Theorem bone_spans_joints (r : t) (lms : list (option Pose.Landmark))
    (k : nat) (b : Bone) (ls le : Pose.Landmark) :
  rigged r -> List.length lms = 33%nat -> bones r !! k = Some b ->
  lms !! start b = Some (Some ls) -> lms !! end_ b = Some (Some le) ->
  gt_number (Pose.visibility ls) 0.3 = true ->
  gt_number (Pose.visibility le) 0.3 = true ->
  showJoints r = true ->
  THREE.distanceTo (jointPosition r le) (jointPosition r ls) > 0 ->
  exists r' b',
    updatePose r (Some lms) = Some r' /\ bones r' !! k = Some b' /\
    let m := mesh b' in
    let half := THREE.y (THREE.scale m) * restLength / 2 in
    THREE.position m = THREE.lerp (jointPosition r ls) (jointPosition r le) 0.5 /\
    THREE.add (THREE.position m)
      (THREE.applyQuaternion (THREE.mkVector3 0 half 0) (THREE.quaternion m))
    = jointPosition r le /\
    THREE.add (THREE.position m)
      (THREE.applyQuaternion (THREE.mkVector3 0 (- half) 0) (THREE.quaternion m))
    = jointPosition r ls.
Proof.
  intros Hr Hl Hk Hls Hle G1 G2 Hsj Hlen.
  destruct (SkeletonRendererProps.bone_after r lms k b Hr Hl Hk)
    as (r' & b' & j1 & j2 & Hu & Hk' & _ & _ & Hs & He & Hb).
  rewrite (SkeletonRendererProps.updateJoint_seen r lms _ ls j1 Hls G1) in Hs.
  rewrite (SkeletonRendererProps.updateJoint_seen r lms _ le j2 Hle G2) in He.
  pose proof (updateBone_position r _ b b' _ _ Hs He Hb Hsj Hsj) as Hpos.
  destruct (SkeletonRendererProps.updateBone_visible r _ b b' _ _ Hs He Hb Hsj Hsj)
    as [Hshow _].
  simpl in Hpos, Hshow. destruct (Hshow Hlen) as (_ & Hy & Hq).
  exists r', b'. split; [exact Hu |]. split; [exact Hk' |]. simpl.
  rewrite Hpos, Hy, Hq. split; [reflexivity |].
  rewrite SkeletonRendererProps.boneLength_distanceTo,
    SkeletonRendererProps.boneDirection_normalize.
  unfold restLength.
  replace (THREE.distanceTo (jointPosition r le) (jointPosition r ls) * 1 / 2)
    with (THREE.distanceTo (jointPosition r le) (jointPosition r ls) / 2)
    by field.
  exact (spans (jointPosition r ls) (jointPosition r le) Hlen).
Qed.

Lemma bone_spans_joints_witness :
  exists r' b',
    updatePose (Examples.rendererAt 1) (Some Examples.lineFrame_entries) = Some r' /\
    bones r' !! 0%nat = Some b' /\
    THREE.add (THREE.position (mesh b'))
      (THREE.applyQuaternion
         (THREE.mkVector3 0 (THREE.y (THREE.scale (mesh b')) * restLength / 2) 0)
         (THREE.quaternion (mesh b')))
    = jointPosition (Examples.rendererAt 1) (Pose.mkLandmark (INR 2) 0 0 (Some 1)).
Proof.
  destruct (bone_spans_joints (Examples.rendererAt 1)
              Examples.lineFrame_entries 0 Examples.firstBone
              (Pose.mkLandmark (INR 0) 0 0 (Some 1))
              (Pose.mkLandmark (INR 2) 0 0 (Some 1))
              (createSkeleton_rigged _) eq_refl eq_refl
              SkeletonRendererProps.lineFrame_nose
              SkeletonRendererProps.lineFrame_eye
              SkeletonRendererProps.seen_one SkeletonRendererProps.seen_one eq_refl)
    as (r' & b' & Hu & Hk & _ & Hend & _).
  { rewrite SkeletonRendererProps.firstBone_distance, Rabs_R1. lra. }
  exists r', b'. split; [exact Hu |]. split; [exact Hk |]. exact Hend.
Defined.

(** X5.  With the joints switched off, a frame hides every joint and, the
    bones being drawn between visible joints only, every bone as well,
    whatever the confidences and whatever the "show bones" switch says. *)
Theorem joints_off_hides_bones (r : t) (lms : list (option Pose.Landmark)) :
  rigged r -> List.length lms = 33%nat -> showJoints r = false ->
  exists r',
    updatePose r (Some lms) = Some r' /\
    Forall (fun j => THREE.visible j = false) (joints r') /\
    Forall (fun b => THREE.visible (mesh b) = false) (bones r').
Proof.
  intros Hr Hl Hoff.
  destruct (updatePose_frame r lms Hr Hl) as (r' & Hu & Hj & _ & _ & _ & _).
  exists r'. split; [exact Hu |].
  assert (Hjs : Forall (fun j => THREE.visible j = false) (joints r')).
  { rewrite Hj. apply Forall_lookup_2. intros i j' Hi.
    apply list_lookup_imap_Some in Hi as (j & _ & ->).
    unfold updateJoint. destruct (lms !! i) as [[lm |] |]; try done.
    destruct (gt_number _ _); simpl; done. }
  split; [exact Hjs |].
  apply Forall_lookup_2. intros k b' Hk'.
  destruct (lookup_lt_is_Some_2 (bones r) k) as [b Hk].
  { rewrite <- (SkeletonRendererProps.updatePose_bones_length _ _ _ Hu).
    by eapply lookup_lt_Some. }
  destruct (SkeletonRendererProps.bone_after r lms k b Hr Hl Hk)
    as (r1 & b1 & j1 & j2 & Hu1 & Hk1 & _ & _ & Hs & He & Hb).
  assert (r1 = r') by congruence. subst r1.
  assert (b1 = b') by congruence. subst b1.
  eapply SkeletonRendererProps.updateBone_hidden; [exact Hs | exact He | exact Hb |].
  left. rewrite Forall_lookup in Hjs. exact (Hjs _ _ Hs).
Qed.

Lemma joints_off_hides_bones_witness :
  exists r',
    updatePose (setShowJoints (Examples.rendererAt 1) false)
               (Some Examples.lineFrame_entries) = Some r' /\
    Forall (fun j => THREE.visible j = false) (joints r') /\
    Forall (fun b => THREE.visible (mesh b) = false) (bones r').
Proof.
  apply (joints_off_hides_bones (setShowJoints (Examples.rendererAt 1) false)
           Examples.lineFrame_entries).
  - split; [reflexivity |]. apply (proj2 (createSkeleton_rigged _)).
  - reflexivity.
  - reflexivity.
Defined.

End SkeletonRendererMore.

(** ** The application around the skeleton renderer *)

Module PoseMirrorAppProps.
Import PoseMirrorApp.

Lemma setScale_rigged (r : SkeletonRenderer.t) (s : R) :
  SkeletonRenderer.rigged r -> SkeletonRenderer.rigged (SkeletonRenderer.setScale r s).
Proof. by intros [H1 H2]. Qed.

Lemma setShowJoints_rigged (r : SkeletonRenderer.t) (b : bool) :
  SkeletonRenderer.rigged r ->
  SkeletonRenderer.rigged (SkeletonRenderer.setShowJoints r b).
Proof. intros [H1 H2]. split; [simpl; by rewrite length_fmap | done]. Qed.

Lemma setShowBones_rigged (r : SkeletonRenderer.t) (b : bool) :
  SkeletonRenderer.rigged r ->
  SkeletonRenderer.rigged (SkeletonRenderer.setShowBones r b).
Proof.
  intros [H1 H2]. split; [done |]. simpl. by apply Forall_fmap.
Qed.

Lemma handle_wellFormed (a : t) (ev : Event) :
  wellFormed a -> exists a', handle a ev = Some a' /\ wellFormed a'.
Proof.
  unfold wellFormed. intros Hw.
  destruct ev as [[lms] | v | v | b | b | | e |]; cbn [handle].
  - unfold onPoseDetected. cbn [poseLandmarks].
    destruct (skeletonRenderer a) as [r |] eqn:Hr; [| exists a; by rewrite Hr].
    destruct lms as [lms |]; [| exists a; by rewrite Hr].
    destruct (SkeletonRendererMore.updatePose_never_throws_helper r (Some lms) Hw)
      as (r' & -> & Hr'). eexists. split; [reflexivity | done].
  - eexists. split; [reflexivity |]. simpl.
    destruct (skeletonRenderer a); simpl; [by apply setScale_rigged | done].
  - eexists. split; [reflexivity |]. simpl.
    destruct (skeletonRenderer a); simpl;
      [apply SkeletonRendererFacts.createSkeleton_rigged | done].
  - eexists. split; [reflexivity |]. simpl.
    destruct (skeletonRenderer a); simpl; [by apply setShowJoints_rigged | done].
  - eexists. split; [reflexivity |]. simpl.
    destruct (skeletonRenderer a); simpl; [by apply setShowBones_rigged | done].
  - eexists. split; [reflexivity |]. unfold startTracking.
    by destruct (isRunning a).
  - eexists. split; [reflexivity |]. by destruct e.
  - eexists. split; [reflexivity |]. unfold stopTracking.
    by destruct (isRunning a).
Qed.

(** X6.  Whatever results the pose estimator hands over and whatever is
    done with the sliders, the check boxes and the camera buttons, in
    whatever order, no handler of the application throws, and the skeleton
    stays rigged. *)
Theorem run_never_throws (a : t) (evs : list Event) :
  wellFormed a -> exists a', run a evs = Some a' /\ wellFormed a'.
Proof.
  revert a. induction evs as [| ev evs IH]; intros a Hw; simpl.
  - by exists a.
  - destruct (handle_wellFormed a ev Hw) as (a1 & -> & Hw1). simpl.
    by apply IH.
Qed.

Lemma run_never_throws_witness :
  exists a',
    run (init (mkUI (Some "") (Some false) (Some true)))
        [ShowJointsChange false;
         PoseDetected (mkResults (Some Examples.lineFrame_entries));
         ThicknessInput 0.1; ScaleInput 2;
         PoseDetected (mkResults (Some []))] = Some a' /\
    wellFormed a'.
Proof.
  apply run_never_throws.
  apply SkeletonRendererFacts.createSkeleton_rigged.
Defined.

Lemma handle_buttons (a a' : t) (ev : Event) :
  buttonsAgree a -> handle a ev = Some a' -> buttonsAgree a'.
Proof.
  unfold buttonsAgree. intros Hb.
  destruct ev as [[lms] | v | v | b | b | | e |]; cbn [handle].
  - unfold onPoseDetected. cbn [poseLandmarks].
    destruct (skeletonRenderer a) as [r |]; [| by intros [= <-]].
    destruct lms as [lms |]; [| by intros [= <-]].
    destruct (SkeletonRenderer.updatePose r (Some lms)); [| done].
    by intros [= <-].
  - by intros [= <-].
  - by intros [= <-].
  - by intros [= <-].
  - by intros [= <-].
  - intros [= <-]. unfold startTracking.
    destruct (isRunning a) eqn:Hr; simpl; [intros _; by apply Hb | by intros [=]].
  - intros [= <-]. destruct e as [msg |]; simpl; [exact Hb |].
    intros _. split; intros d.
    + destruct (startButton (uiController a)); simpl; congruence.
    + destruct (stopButton (uiController a)); simpl; congruence.
  - intros [= <-]. unfold stopTracking.
    destruct (isRunning a) eqn:Hr; simpl; intros H; congruence.
Qed.

(** X7.  While the application takes the camera to be running, the start
    button is disabled and the stop button is enabled, after any sequence of
    events: the camera is marked as running only when a start succeeds,
    which sets the buttons, and nothing else touches them but a stop, which
    marks it as stopped. *)
Theorem buttons_follow_camera (a a' : t) (evs : list Event) :
  buttonsAgree a -> run a evs = Some a' -> buttonsAgree a'.
Proof.
  revert a. induction evs as [| ev evs IH]; intros a Hb; simpl.
  - by intros [= <-].
  - destruct (handle a ev) as [a1 |] eqn:Hh; simpl; [| done].
    apply IH. by eapply handle_buttons.
Qed.

Lemma buttons_follow_camera_witness :
  buttonsAgree
    (mk (Some (SkeletonRenderer.createSkeleton SkeletonRenderer.new))
        (mkUI (Some "Camera active. Pose detection running.") (Some true)
              (Some false))
        true).
Proof.
  apply (buttons_follow_camera
           (init (mkUI (Some "") (Some false) (Some true))) _
           [StartClicked; CameraAnswered None]).
  - intros Hr. discriminate Hr.
  - reflexivity.
Defined.

End PoseMirrorAppProps.

(** ** What the skeleton renderer shows *)

Module SkeletonDisplayProps.
Import SkeletonRenderer SkeletonRendererFacts SkeletonDisplay.

Lemma updateJoint_same (r1 r2 : t) (lms : list (option Pose.Landmark))
    (i : nat) (j1 j2 : THREE.Object3D) :
  scale r2 = scale r1 -> showJoints r2 = showJoints r1 ->
  sameJoint (updateJoint r1 lms i j1) (updateJoint r2 lms i j2).
Proof.
  intros Hs Hj. unfold sameJoint, updateJoint, jointPosition.
  rewrite Hs, Hj.
  destruct (lms !! i) as [[lm |] |]; simpl; try done.
  destruct (gt_number _ _); simpl; done.
Qed.

Lemma updateBone_same (r1 r2 : t) (js1 js2 : list THREE.Object3D)
    (b1 b2 b1' b2' : Bone) (s1 e1 s2 e2 : THREE.Object3D) :
  showBones r2 = showBones r1 ->
  start b2 = start b1 -> end_ b2 = end_ b1 ->
  js1 !! start b1 = Some s1 -> js1 !! end_ b1 = Some e1 ->
  js2 !! start b1 = Some s2 -> js2 !! end_ b1 = Some e2 ->
  sameJoint s1 s2 -> sameJoint e1 e2 ->
  updateBone r1 js1 b1 = Some b1' -> updateBone r2 js2 b2 = Some b2' ->
  sameBone b1' b2'.
Proof.
  intros Hsb Hst Hen Hs1 He1 Hs2 He2 [Hvs Hps] [Hve Hpe] H1 H2.
  unfold updateBone in H1, H2. rewrite Hst, Hen, Hsb in H2.
  rewrite Hs1, He1 in H1. rewrite Hs2, He2 in H2. simpl in H1, H2.
  rewrite Hvs, Hve in H2.
  destruct (THREE.visible s1) eqn:V1; simpl in H1, H2;
    [destruct (THREE.visible e1) eqn:V2; simpl in H1, H2 |].
  - rewrite Hps, Hpe in H2 by done.
    destruct (Rgtb _ _); injection H1 as <-; injection H2 as <-;
      unfold sameBone; simpl; repeat split; done.
  - injection H1 as <-; injection H2 as <-.
    unfold sameBone; simpl; repeat split; done.
  - injection H1 as <-; injection H2 as <-.
    unfold sameBone; simpl; repeat split; done.
Qed.

Lemma same_ends (bs : list Bone) :
  Forall2 (fun b1 b2 => start b2 = start b1 /\ end_ b2 = end_ b1) bs bs.
Proof. apply Forall2_same_length_lookup_2; [done |]. intros i x y ? ?. by simplify_eq. Qed.

(** X8.  What the renderer shows after a frame of 33 entries depends on
    the frame and the settings alone, not on what the joints and bones have
    been through: two rigged renderers with the same scale, the same two
    switches and the same connections show, after the same frame, the same
    joints at the same places and the same bones with the same place,
    rotation and length.  Only what is hidden may differ. *)
Theorem display_follows_current_frame (r1 r2 : t)
    (lms : list (option Pose.Landmark)) :
  rigged r1 -> rigged r2 -> sameSettings r1 r2 -> List.length lms = 33%nat ->
  exists r1' r2',
    updatePose r1 (Some lms) = Some r1' /\
    updatePose r2 (Some lms) = Some r2' /\
    Forall2 sameJoint (joints r1') (joints r2') /\
    Forall2 sameBone (bones r1') (bones r2').
Proof.
  intros Hr1 Hr2 (Hs & Hj & Hb & Hends) Hl.
  destruct (updatePose_frame r1 lms Hr1 Hl) as (r1' & Hu1 & Hj1 & _ & _ & _ & Hb1).
  destruct (updatePose_frame r2 lms Hr2 Hl) as (r2' & Hu2 & Hj2 & _ & _ & _ & Hb2).
  exists r1', r2'. split; [exact Hu1 |]. split; [exact Hu2 |].
  assert (Hjs : Forall2 sameJoint (joints r1') (joints r2')).
  { rewrite Hj1, Hj2. apply Forall2_same_length_lookup_2.
    - rewrite !length_imap. destruct Hr1 as [-> _]. by destruct Hr2 as [-> _].
    - intros i x y Hx Hy.
      apply list_lookup_imap_Some in Hx as (j1 & _ & ->).
      apply list_lookup_imap_Some in Hy as (j2 & _ & ->).
      by apply updateJoint_same. }
  split; [exact Hjs |].
  apply Forall2_same_length_lookup_2.
  { rewrite (SkeletonRendererProps.updatePose_bones_length _ _ _ Hu1).
    rewrite (SkeletonRendererProps.updatePose_bones_length _ _ _ Hu2).
    by eapply Forall2_length. }
  intros k b1' b2' Hk1 Hk2.
  destruct (lookup_lt_is_Some_2 (bones r1) k) as [b1 Hb1k].
  { rewrite <- (SkeletonRendererProps.updatePose_bones_length _ _ _ Hu1).
    by eapply lookup_lt_Some. }
  destruct (Forall2_lookup_l _ _ _ _ _ Hends Hb1k) as (b2 & Hb2k & Hst & Hen).
  destruct (Hb1 k b1 Hb1k) as (c1 & Hc1 & Hup1).
  destruct (Hb2 k b2 Hb2k) as (c2 & Hc2 & Hup2).
  assert (c1 = b1') by congruence. assert (c2 = b2') by congruence. subst c1 c2.
  destruct Hr1 as [Hlen1 Hall1]. destruct Hr2 as [Hlen2 Hall2].
  rewrite Forall_lookup in Hall1. destruct (Hall1 _ _ Hb1k) as [Hlt1 Hlt2].
  assert (L1 : List.length (joints r1') = 33%nat) by (by rewrite Hj1, length_imap).
  assert (L2 : List.length (joints r2') = 33%nat) by (by rewrite Hj2, length_imap).
  destruct (lookup_lt_is_Some_2 (joints r1') (start b1)) as [s1 Hs1]; [lia |].
  destruct (lookup_lt_is_Some_2 (joints r1') (end_ b1)) as [e1 He1]; [lia |].
  destruct (lookup_lt_is_Some_2 (joints r2') (start b1)) as [s2 Hs2]; [lia |].
  destruct (lookup_lt_is_Some_2 (joints r2') (end_ b1)) as [e2 He2]; [lia |].
  eapply (updateBone_same r1 r2 (joints r1') (joints r2') b1 b2);
    [exact Hb | exact Hst | exact Hen | exact Hs1 | exact He1 | exact Hs2
     | exact He2 | | | exact Hup1 | exact Hup2].
  - exact (Forall2_lookup_lr _ _ _ _ _ _ Hjs Hs1 Hs2).
  - exact (Forall2_lookup_lr _ _ _ _ _ _ Hjs He1 He2).
Qed.

Lemma display_follows_current_frame_witness :
  exists r1' r2',
    updatePose (Examples.rendererAt 1) (Some Examples.lineFrame_entries) = Some r1' /\
    updatePose (setBoneThickness (Examples.rendererAt 1) 0.1)
               (Some Examples.lineFrame_entries) = Some r2' /\
    Forall2 sameJoint (joints r1') (joints r2') /\
    Forall2 sameBone (bones r1') (bones r2').
Proof.
  apply (display_follows_current_frame (Examples.rendererAt 1)
           (setBoneThickness (Examples.rendererAt 1) 0.1)
           Examples.lineFrame_entries).
  - apply createSkeleton_rigged.
  - apply createSkeleton_rigged.
  - split; [reflexivity |]. split; [reflexivity |]. split; [reflexivity |].
    exact (same_ends (bones (Examples.rendererAt 1))).
  - reflexivity.
Defined.

End SkeletonDisplayProps.

(** ** The character viewer: built-in characters, loaded models, handlers *)

Module CharacterViewerMore.
Import CharacterViewer CharacterViewerFacts CharacterViewerApp.

Lemma updateHead_dom (bs : gmap string THREE.Object3D)
    (lms : list Pose.Landmark) (world : bool) :
  (33 <= List.length lms)%nat ->
  exists bs', updateHead bs lms (getPos lms world) = Some bs' /\
              dom bs' = dom bs /\
              forall k, k <> "head" -> bs' !! k = bs !! k.
Proof.
  intros Hl. unfold updateHead.
  destruct (bs !! "head") as [head |] eqn:Hh; [| by exists bs].
  destruct (lookup_lt_is_Some_2 lms NOSE) as [nose ->]; [unfold NOSE; lia |].
  simpl. destruct (gt_number _ _); [| by exists bs].
  destruct (getPos_is_Some lms world NOSE) as [p ->]; [unfold NOSE; lia |].
  simpl. eexists. split; [reflexivity |]. split.
  - apply dom_insert_lookup_L. eauto.
  - intros k Hk. by rewrite lookup_insert_ne.
Qed.

Lemma updateTorso_dom (bs : gmap string THREE.Object3D)
    (lms : list Pose.Landmark) (world : bool) :
  (33 <= List.length lms)%nat ->
  exists bs', updateTorso bs (getPos lms world) = Some bs' /\ dom bs' = dom bs.
Proof.
  intros Hl. unfold updateTorso.
  destruct (bs !! "torso") as [torso |] eqn:Ht; [| by exists bs].
  destruct (getPos_is_Some lms world LEFT_SHOULDER) as [ls ->];
    [unfold LEFT_SHOULDER; lia |].
  destruct (getPos_is_Some lms world RIGHT_SHOULDER) as [rs ->];
    [unfold RIGHT_SHOULDER; lia |].
  destruct (getPos_is_Some lms world LEFT_HIP) as [lh ->];
    [unfold LEFT_HIP; lia |].
  destruct (getPos_is_Some lms world RIGHT_HIP) as [rh ->];
    [unfold RIGHT_HIP; lia |].
  simpl. eexists. split; [reflexivity |]. apply dom_insert_lookup_L. eauto.
Qed.

Lemma updateHips_dom (bs : gmap string THREE.Object3D)
    (lms : list Pose.Landmark) (world : bool) :
  (33 <= List.length lms)%nat ->
  exists bs', updateHips bs (getPos lms world) = Some bs' /\ dom bs' = dom bs.
Proof.
  intros Hl. unfold updateHips.
  destruct (bs !! "hips") as [hips |] eqn:Ht; [| by exists bs].
  destruct (getPos_is_Some lms world LEFT_HIP) as [lh ->];
    [unfold LEFT_HIP; lia |].
  destruct (getPos_is_Some lms world RIGHT_HIP) as [rh ->];
    [unfold RIGHT_HIP; lia |].
  simpl. eexists. split; [reflexivity |]. apply dom_insert_lookup_L. eauto.
Qed.

Lemma updateLimb_dom (bs : gmap string THREE.Object3D) (name : string)
    (a b c : nat) (lms : list Pose.Landmark) (world : bool) :
  (a < List.length lms)%nat -> (b < List.length lms)%nat ->
  (c < List.length lms)%nat ->
  exists bs', updateLimb bs name a b c (getPos lms world) = Some bs' /\
              dom bs' = dom bs.
Proof.
  intros Ha Hb Hc. unfold updateLimb.
  destruct (getPos_is_Some lms world a Ha) as [pa ->].
  destruct (getPos_is_Some lms world b Hb) as [pb ->].
  destruct (getPos_is_Some lms world c Hc) as [pc ->].
  simpl. eexists. split; [reflexivity |]. by rewrite !dom_alter_L.
Qed.

Lemma posed_refl (P : nat -> Prop) (nodes : list Node) : posed P nodes nodes.
Proof.
  split; [done |]. intros i n n' H1 H2.
  assert (n' = n) as -> by congruence. by repeat split.
Qed.

Lemma posed_trans (P : nat -> Prop) (a b c : list Node) :
  posed P a b -> posed P b c -> posed P a c.
Proof.
  intros [L1 H1] [L2 H2]. split; [congruence |].
  intros i n n' Hn Hn'.
  destruct (lookup_lt_is_Some_2 b i) as [m Hm].
  { rewrite L1. by eapply lookup_lt_Some. }
  destruct (H1 i n m Hn Hm) as ((A1 & A2 & A3 & A4 & A5 & A6 & A7) & Ap & Aq).
  destruct (H2 i m n' Hm Hn') as ((B1 & B2 & B3 & B4 & B5 & B6 & B7) & Bp & Bq).
  split; [| split].
  - repeat split; congruence.
  - intros Hi. rewrite Bp, Ap; done.
  - intros Hi. rewrite Bq, Aq; done.
Qed.

Lemma posed_alter (P : nat -> Prop) (f : THREE.Object3D -> THREE.Object3D)
    (k : nat) (nodes : list Node) :
  (forall o, THREE.name (f o) = THREE.name o /\ THREE.scale (f o) = THREE.scale o /\
             THREE.visible (f o) = THREE.visible o) ->
  (k <> 0%nat -> forall o, THREE.position (f o) = THREE.position o) ->
  (~ P k -> forall o, THREE.quaternion (f o) = THREE.quaternion o) ->
  posed P nodes (alter (node_set f) k nodes).
Proof.
  intros Hf Hp Hq. split; [by rewrite length_alter |].
  intros i n n' Hn Hn'.
  destruct (decide (i = k)) as [-> | Hne].
  - rewrite list_lookup_alter_eq, Hn in Hn'. simpl in Hn'. injection Hn' as <-.
    destruct (Hf (object n)) as (F1 & F2 & F3). simpl.
    split; [by repeat split |]. split; [intros Hk; by apply Hp |].
    intros Hk. by apply Hq.
  - rewrite list_lookup_alter_ne in Hn' by done.
    assert (n' = n) as -> by congruence. by repeat split.
Qed.

Lemma setLimbRotation_posed (P : nat -> Prop) (nodes : list Node) (bone : nat)
    (startPos endPos : THREE.Vector3) :
  P bone -> posed P nodes (setLimbRotation nodes bone startPos endPos).
Proof.
  intros Hb. unfold setLimbRotation.
  destruct (Rgtb _ _); [| apply posed_refl].
  apply posed_alter; [done | done | done].
Qed.

Lemma rotateLimb_posed (gb : gmap string nat) (lms : list Pose.Landmark)
    (world : bool) (key : string) (a b : nat) (nodes : list Node) :
  key ∈ turnedRoles ->
  (a < List.length lms)%nat -> (b < List.length lms)%nat ->
  exists nodes',
    rotateLimb gb (getPos lms world) key a b nodes = Some nodes' /\
    posed (bound gb) nodes nodes'.
Proof.
  intros Hk Ha Hb. unfold rotateLimb.
  destruct (gb !! key) as [bone |] eqn:Hg; [| exists nodes; split; [done | apply posed_refl]].
  destruct (getPos_is_Some lms world a Ha) as [pa ->].
  destruct (getPos_is_Some lms world b Hb) as [pb ->]. simpl.
  eexists. split; [reflexivity |]. apply setLimbRotation_posed.
  by exists key.
Qed.

Ltac role := unfold turnedRoles; set_solver.
Ltac within := unfold NOSE, LEFT_SHOULDER, RIGHT_SHOULDER, LEFT_ELBOW,
  RIGHT_ELBOW, LEFT_WRIST, RIGHT_WRIST, LEFT_HIP, RIGHT_HIP, LEFT_KNEE,
  RIGHT_KNEE, LEFT_ANKLE, RIGHT_ANKLE; lia.

(** A pose on a loaded model: the call returns; the bones of the built-in
    characters, the bone table and the type are kept; of the loaded objects
    only the root is moved and only bound objects are turned. *)
Lemma updateGLTFModelFromPose_posed (r : t) (lms : list Pose.Landmark)
    (world : bool) (nodes : list Node) :
  (33 <= List.length lms)%nat -> loadedGLTFModel r = Some nodes ->
  exists r' nodes',
    updateGLTFModelFromPose r lms world = Some r' /\
    loadedGLTFModel r' = Some nodes' /\ posed (bound (gltfBones r)) nodes nodes' /\
    bones r' = bones r /\ gltfBones r' = gltfBones r /\
    modelType r' = modelType r /\
    (exists line, console r' = console r ++ [line]) /\
    (size (gltfBones r) = 0%nat ->
     console r' = console r ++ [noBonesWarning] /\
     forall i n n', nodes !! i = Some n -> nodes' !! i = Some n' ->
       THREE.quaternion (object n') = THREE.quaternion (object n)).
Proof.
  intros Hl Hn. unfold updateGLTFModelFromPose.
  destruct (getPos_is_Some lms world LEFT_HIP) as [lh Hlh]; [within |].
  destruct (getPos_is_Some lms world RIGHT_HIP) as [rh Hrh]; [within |].
  destruct (getPos_is_Some lms world NOSE) as [nose Hnose]; [within |].
  destruct (getPos_is_Some lms world LEFT_SHOULDER) as [ls Hls]; [within |].
  destruct (getPos_is_Some lms world RIGHT_SHOULDER) as [rs Hrs]; [within |].
  rewrite Hlh, Hrh. cbn [mbind option_bind].
  set (nodes0 := match characterModel r with
                 | Some Loaded => _ <$> loadedGLTFModel r
                 | _ => loadedGLTFModel r
                 end).
  assert (H0 : exists n0, nodes0 = Some n0 /\ posed (bound (gltfBones r)) nodes n0).
  { unfold nodes0. rewrite Hn. destruct (characterModel r) as [[g |] |]; simpl.
    - exists nodes. split; [done | apply posed_refl].
    - eexists. split; [reflexivity |]. apply posed_alter; done.
    - exists nodes. split; [done | apply posed_refl]. }
  destruct H0 as (n0 & Hn0 & P0). rewrite Hn0. clear nodes0 Hn0.
  destruct (decide (0 < size (gltfBones r))%nat) as [Hs | Hs].
  - simpl.
    assert (H1 : exists n1,
      match gltfBones r !! "head" with
      | Some bone =>
          nosePos ← getPos lms world NOSE;
          ls ← getPos lms world LEFT_SHOULDER;
          rs ← getPos lms world RIGHT_SHOULDER;
          Some (setLimbRotation n0 bone (THREE.lerp ls rs 0.5) nosePos)
      | None => Some n0
      end = Some n1 /\ posed (bound (gltfBones r)) n0 n1).
    { destruct (gltfBones r !! "head") as [bone |] eqn:Hb.
      - rewrite Hnose, Hls, Hrs. simpl. eexists. split; [reflexivity |].
        apply setLimbRotation_posed. exists "head". split; [role | done].
      - exists n0. split; [done | apply posed_refl]. }
    destruct H1 as (n1 & -> & P1). simpl.
    assert (H2 : exists n2,
      match gltfBones r !! "spine" with
      | Some bone =>
          ls ← getPos lms world LEFT_SHOULDER;
          rs ← getPos lms world RIGHT_SHOULDER;
          Some (setLimbRotation n1 bone (THREE.lerp lh rh 0.5)
                  (THREE.lerp ls rs 0.5))
      | None => Some n1
      end = Some n2 /\ posed (bound (gltfBones r)) n1 n2).
    { destruct (gltfBones r !! "spine") as [bone |] eqn:Hb.
      - rewrite Hls, Hrs. simpl. eexists. split; [reflexivity |].
        apply setLimbRotation_posed. exists "spine". split; [role | done].
      - exists n1. split; [done | apply posed_refl]. }
    destruct H2 as (n2 & -> & P2). simpl.
    destruct (rotateLimb_posed (gltfBones r) lms world "leftShoulder"
                LEFT_SHOULDER LEFT_ELBOW n2) as (n3 & -> & P3);
      [role | within | within |]. simpl.
    destruct (rotateLimb_posed (gltfBones r) lms world "leftElbow"
                LEFT_ELBOW LEFT_WRIST n3) as (n4 & -> & P4);
      [role | within | within |]. simpl.
    destruct (rotateLimb_posed (gltfBones r) lms world "rightShoulder"
                RIGHT_SHOULDER RIGHT_ELBOW n4) as (n5 & -> & P5);
      [role | within | within |]. simpl.
    destruct (rotateLimb_posed (gltfBones r) lms world "rightElbow"
                RIGHT_ELBOW RIGHT_WRIST n5) as (n6 & -> & P6);
      [role | within | within |]. simpl.
    destruct (rotateLimb_posed (gltfBones r) lms world "leftHip"
                LEFT_HIP LEFT_KNEE n6) as (n7 & -> & P7);
      [role | within | within |]. simpl.
    destruct (rotateLimb_posed (gltfBones r) lms world "leftKnee"
                LEFT_KNEE LEFT_ANKLE n7) as (n8 & -> & P8);
      [role | within | within |]. simpl.
    destruct (rotateLimb_posed (gltfBones r) lms world "rightHip"
                RIGHT_HIP RIGHT_KNEE n8) as (n9 & -> & P9);
      [role | within | within |]. simpl.
    destruct (rotateLimb_posed (gltfBones r) lms world "rightKnee"
                RIGHT_KNEE RIGHT_ANKLE n9) as (n10 & -> & P10);
      [role | within | within |]. simpl.
    eexists _, n10. split; [reflexivity |]. simpl.
    split; [done |]. split.
    { eapply posed_trans; [| exact P10]. eapply posed_trans; [| exact P9].
      eapply posed_trans; [| exact P8]. eapply posed_trans; [| exact P7].
      eapply posed_trans; [| exact P6]. eapply posed_trans; [| exact P5].
      eapply posed_trans; [| exact P4]. eapply posed_trans; [| exact P3].
      eapply posed_trans; [| exact P2]. eapply posed_trans; [| exact P1].
      exact P0. }
    split; [done |]. split; [done |]. split; [done |].
    split; [eauto |]. intros Hz. lia.
  - simpl. eexists _, n0. split; [reflexivity |]. simpl.
    split; [done |]. split; [exact P0 |].
    split; [done |]. split; [done |]. split; [done |].
    split; [eauto |]. intros Hz. split; [done |].
    intros i n n' Hi Hi'. destruct P0 as [_ P0].
    destruct (P0 i n n' Hi Hi') as (_ & _ & Hq). apply Hq.
    intros (key & _ & Hk).
    apply map_size_empty_inv in Hz. rewrite Hz in Hk. by rewrite lookup_empty in Hk.
Qed.

(** The steps of [updateCharacterFromPose] on a built-in character. *)
Lemma procedural_chain (r : t) (pose : Pose.PoseEntry)
    (rest : list Pose.PoseEntry) :
  (33 <= List.length (selected pose))%nat -> drivesLoaded r = false ->
  let lms := selected pose in
  let gp := getPos lms (usesWorld pose) in
  exists bs1 bs2 bs3 bs4 bs5 bs6 bs7,
    updateHead (bones r) lms gp = Some bs1 /\
    updateTorso bs1 gp = Some bs2 /\
    updateHips bs2 gp = Some bs3 /\
    updateLimb bs3 "leftArm" LEFT_SHOULDER LEFT_ELBOW LEFT_WRIST gp = Some bs4 /\
    updateLimb bs4 "rightArm" RIGHT_SHOULDER RIGHT_ELBOW RIGHT_WRIST gp = Some bs5 /\
    updateLimb bs5 "leftLeg" LEFT_HIP LEFT_KNEE LEFT_ANKLE gp = Some bs6 /\
    updateLimb bs6 "rightLeg" RIGHT_HIP RIGHT_KNEE RIGHT_ANKLE gp = Some bs7 /\
    updateCharacterFromPose r (frame pose rest) = Some (with_bones r bs7) /\
    dom bs7 = dom (bones r).
Proof.
  intros Hl Hc. cbv zeta. unfold updateCharacterFromPose, frame. simpl.
  destruct (decide (List.length (selected pose) < 33)%nat) as [Hlt | _]; [lia |].
  unfold drivesLoaded in Hc. rewrite Hc. fold (usesWorld pose).
  set (lms := selected pose) in *. set (w := usesWorld pose).
  destruct (updateHead_dom (bones r) lms w Hl) as (bs1 & H1 & D1 & _).
  destruct (updateTorso_dom bs1 lms w Hl) as (bs2 & H2 & D2).
  destruct (updateHips_dom bs2 lms w Hl) as (bs3 & H3 & D3).
  destruct (updateLimb_dom bs3 "leftArm" LEFT_SHOULDER LEFT_ELBOW LEFT_WRIST
              lms w) as (bs4 & H4 & D4); [within | within | within |].
  destruct (updateLimb_dom bs4 "rightArm" RIGHT_SHOULDER RIGHT_ELBOW RIGHT_WRIST
              lms w) as (bs5 & H5 & D5); [within | within | within |].
  destruct (updateLimb_dom bs5 "leftLeg" LEFT_HIP LEFT_KNEE LEFT_ANKLE
              lms w) as (bs6 & H6 & D6); [within | within | within |].
  destruct (updateLimb_dom bs6 "rightLeg" RIGHT_HIP RIGHT_KNEE RIGHT_ANKLE
              lms w) as (bs7 & H7 & D7); [within | within | within |].
  exists bs1, bs2, bs3, bs4, bs5, bs6, bs7.
  rewrite H1; simpl. rewrite H2; simpl. rewrite H3; simpl. rewrite H4; simpl.
  rewrite H5; simpl. rewrite H6; simpl. rewrite H7; simpl.
  repeat split; try done. congruence.
Qed.

Lemma drivesLoaded_true (r : t) :
  drivesLoaded r = true ->
  modelType r = "custom" /\ exists nodes, loadedGLTFModel r = Some nodes.
Proof.
  unfold drivesLoaded. intros H. apply andb_true_iff in H as [H1 H2].
  apply bool_decide_eq_true in H1, H2. destruct H2 as [nodes H2]. eauto.
Qed.

(** The steps of [updateCharacterFromPose] on a loaded model. *)
Lemma loaded_chain (r : t) (pose : Pose.PoseEntry) (rest : list Pose.PoseEntry) :
  (33 <= List.length (selected pose))%nat -> drivesLoaded r = true ->
  updateCharacterFromPose r (frame pose rest)
  = updateGLTFModelFromPose r (selected pose) (usesWorld pose).
Proof.
  intros Hl Hc. unfold updateCharacterFromPose, frame. simpl.
  destruct (decide (List.length (selected pose) < 33)%nat) as [Hlt | _]; [lia |].
  unfold drivesLoaded in Hc. by rewrite Hc.
Qed.

Lemma updateCharacterFromPose_total (r : t) (poseData : Pose.PoseData) :
  exists r',
    updateCharacterFromPose r poseData = Some r' /\
    modelType r' = modelType r /\ gltfBones r' = gltfBones r /\
    dom (bones r') = dom (bones r).
Proof.
  destruct poseData as [[[| pose rest] |]]; try by exists r.
  destruct (decide (List.length (selected pose) < 33)%nat) as [Hlt | Hge].
  { exists r. unfold updateCharacterFromPose. simpl.
    by destruct (decide (List.length (selected pose) < 33)%nat). }
  destruct (drivesLoaded r) eqn:Hc.
  - destruct (drivesLoaded_true r Hc) as (Hm & nodes & Hn).
    destruct (updateGLTFModelFromPose_posed r (selected pose) (usesWorld pose)
                nodes) as (r' & nodes' & Hu & _ & _ & Hb & Hg & Ht & _);
      [lia | exact Hn |].
    exists r'. fold (frame pose rest). rewrite loaded_chain by (done || lia).
    split; [exact Hu |]. by rewrite Hb.
  - destruct (procedural_chain r pose rest) as
      (bs1 & bs2 & bs3 & bs4 & bs5 & bs6 & bs7 & _ & _ & _ & _ & _ & _ & _ & Hu & Hd);
      [lia | exact Hc |].
    eexists. split; [exact Hu |]. done.
Qed.

(** X9.  [updateCharacterFromPose] returns on every frame of the relay,
    whatever the state of the viewer: the landmarks it reads are among the
    first 29, and a list shorter than 33 is turned down.  It never changes
    the type of the model, the table of matched bones or the set of parts
    of the built-in character. *)
Theorem pose_update_never_throws (r : t) (poseData : Pose.PoseData) :
  exists r',
    updateCharacterFromPose r poseData = Some r' /\
    modelType r' = modelType r /\ gltfBones r' = gltfBones r /\
    dom (bones r') = dom (bones r).
Proof. apply updateCharacterFromPose_total. Qed.

(** X10.  The callback the viewer hands to its receiver returns exactly
    when the frame has a list of poses: a frame without one is accepted by
    [updateCharacterFromPose], and the callback then throws on reading
    [poseData.poses.length]. *)
Theorem callback_needs_poses (r : t) (poseData : Pose.PoseData) :
  is_Some (onPoseData r poseData) <-> is_Some (Pose.poses poseData).
Proof.
  unfold onPoseData.
  destruct (updateCharacterFromPose_total r poseData) as (r' & -> & _). simpl.
  destruct (Pose.poses poseData) as [ps |]; simpl; split; intros [x Hx]; eauto; done.
Qed.

Lemma append_inj (p s t : string) : p +:+ s = p +:+ t -> s = t.
Proof.
  induction p as [| c p IH].
  - by rewrite !JSFacts.append_empty.
  - rewrite !JSFacts.append_cons. intros [= H]. by apply IH.
Qed.

Ltac suffix_ne :=
  let H := fresh in intros H; apply append_inj in H; discriminate H.

(** What [updateLimb] does to the bones, part by part. *)
Lemma updateLimb_lookup (bs bs' : gmap string THREE.Object3D) (name : string)
    (a b c : nat) (gp : nat -> option THREE.Vector3) (pa pb pc : THREE.Vector3) :
  updateLimb bs name a b c gp = Some bs' ->
  gp a = Some pa -> gp b = Some pb -> gp c = Some pc ->
  (forall k, k <> name +:+ "Upper" -> k <> name +:+ "Joint" ->
             k <> name +:+ "Lower" -> k <> name +:+ "End" ->
             bs' !! k = bs !! k) /\
  bs' !! (name +:+ "Joint")
  = (fun o => THREE.set_position o pb) <$> bs !! (name +:+ "Joint") /\
  bs' !! (name +:+ "End")
  = (fun o => THREE.set_position o pc) <$> bs !! (name +:+ "End") /\
  bs' !! (name +:+ "Upper")
  = (fun o =>
       THREE.set_scale_y
         (THREE.set_quaternion (THREE.set_position o (THREE.lerp pa pb 0.5))
            (THREE.setFromUnitVectors (THREE.mkVector3 0 (-1) 0)
               (THREE.normalize (THREE.subVectors pb pa))))
         (THREE.distanceTo pa pb / 0.4)) <$> bs !! (name +:+ "Upper") /\
  bs' !! (name +:+ "Lower")
  = (fun o =>
       THREE.set_scale_y
         (THREE.set_quaternion (THREE.set_position o (THREE.lerp pb pc 0.5))
            (THREE.setFromUnitVectors (THREE.mkVector3 0 (-1) 0)
               (THREE.normalize (THREE.subVectors pc pb))))
         (THREE.distanceTo pb pc / 0.4)) <$> bs !! (name +:+ "Lower").
Proof.
  intros Hu Ha Hb Hc. unfold updateLimb in Hu. rewrite Ha, Hb, Hc in Hu.
  simpl in Hu. injection Hu as <-.
  split; [| split; [| split; [| split]]].
  - intros k H1 H2 H3 H4. by rewrite !lookup_alter_ne.
  - rewrite lookup_alter_ne, lookup_alter_ne, lookup_alter_eq, lookup_alter_ne
      by suffix_ne. reflexivity.
  - rewrite lookup_alter_eq, !lookup_alter_ne by suffix_ne. reflexivity.
  - rewrite lookup_alter_ne, lookup_alter_ne, lookup_alter_ne, lookup_alter_eq
      by suffix_ne. reflexivity.
  - rewrite lookup_alter_ne, lookup_alter_eq, !lookup_alter_ne by suffix_ne.
    reflexivity.
Qed.

Lemma updateHead_lookup (bs bs' : gmap string THREE.Object3D)
    (lms : list Pose.Landmark) (gp : nat -> option THREE.Vector3)
    (nose : Pose.Landmark) (p : THREE.Vector3) :
  updateHead bs lms gp = Some bs' -> lms !! NOSE = Some nose ->
  gp NOSE = Some p ->
  (forall k, k <> "head" -> bs' !! k = bs !! k) /\
  bs' !! "head"
  = (fun o => if gt_number (Pose.visibility nose) 0.5
              then THREE.set_position o p else o) <$> bs !! "head".
Proof.
  intros Hu Hn Hp. unfold updateHead in Hu.
  destruct (bs !! "head") as [head |] eqn:Hh.
  - rewrite Hn in Hu. simpl in Hu.
    destruct (gt_number _ _).
    + rewrite Hp in Hu. simpl in Hu. injection Hu as <-. split.
      * intros k Hk. by rewrite lookup_insert_ne.
      * by rewrite lookup_insert_eq.
    + injection Hu as <-. by rewrite Hh.
  - injection Hu as <-. by rewrite Hh.
Qed.

Lemma updateTorso_lookup (bs bs' : gmap string THREE.Object3D)
    (gp : nat -> option THREE.Vector3) (ls rs lh rh : THREE.Vector3) :
  updateTorso bs gp = Some bs' ->
  gp LEFT_SHOULDER = Some ls -> gp RIGHT_SHOULDER = Some rs ->
  gp LEFT_HIP = Some lh -> gp RIGHT_HIP = Some rh ->
  (forall k, k <> "torso" -> bs' !! k = bs !! k) /\
  bs' !! "torso"
  = (fun o =>
       let torsoPos := THREE.lerp (THREE.lerp ls rs 0.5) (THREE.lerp lh rh 0.5) 0.5 in
       THREE.set_quaternion (THREE.set_position o torsoPos)
         (THREE.setFromUnitVectors (THREE.mkVector3 0 1 0)
            (THREE.normalize
               (THREE.subVectors torsoPos (THREE.lerp lh rh 0.5)))))
    <$> bs !! "torso".
Proof.
  intros Hu H1 H2 H3 H4. unfold updateTorso in Hu.
  destruct (bs !! "torso") as [torso |] eqn:Ht.
  - rewrite H1, H2, H3, H4 in Hu. simpl in Hu. injection Hu as <-. split.
    + intros k Hk. by rewrite lookup_insert_ne.
    + by rewrite lookup_insert_eq.
  - injection Hu as <-. by rewrite Ht.
Qed.

Lemma updateHips_lookup (bs bs' : gmap string THREE.Object3D)
    (gp : nat -> option THREE.Vector3) (lh rh : THREE.Vector3) :
  updateHips bs gp = Some bs' ->
  gp LEFT_HIP = Some lh -> gp RIGHT_HIP = Some rh ->
  (forall k, k <> "hips" -> bs' !! k = bs !! k) /\
  bs' !! "hips"
  = (fun o => THREE.set_position o (THREE.lerp lh rh 0.5)) <$> bs !! "hips".
Proof.
  intros Hu H3 H4. unfold updateHips in Hu.
  destruct (bs !! "hips") as [hips |] eqn:Ht.
  - rewrite H3, H4 in Hu. simpl in Hu. injection Hu as <-. split.
    + intros k Hk. by rewrite lookup_insert_ne.
    + by rewrite lookup_insert_eq.
  - injection Hu as <-. by rewrite Ht.
Qed.

Ltac keys_differ := let H := fresh in intros H; vm_compute in H; discriminate H.

(** The landmarks a pose update reads, and what each step of the update
    of a built-in character does to the parts. *)
Ltac chain_facts r pose rest Hl Hc :=
  let lms := constr:(selected pose) in
  let w := constr:(usesWorld pose) in
  destruct (procedural_chain r pose rest Hl Hc)
    as (bs1 & bs2 & bs3 & bs4 & bs5 & bs6 & bs7 &
        H1 & H2 & H3 & H4 & H5 & H6 & H7 & Hu & _);
  destruct (lookup_lt_is_Some_2 lms NOSE) as [nose Hnose]; [within |];
  destruct (getPos_is_Some lms w NOSE) as [p0 Hp0]; [within |];
  destruct (getPos_is_Some lms w LEFT_SHOULDER) as [ls Hls]; [within |];
  destruct (getPos_is_Some lms w RIGHT_SHOULDER) as [rs Hrs]; [within |];
  destruct (getPos_is_Some lms w LEFT_ELBOW) as [le Hle]; [within |];
  destruct (getPos_is_Some lms w RIGHT_ELBOW) as [re Hre]; [within |];
  destruct (getPos_is_Some lms w LEFT_WRIST) as [lw Hlw]; [within |];
  destruct (getPos_is_Some lms w RIGHT_WRIST) as [rw Hrw]; [within |];
  destruct (getPos_is_Some lms w LEFT_HIP) as [lh Hlh]; [within |];
  destruct (getPos_is_Some lms w RIGHT_HIP) as [rh Hrh]; [within |];
  destruct (getPos_is_Some lms w LEFT_KNEE) as [lk Hlk]; [within |];
  destruct (getPos_is_Some lms w RIGHT_KNEE) as [rk Hrk]; [within |];
  destruct (getPos_is_Some lms w LEFT_ANKLE) as [la Hla]; [within |];
  destruct (getPos_is_Some lms w RIGHT_ANKLE) as [ra Hra]; [within |];
  destruct (updateHead_lookup _ _ _ _ _ _ H1 Hnose Hp0) as (L1o & L1h);
  destruct (updateTorso_lookup _ _ _ _ _ _ _ H2 Hls Hrs Hlh Hrh) as (L2o & L2t);
  destruct (updateHips_lookup _ _ _ _ _ H3 Hlh Hrh) as (L3o & L3h);
  destruct (updateLimb_lookup _ _ _ _ _ _ _ _ _ _ H4 Hls Hle Hlw)
    as (L4o & L4j & L4e & L4u & L4l);
  destruct (updateLimb_lookup _ _ _ _ _ _ _ _ _ _ H5 Hrs Hre Hrw)
    as (L5o & L5j & L5e & L5u & L5l);
  destruct (updateLimb_lookup _ _ _ _ _ _ _ _ _ _ H6 Hlh Hlk Hla)
    as (L6o & L6j & L6e & L6u & L6l);
  destruct (updateLimb_lookup _ _ _ _ _ _ _ _ _ _ H7 Hrh Hrk Hra)
    as (L7o & L7j & L7e & L7u & L7l).

Ltac through Lo Lj Le Lu Ll :=
  first [rewrite Lo by keys_differ | rewrite Lj | rewrite Le | rewrite Lu | rewrite Ll].

Lemma fmap_position (o : option THREE.Object3D) (o' : THREE.Object3D)
    (f : THREE.Object3D -> THREE.Object3D) (p : THREE.Vector3) (s : R) :
  f <$> o = Some o' ->
  (forall a, THREE.position (f a) = p /\ THREE.y (THREE.scale (f a)) = s) ->
  THREE.position o' = p /\ THREE.y (THREE.scale o') = s.
Proof. destruct o as [a |]; simpl; [| done]. intros [= <-] H. apply H. Qed.

(** X11.  On a built-in character every frame of 33 landmarks or more
    places each limb on its landmarks, whatever their confidences: the
    joint on the middle landmark, the end on the end landmark, each of the
    two segments half-way between its landmarks with the length of the
    segment over 0.4 as its scale. *)
Theorem limbs_follow_landmarks (r : t) (pose : Pose.PoseEntry)
    (rest : list Pose.PoseEntry) (limb : string) (a b c : nat) :
  (limb, (a, b, c)) ∈ limbs ->
  (33 <= List.length (selected pose))%nat -> drivesLoaded r = false ->
  exists r' pa pb pc,
    updateCharacterFromPose r (frame pose rest) = Some r' /\
    getPos (selected pose) (usesWorld pose) a = Some pa /\
    getPos (selected pose) (usesWorld pose) b = Some pb /\
    getPos (selected pose) (usesWorld pose) c = Some pc /\
    bones r' !! (limb +:+ "Joint")
    = (fun o => THREE.set_position o pb) <$> bones r !! (limb +:+ "Joint") /\
    bones r' !! (limb +:+ "End")
    = (fun o => THREE.set_position o pc) <$> bones r !! (limb +:+ "End") /\
    (forall u, bones r' !! (limb +:+ "Upper") = Some u ->
       THREE.position u = THREE.lerp pa pb 0.5 /\
       THREE.y (THREE.scale u) = THREE.distanceTo pa pb / 0.4) /\
    (forall l, bones r' !! (limb +:+ "Lower") = Some l ->
       THREE.position l = THREE.lerp pb pc 0.5 /\
       THREE.y (THREE.scale l) = THREE.distanceTo pb pc / 0.4).
Proof.
  intros Hin Hl Hc. chain_facts r pose rest Hl Hc.
  exists (with_bones r bs7). unfold limbs in Hin.
  repeat (apply elem_of_cons in Hin as [[= -> -> -> ->] | Hin]);
    [| | | | by apply elem_of_nil in Hin];
    eexists _, _, _; (split; [exact Hu |]);
    (split; [eassumption |]); (split; [eassumption |]); (split; [eassumption |]);
    simpl.
  all: split; [| split; [| split]].
  all: try (intros u).
  all: through L7o L7j L7e L7u L7l; try through L6o L6j L6e L6u L6l;
    try through L5o L5j L5e L5u L5l; try through L4o L4j L4e L4u L4l.
  all: rewrite ?L3o, ?L2o, ?L1o by keys_differ.
  all: try reflexivity.
  all: intros Hf; eapply fmap_position; [exact Hf |]; by intros o.
Qed.

Lemma limbs_follow_landmarks_witness :
  exists r' pa pb pc,
    updateCharacterFromPose new (frame (Pose.mkPoseEntry Examples.lineFrame []) [])
    = Some r' /\
    getPos Examples.lineFrame false LEFT_SHOULDER = Some pa /\
    getPos Examples.lineFrame false LEFT_ELBOW = Some pb /\
    getPos Examples.lineFrame false LEFT_WRIST = Some pc /\
    bones r' !! ("leftArm" +:+ "Joint")
    = (fun o => THREE.set_position o pb) <$> bones new !! ("leftArm" +:+ "Joint") /\
    bones r' !! ("leftArm" +:+ "End")
    = (fun o => THREE.set_position o pc) <$> bones new !! ("leftArm" +:+ "End") /\
    (forall u, bones r' !! ("leftArm" +:+ "Upper") = Some u ->
       THREE.position u = THREE.lerp pa pb 0.5 /\
       THREE.y (THREE.scale u) = THREE.distanceTo pa pb / 0.4) /\
    (forall l, bones r' !! ("leftArm" +:+ "Lower") = Some l ->
       THREE.position l = THREE.lerp pb pc 0.5 /\
       THREE.y (THREE.scale l) = THREE.distanceTo pb pc / 0.4).
Proof.
  apply (limbs_follow_landmarks new (Pose.mkPoseEntry Examples.lineFrame []) []
           "leftArm" LEFT_SHOULDER LEFT_ELBOW LEFT_WRIST).
  - unfold limbs. apply list_elem_of_here.
  - lazy. lia.
  - reflexivity.
Defined.


Lemma applyQuaternion_down (k : R) (q : THREE.Quaternion) :
  THREE.applyQuaternion (THREE.mkVector3 0 k 0) q
  = THREE.multiplyScalar (THREE.applyQuaternion (THREE.mkVector3 0 (-1) 0) q) (- k).
Proof.
  unfold THREE.applyQuaternion, THREE.multiplyQuaternions, THREE.conjugate,
    THREE.multiplyScalar; simpl. f_equal; ring.
Qed.

Lemma distanceTo_sym (a b : THREE.Vector3) :
  THREE.distanceTo a b = THREE.distanceTo b a.
Proof.
  unfold THREE.distanceTo, THREE.length, THREE.subVectors; simpl.
  f_equal. ring.
Qed.

(** A cylinder [h] high along the y-axis, stretched by [d / 0.4] where [d]
    is the distance from [ps] to [pe], turned by the shortest arc from
    (0, -1, 0) to the direction from [ps] to [pe] and put half-way between
    the two: where its two ends are, on the line through [ps] and [pe]. *)
Lemma spans_down (ps pe : THREE.Vector3) (h : R) :
  THREE.distanceTo ps pe > 0 ->
  let q := THREE.setFromUnitVectors (THREE.mkVector3 0 (-1) 0)
             (THREE.normalize (THREE.subVectors pe ps)) in
  let half := h * (THREE.distanceTo ps pe / 0.4) / 2 in
  THREE.add (THREE.lerp ps pe 0.5)
            (THREE.applyQuaternion (THREE.mkVector3 0 half 0) q)
  = THREE.lerp ps pe (0.5 - h / 0.8) /\
  THREE.add (THREE.lerp ps pe 0.5)
            (THREE.applyQuaternion (THREE.mkVector3 0 (- half) 0) q)
  = THREE.lerp ps pe (0.5 + h / 0.8).
Proof.
  intros Hlen q half. rewrite distanceTo_sym in Hlen. unfold half.
  rewrite (distanceTo_sym ps pe). unfold THREE.distanceTo in *.
  assert (Hn : THREE.length (THREE.subVectors pe ps) <> 0) by lra.
  assert (Hrot : THREE.applyQuaternion (THREE.mkVector3 0 (-1) 0) q
                 = THREE.normalize (THREE.subVectors pe ps)).
  { apply THREEFacts.setFromUnitVectors_rotates.
    - unfold THREE.dot; simpl; ring.
    - by apply THREEFacts.normalize_unit. }
  set (l := THREE.length (THREE.subVectors pe ps)) in *.
  rewrite (applyQuaternion_down (h * (l / 0.4) / 2)),
    (applyQuaternion_down (- (h * (l / 0.4) / 2))), Hrot.
  unfold l. rewrite SkeletonRendererMore.normalize_nonzero by done. fold l.
  unfold THREE.add, THREE.lerp, THREE.multiplyScalar; simpl.
  clear Hrot Hlen q half. clearbody l.
  assert (Hcancel : forall v k : R, v / l * (k * l) = v * k)
    by (intros; field; exact Hn).
  assert (Hup : forall p e : R,
            p + (e - p) * 0.5 + (e - p) / l * - (h * (l / 0.4) / 2)
            = p + (e - p) * (0.5 - h / 0.8)).
  { intros p e.
    replace (- (h * (l / 0.4) / 2)) with ((- (h / 0.8)) * l) by lra.
    rewrite Hcancel. lra. }
  assert (Hdown : forall p e : R,
            p + (e - p) * 0.5 + (e - p) / l * - - (h * (l / 0.4) / 2)
            = p + (e - p) * (0.5 + h / 0.8)).
  { intros p e.
    replace (- - (h * (l / 0.4) / 2)) with ((h / 0.8) * l) by lra.
    rewrite Hcancel. lra. }
  split; apply THREEFacts.Vector3_eq; simpl; (apply Hup || apply Hdown).
Qed.

Lemma fmap_segment (o : option THREE.Object3D) (u : THREE.Object3D)
    (p : THREE.Vector3) (q : THREE.Quaternion) (s : R) :
  (fun a => THREE.set_scale_y (THREE.set_quaternion (THREE.set_position a p) q) s)
    <$> o = Some u ->
  THREE.position u = p /\ THREE.quaternion u = q /\ THREE.y (THREE.scale u) = s.
Proof. destruct o as [a |]; simpl; [| done]. by intros [= <-]. Qed.

(** X12.  Where [updateLimb] puts the two ends of a segment of a limb when
    its cylinder is [h] high: on the line through the two landmarks of the
    segment, at [0.5 - h / 0.8] and [0.5 + h / 0.8] of the way from the
    first to the second.  For [h = 0.4] these are the two landmarks
    themselves. *)
Theorem limb_segment_span (bs bs' : gmap string THREE.Object3D) (name : string)
    (a b c : nat) (gp : nat -> option THREE.Vector3) (pa pb pc : THREE.Vector3)
    (h : R) :
  updateLimb bs name a b c gp = Some bs' ->
  gp a = Some pa -> gp b = Some pb -> gp c = Some pc ->
  let ends (u : THREE.Object3D) (ps pe : THREE.Vector3) :=
    let half := h * THREE.y (THREE.scale u) / 2 in
    THREE.add (THREE.position u)
      (THREE.applyQuaternion (THREE.mkVector3 0 half 0) (THREE.quaternion u))
    = THREE.lerp ps pe (0.5 - h / 0.8) /\
    THREE.add (THREE.position u)
      (THREE.applyQuaternion (THREE.mkVector3 0 (- half) 0) (THREE.quaternion u))
    = THREE.lerp ps pe (0.5 + h / 0.8) in
  (forall u, bs' !! (name +:+ "Upper") = Some u ->
     THREE.distanceTo pa pb > 0 -> ends u pa pb) /\
  (forall l, bs' !! (name +:+ "Lower") = Some l ->
     THREE.distanceTo pb pc > 0 -> ends l pb pc).
Proof.
  intros Hu Ha Hb Hc ends.
  destruct (updateLimb_lookup _ _ _ _ _ _ _ _ _ _ Hu Ha Hb Hc)
    as (_ & _ & _ & Lu & Ll).
  split.
  - intros u Hk Hd. rewrite Lu in Hk.
    apply fmap_segment in Hk as (Hp & Hq & Hs). unfold ends.
    rewrite Hp, Hq, Hs. by apply spans_down.
  - intros l Hk Hd. rewrite Ll in Hk.
    apply fmap_segment in Hk as (Hp & Hq & Hs). unfold ends.
    rewrite Hp, Hq, Hs. by apply spans_down.
Qed.

Lemma lerp_zero (a b : THREE.Vector3) : THREE.lerp a b (0.5 - 0.4 / 0.8) = a.
Proof. unfold THREE.lerp. apply THREEFacts.Vector3_eq; simpl; lra. Qed.

Lemma lerp_one (a b : THREE.Vector3) : THREE.lerp a b (0.5 + 0.4 / 0.8) = b.
Proof. unfold THREE.lerp. apply THREEFacts.Vector3_eq; simpl; lra. Qed.

Lemma limb_segment_span_witness :
  exists bs' pa pb,
    updateLimb (bones new) "leftArm" LEFT_SHOULDER LEFT_ELBOW LEFT_WRIST
               (getPos Examples.lineFrame false) = Some bs' /\
    getPos Examples.lineFrame false LEFT_SHOULDER = Some pa /\
    getPos Examples.lineFrame false LEFT_ELBOW = Some pb /\
    forall u, bs' !! ("leftArm" +:+ "Upper") = Some u ->
      THREE.distanceTo pa pb > 0 ->
      THREE.add (THREE.position u)
        (THREE.applyQuaternion
           (THREE.mkVector3 0 (0.4 * THREE.y (THREE.scale u) / 2) 0)
           (THREE.quaternion u))
      = pa /\
      THREE.add (THREE.position u)
        (THREE.applyQuaternion
           (THREE.mkVector3 0 (- (0.4 * THREE.y (THREE.scale u) / 2)) 0)
           (THREE.quaternion u))
      = pb.
Proof.
  eexists _, _, _.
  split; [reflexivity |]. split; [reflexivity |]. split; [reflexivity |].
  intros u Hu Hd.
  destruct (proj1 (limb_segment_span (bones new) _ "leftArm" LEFT_SHOULDER
                     LEFT_ELBOW LEFT_WRIST (getPos Examples.lineFrame false)
                     _ _ _ 0.4 eq_refl eq_refl eq_refl eq_refl) u Hu Hd)
    as [Hup Hdown].
  rewrite lerp_zero in Hup. rewrite lerp_one in Hdown. by split.
Defined.


Lemma half_way (sc hc : THREE.Vector3) :
  THREE.subVectors (THREE.lerp sc hc 0.5) hc
  = THREE.multiplyScalar (THREE.subVectors sc hc) 0.5.
Proof.
  unfold THREE.subVectors, THREE.lerp, THREE.multiplyScalar.
  apply THREEFacts.Vector3_eq; simpl; lra.
Qed.

Lemma subVectors_nonzero (a b : THREE.Vector3) :
  a <> b -> THREE.length (THREE.subVectors a b) <> 0.
Proof.
  intros Hne H0. apply Hne.
  destruct (THREEFacts.length_zero _ H0) as (Hx & Hy & Hz). simpl in *.
  apply THREEFacts.Vector3_eq; lra.
Qed.

(** X13.  On a built-in character every frame of 33 landmarks or more
    puts the hips half-way between the two hip landmarks and the torso
    half-way between the centre of the shoulders and the centre of the hips,
    turned so that its y-axis points from the centre of the hips to the
    centre of the shoulders (the direction is taken after the centre of the
    shoulders has been moved half-way, which does not change it).  The head
    alone depends on a confidence: it goes to the nose when the nose is seen
    with more than 0.5 and stays where it is otherwise. *)
Theorem trunk_follows_landmarks (r : t) (pose : Pose.PoseEntry)
    (rest : list Pose.PoseEntry) :
  (33 <= List.length (selected pose))%nat -> drivesLoaded r = false ->
  let gp := getPos (selected pose) (usesWorld pose) in
  exists r' nose p ls rs lh rh,
    updateCharacterFromPose r (frame pose rest) = Some r' /\
    selected pose !! NOSE = Some nose /\ gp NOSE = Some p /\
    gp LEFT_SHOULDER = Some ls /\ gp RIGHT_SHOULDER = Some rs /\
    gp LEFT_HIP = Some lh /\ gp RIGHT_HIP = Some rh /\
    let shoulders := THREE.lerp ls rs 0.5 in
    let hips := THREE.lerp lh rh 0.5 in
    bones r' !! "hips"
    = (fun o => THREE.set_position o hips) <$> bones r !! "hips" /\
    bones r' !! "head"
    = (fun o => if gt_number (Pose.visibility nose) 0.5
                then THREE.set_position o p else o) <$> bones r !! "head" /\
    forall torso, bones r' !! "torso" = Some torso ->
      THREE.position torso = THREE.lerp shoulders hips 0.5 /\
      (shoulders <> hips ->
       THREE.applyQuaternion (THREE.mkVector3 0 1 0) (THREE.quaternion torso)
       = THREE.normalize (THREE.subVectors shoulders hips)).
Proof.
  intros Hl Hc gp. chain_facts r pose rest Hl Hc.
  exists (with_bones r bs7), nose, p0, ls, rs, lh, rh.
  repeat (split; [done |]). simpl.
  rewrite !L7o, !L6o, !L5o, !L4o by keys_differ.
  split; [| split].
  - rewrite L3h, L2o, L1o by keys_differ. reflexivity.
  - rewrite L3o, L2o, L1h by keys_differ. reflexivity.
  - intros torso. rewrite L3o, L2t, L1o by keys_differ.
    destruct (bones r !! "torso") as [t0 |]; simpl; [| done].
    intros [= <-]. simpl. split; [reflexivity |].
    intros Hne. rewrite half_way, THREEFacts.normalize_half.
    apply THREEFacts.setFromUnitVectors_rotates.
    + unfold THREE.dot; simpl; ring.
    + apply THREEFacts.normalize_unit. by apply subVectors_nonzero.
Qed.

Lemma trunk_follows_landmarks_witness :
  exists r' lh rh,
    updateCharacterFromPose new (frame (Pose.mkPoseEntry Examples.lineFrame []) [])
    = Some r' /\
    getPos Examples.lineFrame false LEFT_HIP = Some lh /\
    getPos Examples.lineFrame false RIGHT_HIP = Some rh /\
    bones r' !! "hips"
    = (fun o => THREE.set_position o (THREE.lerp lh rh 0.5)) <$> bones new !! "hips".
Proof.
  destruct (trunk_follows_landmarks new (Pose.mkPoseEntry Examples.lineFrame []) [])
    as (r' & nose & p & ls & rs & lh & rh & Hu & _ & _ & _ & _ & Hlh & Hrh & Hh & _).
  - lazy. lia.
  - reflexivity.
  - exists r', lh, rh. split; [exact Hu |]. split; [exact Hlh |].
    split; [exact Hrh |]. exact Hh.
Defined.


Lemma parts_list :
  parts
  = ["head"; "torso"; "hips";
     "leftArm" +:+ "Upper"; "leftArm" +:+ "Joint"; "leftArm" +:+ "Lower";
     "leftArm" +:+ "End";
     "rightArm" +:+ "Upper"; "rightArm" +:+ "Joint"; "rightArm" +:+ "Lower";
     "rightArm" +:+ "End";
     "leftLeg" +:+ "Upper"; "leftLeg" +:+ "Joint"; "leftLeg" +:+ "Lower";
     "leftLeg" +:+ "End";
     "rightLeg" +:+ "Upper"; "rightLeg" +:+ "Joint"; "rightLeg" +:+ "Lower";
     "rightLeg" +:+ "End"].
Proof. reflexivity. Qed.

Lemma createLimb_dom (bs : gmap string THREE.Object3D) (name : string)
    (p : THREE.Vector3) (l : R) :
  dom (createLimb bs name p l)
  = {[name +:+ "End"]} ∪ ({[name +:+ "Lower"]} ∪ ({[name +:+ "Joint"]} ∪
      ({[name +:+ "Upper"]} ∪ dom bs))).
Proof. unfold createLimb. by rewrite !dom_insert_L. Qed.

Lemma list_to_set_same (l1 l2 : list string) :
  bool_decide (Forall (fun x => x ∈ l2) l1 /\ Forall (fun x => x ∈ l1) l2) = true ->
  list_to_set (C := gset string) l1 = list_to_set l2.
Proof.
  intros H. apply bool_decide_eq_true in H as [H1 H2].
  rewrite Forall_forall in H1, H2.
  apply set_eq. intros k. rewrite !elem_of_list_to_set. split; auto.
Qed.

(** The parts of a character built from a head, a torso, hips and the four
    limbs. *)
Lemma rig_dom (h t hp : THREE.Object3D) (p1 p2 p3 p4 : THREE.Vector3)
    (l1 l2 l3 l4 : R) :
  dom (createLimb
         (createLimb
            (createLimb
               (createLimb
                  (<["hips" := hp]> (<["torso" := t]> (<["head" := h]> ∅)))
                  "leftArm" p1 l1)
               "rightArm" p2 l2)
            "leftLeg" p3 l3)
         "rightLeg" p4 l4)
  = list_to_set parts.
Proof.
  rewrite !createLimb_dom, !dom_insert_L, dom_empty_L.
  transitivity (list_to_set (C := gset string)
    ["rightLeg" +:+ "End"; "rightLeg" +:+ "Lower"; "rightLeg" +:+ "Joint";
     "rightLeg" +:+ "Upper";
     "leftLeg" +:+ "End"; "leftLeg" +:+ "Lower"; "leftLeg" +:+ "Joint";
     "leftLeg" +:+ "Upper";
     "rightArm" +:+ "End"; "rightArm" +:+ "Lower"; "rightArm" +:+ "Joint";
     "rightArm" +:+ "Upper";
     "leftArm" +:+ "End"; "leftArm" +:+ "Lower"; "leftArm" +:+ "Joint";
     "leftArm" +:+ "Upper"; "hips"; "torso"; "head"]); [reflexivity |].
  apply list_to_set_same. vm_compute. reflexivity.
Qed.

Lemma changeModel_cleared (r : t) (type : string) (m : Model) :
  characterModel r = Some m ->
  changeModel r type
  = let r2 := mk (Some m) ∅ (loadedGLTFModel r) ∅ type (console r) in
    if decide (type = "humanoid") then createProceduralCharacter r2
    else if decide (type = "robot") then createRobotCharacter r2
    else if decide (type = "stickman") then createStickman r2
    else r2.
Proof. intros Hm. unfold changeModel. simpl. by rewrite Hm. Qed.

Lemma custom_or_not (type : string) :
  type <> "custom" -> bool_decide (type = "custom") = false.
Proof. intros H. by apply bool_decide_eq_false. Qed.

(** X14.  Choosing one of the three built-in characters, also after a model
    has been loaded, builds a character with the same nineteen parts, drops
    the table of matched bones and makes the poses drive the built-in
    character again. *)
Theorem model_choice_rebuilds_character (r : t) (type : string) :
  is_Some (characterModel r) ->
  type ∈ ["humanoid"; "robot"; "stickman"] ->
  let r' := modelChoice r type in
  modelType r' = type /\ drivesLoaded r' = false /\ gltfBones r' = ∅ /\
  dom (bones r') = list_to_set parts /\
  loadedGLTFModel r' = loadedGLTFModel r.
Proof.
  intros [m Hm] Hin. cbv zeta.
  assert (Hc : type <> "custom").
  { intros ->. repeat (apply elem_of_cons in Hin as [Hin | Hin]; [discriminate Hin |]).
    by apply elem_of_nil in Hin. }
  unfold modelChoice. rewrite (decide_True _ _ Hc).
  rewrite (changeModel_cleared r type m Hm). cbv zeta.
  assert (Hrig : forall q : t,
            q = createProceduralCharacter
                  (mk (Some m) ∅ (loadedGLTFModel r) ∅ type (console r)) \/
            q = createRobotCharacter
                  (mk (Some m) ∅ (loadedGLTFModel r) ∅ type (console r)) \/
            q = createStickman
                  (mk (Some m) ∅ (loadedGLTFModel r) ∅ type (console r)) ->
            modelType q = type /\ drivesLoaded q = false /\ gltfBones q = ∅ /\
            dom (bones q) = list_to_set parts /\
            loadedGLTFModel q = loadedGLTFModel r).
  { intros q Hq. unfold drivesLoaded.
    destruct Hq as [-> | [-> | ->]];
      unfold createProceduralCharacter, createRobotCharacter, createStickman;
      cbn [modelType gltfBones bones loadedGLTFModel];
      rewrite (custom_or_not type Hc);
      (split; [done |]); (split; [done |]); (split; [done |]);
      (split; [apply rig_dom | done]). }
  apply Hrig.
  repeat (apply elem_of_cons in Hin as [-> | Hin]);
    [| | | by apply elem_of_nil in Hin].
  - left. by rewrite decide_True.
  - right; left. rewrite decide_False by discriminate. by rewrite decide_True.
  - right; right. rewrite decide_False by discriminate.
    rewrite decide_False by discriminate. by rewrite decide_True.
Qed.

Lemma model_choice_rebuilds_character_witness :
  modelType (modelChoice loadedCube "robot") = "robot" /\
  drivesLoaded (modelChoice loadedCube "robot") = false /\
  gltfBones (modelChoice loadedCube "robot") = ∅ /\
  dom (bones (modelChoice loadedCube "robot")) = list_to_set parts /\
  loadedGLTFModel (modelChoice loadedCube "robot") = loadedGLTFModel loadedCube.
Proof.
  apply (model_choice_rebuilds_character loadedCube "robot").
  - by exists Loaded.
  - apply list_elem_of_further, list_elem_of_here.
Defined.


Lemma startLoad_cleared (r : t) (m : Model) :
  characterModel r = Some m ->
  startLoad r
  = mk (Some m) ∅ (loadedGLTFModel r) ∅ (modelType r)
       (console r ++ [Log "Attempting to load model:"]).
Proof. intros Hm. unfold startLoad, print. simpl. by rewrite Hm. Qed.

Lemma onError_fields (r : t) :
  modelType (onError r) = modelType r /\
  loadedGLTFModel (onError r) = loadedGLTFModel r /\
  gltfBones (onError r) = gltfBones r /\
  characterModel (onError r) = Some (Procedural (THREE.object3D "character")) /\
  (bones r = ∅ -> dom (bones (onError r)) = list_to_set parts).
Proof.
  split; [done |]. split; [done |]. split; [done |]. split; [done |].
  intros Hb. unfold onError, createProceduralCharacter, print.
  cbn [bones]. rewrite Hb. apply rig_dom.
Qed.

Lemma fallen_state (r : t) (gltf : GLTF) :
  let fallen := loadGLTFModel (loadGLTFModel r (Some gltf)) None in
  modelType fallen = "custom" /\ is_Some (loadedGLTFModel fallen) /\
  gltfBones fallen = ∅ /\
  characterModel fallen = Some (Procedural (THREE.object3D "character")) /\
  dom (bones fallen) = list_to_set parts.
Proof.
  cbv zeta.
  destruct (UnriggedModel.loaded_is_custom r gltf) as (Hm & Hc & Hn & _).
  set (loaded := loadGLTFModel r (Some gltf)) in *.
  change (loadGLTFModel loaded None) with (onError (startLoad loaded)).
  rewrite (startLoad_cleared loaded Loaded Hc).
  destruct (onError_fields
              (mk (Some Loaded) ∅ (loadedGLTFModel loaded) ∅ (modelType loaded)
                  (console loaded ++ [Log "Attempting to load model:"])))
    as (E1 & E2 & E3 & E4 & E5).
  rewrite E1, E2, E3, E4. cbn [modelType loadedGLTFModel gltfBones].
  split; [exact Hm |]. split; [exact Hn |]. split; [done |]. split; [done |].
  by apply E5.
Qed.

(** X15.  When a load fails after a model has been loaded, the built-in
    character comes back but no pose moves its parts any more: the type of
    the model is still "custom" and the loaded model is still there, so every
    frame goes to the loaded model, finds no bone and prints the warning. *)
Theorem failed_reload_freezes_character (r : t) (gltf : GLTF)
    (pose : Pose.PoseEntry) (rest : list Pose.PoseEntry) :
  (33 <= List.length (selected pose))%nat ->
  let fallen := loadGLTFModel (loadGLTFModel r (Some gltf)) None in
  characterModel fallen = Some (Procedural (THREE.object3D "character")) /\
  dom (bones fallen) = list_to_set parts /\
  exists r',
    updateCharacterFromPose fallen (frame pose rest) = Some r' /\
    bones r' = bones fallen /\
    console r' = console fallen ++ [noBonesWarning].
Proof.
  intros Hl fallen.
  destruct (fallen_state r gltf) as (Hm & [nodes Hn] & Hg & Hc & Hd).
  fold fallen in Hm, Hn, Hg, Hc, Hd.
  split; [exact Hc |]. split; [exact Hd |].
  assert (Hdr : drivesLoaded fallen = true).
  { unfold drivesLoaded. rewrite Hm, Hn.
    rewrite bool_decide_eq_true_2 by done. by rewrite bool_decide_eq_true_2. }
  rewrite (loaded_chain fallen pose rest Hl Hdr).
  destruct (updateGLTFModelFromPose_posed fallen (selected pose) (usesWorld pose)
              nodes Hl Hn) as (r' & nodes' & Hu & _ & _ & Hb & _ & _ & _ & Hz).
  exists r'. split; [exact Hu |]. split; [exact Hb |].
  apply Hz. by rewrite Hg.
Qed.

Lemma failed_reload_freezes_character_witness :
  exists r',
    updateCharacterFromPose (loadGLTFModel loadedCube None)
      (frame (Pose.mkPoseEntry Examples.lineFrame []) []) = Some r' /\
    bones r' = bones (loadGLTFModel loadedCube None) /\
    console r' = console (loadGLTFModel loadedCube None) ++ [noBonesWarning].
Proof.
  apply (failed_reload_freezes_character new Examples.cube
           (Pose.mkPoseEntry Examples.lineFrame []) []).
  lazy. lia.
Defined.


(** X16.  A pose on a loaded model returns, and of the objects of the model
    it moves the root only and turns only objects bound to one of the ten
    roles it reads (the hips, the wrists and the ankles are matched by
    [findGLTFBones] but never turned): every object keeps its name, its
    scale and its visibility, and there are as many objects as before.  The
    parts of the built-in character are not touched. *)
Theorem pose_turns_bound_objects_only (r : t) (pose : Pose.PoseEntry)
    (rest : list Pose.PoseEntry) (nodes : list Node) :
  (33 <= List.length (selected pose))%nat ->
  modelType r = "custom" -> loadedGLTFModel r = Some nodes ->
  exists r' nodes',
    updateCharacterFromPose r (frame pose rest) = Some r' /\
    loadedGLTFModel r' = Some nodes' /\
    posed (bound (gltfBones r)) nodes nodes' /\
    bones r' = bones r.
Proof.
  intros Hl Hm Hn.
  assert (Hdr : drivesLoaded r = true).
  { unfold drivesLoaded. rewrite Hm, Hn.
    rewrite bool_decide_eq_true_2 by done. by rewrite bool_decide_eq_true_2. }
  rewrite (loaded_chain r pose rest Hl Hdr).
  destruct (updateGLTFModelFromPose_posed r (selected pose) (usesWorld pose)
              nodes Hl Hn) as (r' & nodes' & Hu & Hn' & Hp & Hb & _).
  by exists r', nodes'.
Qed.

Lemma pose_turns_bound_objects_only_witness :
  exists r' nodes',
    updateCharacterFromPose loadedRig
      (frame (Pose.mkPoseEntry Examples.lineFrame []) []) = Some r' /\
    loadedGLTFModel r' = Some nodes' /\
    posed (bound (gltfBones loadedRig))
          (default [] (loadedGLTFModel loadedRig)) nodes' /\
    bones r' = bones loadedRig.
Proof.
  apply (pose_turns_bound_objects_only loadedRig
           (Pose.mkPoseEntry Examples.lineFrame []) []
           (default [] (loadedGLTFModel loadedRig))).
  - lazy. lia.
  - reflexivity.
  - reflexivity.
Defined.


End CharacterViewerMore.

(** ** The model viewer: frames and the skeleton switch *)

Module ModelViewerMore.
Import ModelViewer ModelViewerFacts ModelViewerApp.

Lemma new_rigged : rigged new.
Proof.
  split.
  - intros i Hi. unfold new, createSkeletonStructure. cbn [jointSpheres].
    do 33 (destruct i as [| i]; [by eexists |]). lia.
  - unfold new, createSkeletonStructure. cbn [boneConnections].
    repeat constructor; simpl; lia.
Qed.

Lemma spheres_after (world : bool) (lms : list Pose.Landmark)
    (js : gmap nat THREE.Object3D) (i : nat) :
  foldl (updateSphere world) js (imap pair lms) !! i =
  match lms !! i, js !! i with
  | Some lm, Some sphere =>
      Some (THREE.set_visible
              (THREE.set_position sphere (spherePosition world lm))
              (gt_number (Pose.visibility lm) 0.5))
  | _, other => other
  end.
Proof.
  rewrite updateSpheres_lookup.
  destruct (lms !! i) as [lm |]; [| done].
  destruct (js !! i) as [sphere |] eqn:Hs; [| done].
  unfold updateSphere. simpl. rewrite Hs, lookup_insert_eq.
  by destruct world.
Qed.

Lemma spheres_is_Some (world : bool) (lms : list Pose.Landmark)
    (js : gmap nat THREE.Object3D) (i : nat) :
  is_Some (foldl (updateSphere world) js (imap pair lms) !! i)
  <-> is_Some (js !! i).
Proof.
  rewrite spheres_after.
  destruct (lms !! i) as [lm |]; [| done].
  destruct (js !! i) as [sphere |]; [| done]. split; eauto.
Qed.

Lemma boneCylinder_is_Some (js : gmap nat THREE.Object3D) (c : nat * nat) :
  is_Some (js !! c.1) -> is_Some (js !! c.2) -> is_Some (boneCylinder js c).
Proof.
  intros [s Hs] [e He]. unfold boneCylinder. rewrite Hs, He. simpl.
  destruct (_ && _); [destruct (Rgtb _ _) |]; eauto.
Qed.

(** [updateBones] keeps everything but the cylinders, which it computes
    from the spheres, the connections and the switch alone. *)
Lemma updateBones_spec (r r' : t) :
  updateBones r = Some r' ->
  jointSpheres r' = jointSpheres r /\ boneConnections r' = boneConnections r /\
  showSkeleton r' = showSkeleton r /\ poseCount r' = poseCount r /\
  if showSkeleton r
  then exists cs, mapM (boneCylinder (jointSpheres r)) (boneConnections r) = Some cs /\
                  boneCylinders r' = omap (fun c : option Cylinder => c) cs
  else boneCylinders r' = [].
Proof.
  unfold updateBones. destruct (showSkeleton r) eqn:Hs.
  - destruct (mapM _ _) as [cs |]; [| done]. simpl. intros [= <-]. simpl.
    repeat split; try done. by exists cs.
  - by intros [= <-].
Qed.

Lemma updateBones_is_Some (r : t) :
  Forall (fun c : nat * nat =>
            is_Some (jointSpheres r !! c.1) /\ is_Some (jointSpheres r !! c.2))
         (boneConnections r) ->
  is_Some (updateBones r).
Proof.
  intros H. unfold updateBones. destruct (showSkeleton r); [| eauto].
  destruct (mapM_is_Some_2 (boneCylinder (jointSpheres r)) (boneConnections r))
    as [cs ->]; [| simpl; eauto].
  eapply Forall_impl; [exact H |]. intros c [H1 H2]. by apply boneCylinder_is_Some.
Qed.

Lemma rigged_connections (r : t) :
  rigged r ->
  Forall (fun c : nat * nat =>
            is_Some (jointSpheres r !! c.1) /\ is_Some (jointSpheres r !! c.2))
         (boneConnections r).
Proof.
  intros [Hj Hc]. eapply Forall_impl; [exact Hc |].
  intros c [H1 H2]. split; by apply Hj.
Qed.

Lemma handle_rigged (r : t) (ev : Event) :
  rigged r -> exists r', handle r ev = Some r' /\ rigged r'.
Proof.
  intros Hr. destruct ev as [[[[| pose rest] |]] |]; cbn [handle].
  - by exists r.
  - unfold updateVisualization. cbn [Pose.poses].
    set (world := bool_decide _).
    set (lms := if world then _ else _).
    set (r1 := mk _ _ _ _ _).
    assert (Hr1 : rigged r1).
    { destruct Hr as [Hj Hc]. split; [| exact Hc].
      intros i Hi. unfold r1. cbn [jointSpheres].
      apply spheres_is_Some. by apply Hj. }
    destruct (updateBones_is_Some r1 (rigged_connections r1 Hr1)) as [r2 H2].
    rewrite H2. simpl. eexists. split; [reflexivity |].
    destruct (updateBones_spec _ _ H2) as (E1 & E2 & _).
    unfold rigged. cbn [jointSpheres boneConnections]. rewrite E1, E2. exact Hr1.
  - by exists r.
  - unfold toggleSkeleton.
    set (r1 := mk _ _ _ _ _).
    assert (Hr1 : rigged r1) by exact Hr.
    destruct (updateBones_is_Some r1 (rigged_connections r1 Hr1)) as [r2 H2].
    exists r2. split; [exact H2 |].
    destruct (updateBones_spec _ _ H2) as (E1 & E2 & _).
    unfold rigged. rewrite E1, E2. exact Hr1.
Qed.

Lemma updateVisualization_rigged (r : t) (poseData : Pose.PoseData) :
  rigged r -> exists r', updateVisualization r poseData = Some r' /\ rigged r'.
Proof. exact (handle_rigged r (PoseData poseData)). Qed.

(** X17.  Whatever frames the receiver hands over, of whatever length, and
    however often the skeleton is toggled, no handler of the model viewer
    throws: the 33 spheres and the connections stay as
    [createSkeletonStructure] made them. *)
Theorem viewer_never_throws (r : t) (evs : list Event) :
  rigged r -> exists r', run r evs = Some r' /\ rigged r'.
Proof.
  revert r. induction evs as [| ev evs IH]; intros r Hr; simpl.
  - by exists r.
  - destruct (handle_rigged r ev Hr) as (r1 & -> & Hr1). simpl. by apply IH.
Qed.

Lemma viewer_never_throws_witness :
  exists r',
    run new [PoseData (Pose.mkPoseData
                         (Some [Pose.mkPoseEntry (take 5 Examples.lineFrame) []]));
             ToggleSkeleton;
             PoseData (Pose.mkPoseData None);
             PoseData Examples.longFrame] = Some r' /\
    rigged r'.
Proof. apply viewer_never_throws. exact new_rigged. Defined.

Lemma updateVisualization_spheres (r r' : t) (pose : Pose.PoseEntry)
    (rest : list Pose.PoseEntry) (i : nat) :
  updateVisualization r (frame pose rest) = Some r' ->
  jointSpheres r' !! i =
  match selected pose !! i, jointSpheres r !! i with
  | Some lm, Some sphere =>
      Some (THREE.set_visible
              (THREE.set_position sphere (spherePosition (usesWorld pose) lm))
              (gt_number (Pose.visibility lm) 0.5))
  | _, other => other
  end.
Proof.
  unfold updateVisualization, frame. cbn [Pose.poses].
  fold (usesWorld pose). fold (selected pose).
  destruct (updateBones _) as [r1 |] eqn:H1; [| done]. simpl.
  intros [= <-]. cbn [jointSpheres].
  destruct (updateBones_spec _ _ H1) as (-> & _). cbn [jointSpheres].
  apply spheres_after.
Qed.

(** X18.  What a frame does to the spheres: the sphere of a landmark of the
    frame is put where the landmark is, seen or not, and is shown exactly
    when the confidence of the landmark is above 0.5; a sphere the frame
    has no landmark for (the frame may hold fewer than 33) stays as the
    last frame left it; landmarks beyond the 33 spheres are ignored. *)
Theorem spheres_follow_frame (r r' : t) (pose : Pose.PoseEntry)
    (rest : list Pose.PoseEntry) (i : nat) :
  updateVisualization r (frame pose rest) = Some r' ->
  jointSpheres r' !! i =
  match selected pose !! i, jointSpheres r !! i with
  | Some lm, Some sphere =>
      Some (THREE.set_visible
              (THREE.set_position sphere (spherePosition (usesWorld pose) lm))
              (gt_number (Pose.visibility lm) 0.5))
  | _, other => other
  end.
Proof. apply updateVisualization_spheres. Qed.

Lemma spheres_follow_frame_witness :
  exists r',
    updateVisualization new
      (frame (Pose.mkPoseEntry (take 5 Examples.lineFrame) []) []) = Some r' /\
    jointSpheres r' !! 7%nat =
    match selected (Pose.mkPoseEntry (take 5 Examples.lineFrame) []) !! 7%nat,
          jointSpheres new !! 7%nat with
    | Some lm, Some sphere =>
        Some (THREE.set_visible
                (THREE.set_position sphere
                   (spherePosition
                      (usesWorld (Pose.mkPoseEntry (take 5 Examples.lineFrame) []))
                      lm))
                (gt_number (Pose.visibility lm) 0.5))
    | _, other => other
    end.
Proof.
  destruct (updateVisualization_rigged new
              (frame (Pose.mkPoseEntry (take 5 Examples.lineFrame) []) [])
              new_rigged) as (r' & Hu & _).
  exists r'. split; [exact Hu |].
  exact (spheres_follow_frame new r' _ _ 7 Hu).
Defined.

Lemma half_way_up (ps pe : THREE.Vector3) :
  THREE.add ps (THREE.multiplyScalar (THREE.subVectors pe ps) 0.5)
  = THREE.lerp ps pe 0.5.
Proof. reflexivity. Qed.

Lemma boneCylinder_links (js : gmap nat THREE.Object3D) (c : nat * nat)
    (cyl : Cylinder) :
  boneCylinder js c = Some (Some cyl) ->
  exists s e,
    js !! c.1 = Some s /\ js !! c.2 = Some e /\
    THREE.visible s = true /\ THREE.visible e = true /\
    THREE.distanceTo (THREE.position e) (THREE.position s) > 0.01 /\
    links cyl s e.
Proof.
  unfold boneCylinder.
  destruct (js !! c.1) as [s |]; [| done].
  destruct (js !! c.2) as [e |]; [| done]. simpl.
  destruct (THREE.visible s) eqn:Hs; [| done].
  destruct (THREE.visible e) eqn:He; [| done]. simpl.
  destruct (Rgtb _ _) eqn:Hlen; [| done].
  apply Rgtb_true in Hlen. intros [= <-].
  exists s, e. split; [reflexivity |]. split; [reflexivity |].
  split; [exact Hs |]. split; [exact He |].
  split; [unfold THREE.distanceTo; exact Hlen |].
  unfold links. cbn [height cylinder THREE.position THREE.quaternion
                       THREE.set_quaternion THREE.set_position].
  split; [reflexivity |].
  rewrite half_way_up, THREEFacts.normalize_half.
  apply (SkeletonRendererMore.spans (THREE.position s) (THREE.position e)).
  unfold THREE.distanceTo. lra.
Qed.

Lemma boneCylinder_drawn (js : gmap nat THREE.Object3D) (c : nat * nat)
    (o : option Cylinder) :
  boneCylinder js c = Some o -> drawn js c o.
Proof.
  intros Ho. destruct o as [cyl |].
  - destruct (boneCylinder_links _ _ _ Ho) as (s & e & H1 & H2 & H3).
    by exists s, e.
  - unfold boneCylinder in Ho.
    destruct (js !! c.1) as [s |] eqn:H1; [| done].
    destruct (js !! c.2) as [e |] eqn:H2; [| done]. simpl in Ho.
    exists s, e. split; [done |]. split; [done |].
    destruct (THREE.visible s); [| by left].
    destruct (THREE.visible e); [| by right; left]. simpl in Ho.
    destruct (Rgtb _ _) eqn:Hlen; [done |].
    apply Rgtb_false in Hlen. right; right. exact Hlen.
Qed.

(** X19.  The cylinders [updateBones] leaves are those of the connections
    whose two spheres are shown and more than 0.01 apart, one each, in the
    order of the connections; each is as high as its spheres are apart and
    reaches from the one to the other.  With the skeleton switched off there
    is none. *)
Theorem cylinders_link_spheres (r r' : t) :
  updateBones r = Some r' ->
  if showSkeleton r
  then exists cs,
         Forall2 (drawn (jointSpheres r)) (boneConnections r) cs /\
         boneCylinders r' = omap (fun o : option Cylinder => o) cs
  else boneCylinders r' = [].
Proof.
  intros Hu. destruct (updateBones_spec _ _ Hu) as (_ & _ & _ & _ & Hc).
  destruct (showSkeleton r); [| exact Hc].
  destruct Hc as (cs & Hm & Hb). exists cs. split; [| exact Hb].
  apply mapM_Some_1 in Hm.
  eapply Forall2_impl; [exact Hm |]. intros c o Ho. by apply boneCylinder_drawn.
Qed.

Lemma cylinders_link_spheres_witness :
  exists r',
    updateBones new = Some r' /\
    if showSkeleton new
    then exists cs,
           Forall2 (drawn (jointSpheres new)) (boneConnections new) cs /\
           boneCylinders r' = omap (fun o : option Cylinder => o) cs
    else boneCylinders r' = [].
Proof.
  destruct (updateBones_is_Some new (rigged_connections new new_rigged)) as [r' Hu].
  exists r'. split; [exact Hu |]. exact (cylinders_link_spheres new r' Hu).
Defined.

(** After a frame the cylinders are those [updateBones] computes from the
    spheres. *)
Lemma updateVisualization_fresh (r0 r : t) (pose : Pose.PoseEntry)
    (rest : list Pose.PoseEntry) :
  updateVisualization r0 (frame pose rest) = Some r ->
  if showSkeleton r
  then exists cs, mapM (boneCylinder (jointSpheres r)) (boneConnections r) = Some cs /\
                  boneCylinders r = omap (fun c : option Cylinder => c) cs
  else boneCylinders r = [].
Proof.
  unfold updateVisualization, frame. cbn [Pose.poses].
  destruct (updateBones _) as [r1 |] eqn:H1; [| done]. simpl.
  intros [= <-]. cbn [showSkeleton jointSpheres boneConnections boneCylinders].
  destruct (updateBones_spec _ _ H1) as (E1 & E2 & E3 & _ & Hc).
  cbn [showSkeleton jointSpheres boneConnections] in *.
  rewrite E1, E2, E3. exact Hc.
Qed.

(** X20.  Switching the skeleton off and on again after a frame, or on and
    off, brings back the viewer as the frame left it, and in between the
    spheres stay as they are: the switch hides the cylinders only. *)
Theorem toggle_skeleton_twice (r0 r r1 : t) (pose : Pose.PoseEntry)
    (rest : list Pose.PoseEntry) :
  updateVisualization r0 (frame pose rest) = Some r ->
  toggleSkeleton r = Some r1 ->
  toggleSkeleton r1 = Some r /\
  jointSpheres r1 = jointSpheres r /\
  showSkeleton r1 = negb (showSkeleton r) /\
  (showSkeleton r = true -> boneCylinders r1 = []).
Proof.
  intros Hu Ht. pose proof (updateVisualization_fresh _ _ _ _ Hu) as Hf.
  destruct r as [js cyl conns show pc]. cbn [showSkeleton jointSpheres
    boneConnections boneCylinders] in Hf.
  unfold toggleSkeleton, updateBones in *.
  cbn [showSkeleton jointSpheres boneConnections boneCylinders poseCount] in *.
  destruct show; cbn [negb] in *.
  - destruct Hf as (cs & Hm & ->). injection Ht as <-.
    cbn [showSkeleton jointSpheres boneConnections boneCylinders poseCount negb].
    rewrite Hm. simpl. done.
  - subst cyl. destruct (mapM _ _) as [cs |] eqn:Hm; [| done].
    simpl in Ht. injection Ht as <-.
    cbn [showSkeleton jointSpheres boneConnections boneCylinders poseCount negb].
    repeat split; done.
Qed.

Lemma toggle_skeleton_twice_witness :
  exists r r1,
    updateVisualization new (frame (Pose.mkPoseEntry Examples.lineFrame []) [])
    = Some r /\
    toggleSkeleton r = Some r1 /\ toggleSkeleton r1 = Some r.
Proof.
  destruct (updateVisualization_rigged new
              (frame (Pose.mkPoseEntry Examples.lineFrame []) []) new_rigged)
    as (r & Hu & Hr).
  destruct (handle_rigged r ToggleSkeleton Hr) as (r1 & Ht & _).
  exists r, r1. split; [exact Hu |]. split; [exact Ht |].
  exact (proj1 (toggle_skeleton_twice new r r1 _ _ Hu Ht)).
Defined.

End ModelViewerMore.

(** ** The relay: sequences of calls, and from the estimator to the viewer *)

Module PoseRelayProps.
Import PoseExporter PoseExporterProps PoseRelay.

Lemma landmarkNames_NoDup : NoDup landmarkNames.
Proof. refine (bool_decide_unpack _ _). vm_compute. exact I. Qed.

Lemma table_name_plain (n s : string) :
  n ∈ landmarkNames -> n <> "landmark_" +:+ s.
Proof.
  intros Hin Heq. rewrite !JSFacts.append_cons, JSFacts.append_empty in Heq.
  unfold landmarkNames in Hin.
  repeat (apply elem_of_cons in Hin as [-> | Hin]; [discriminate Heq |]).
  by apply elem_of_nil in Hin.
Qed.

(** X21.  Different landmark indices get different names: the 33 names of
    the table are distinct, and the name made up for an index beyond the
    table is none of them and differs from index to index. *)
Theorem landmark_names_distinct (i j : nat) :
  i <> j -> getLandmarkName i <> getLandmarkName j.
Proof.
  intros Hne Heq. apply Hne. revert Heq. unfold getLandmarkName.
  destruct (landmarkNames !! i) as [n |] eqn:Hi;
    destruct (landmarkNames !! j) as [m |] eqn:Hj.
  - intros ->. exact (NoDup_lookup _ _ _ _ landmarkNames_NoDup Hi Hj).
  - intros ->. apply list_elem_of_lookup_2 in Hi.
    destruct (table_name_plain _ _ Hi eq_refl).
  - intros <-. apply list_elem_of_lookup_2 in Hj.
    destruct (table_name_plain _ _ Hj eq_refl).
  - intros H. apply CharacterViewerMore.append_inj in H.
    by apply pretty_nat_inj in H.
Qed.

Lemma landmark_names_distinct_witness :
  getLandmarkName 0 <> getLandmarkName 33.
Proof. apply landmark_names_distinct. lia. Defined.

Lemma seenBy_app (l : nat) (a b : list Effect) :
  seenBy l (a ++ b) = seenBy l a ++ seenBy l b.
Proof. unfold seenBy. apply omap_app. Qed.

Lemma seenBy_broadcast (l : nat) (c : option ChannelState) (d : PoseData) :
  seenBy l (broadcast c d) = [].
Proof. by destruct c as [[|] |]. Qed.

Lemma seenBy_sendSocket (l : nat) (ws : option ReadyState) (d : PoseData) :
  seenBy l (sendSocket ws d) = [].
Proof. by destruct ws as [[| | |] |]. Qed.

Lemma seenBy_dispatchEvent (l : nat) (listeners : list nat) (d : PoseData) :
  NoDup listeners -> l ∈ listeners ->
  seenBy l (dispatchEvent listeners d) = [d].
Proof.
  unfold seenBy, dispatchEvent.
  induction listeners as [| k ks IH]; intros Hnd Hin.
  - by apply elem_of_nil in Hin.
  - apply NoDup_cons in Hnd as [Hk Hnd]. simpl.
    destruct (decide (k = l)) as [-> | Hne].
    + f_equal. clear IH Hin Hnd. induction ks as [| k' ks IH]; [done |].
      apply not_elem_of_cons in Hk as [Hne Hk]. simpl.
      destruct (decide (k' = l)) as [-> | _]; [done |]. by apply IH.
    + apply elem_of_cons in Hin as [-> | Hin]; [done |]. by apply IH.
Qed.

Lemma call_numbers (listeners : list nat) (l : nat) (e e' : t) (c : Call)
    (effs : list Effect) :
  NoDup listeners -> l ∈ listeners ->
  call listeners e c = (e', effs) ->
  (frameCount e <= frameCount e')%nat /\
  data_frameCount <$> seenBy l effs
  = seq (frameCount e) (frameCount e' - frameCount e).
Proof.
  intros Hnd Hin. destruct c as [result ts vi | b |]; simpl.
  - unfold exportPose. destruct (enabled e); simpl.
    + destruct (landmarks result) as [lms |].
      * destruct (bool_decide _).
        -- intros [= <- <-]. by rewrite Nat.sub_diag.
        -- intros [= <- <-]. simpl. split; [lia |].
           rewrite !seenBy_app, seenBy_broadcast, seenBy_sendSocket,
             seenBy_dispatchEvent by done. simpl.
           by replace (S (frameCount e) - frameCount e)%nat with 1%nat by lia.
      * intros [= <- <-]. by rewrite Nat.sub_diag.
    + intros [= <- <-]. by rewrite Nat.sub_diag.
  - intros [= <- <-]. simpl. by rewrite Nat.sub_diag.
  - intros [= <- <-]. simpl. by rewrite Nat.sub_diag.
Qed.

(** X22.  A listener of [pose-data] that is registered once sees the
    frames numbered consecutively from the count the exporter started
    with, without gap or repetition, whatever calls of [exportPose],
    [setEnabled] and [destroy] are made in between: a call that publishes
    nothing uses up no number. *)
Theorem frame_numbers_consecutive (listeners : list nat) (l : nat) (e e' : t)
    (cs : list Call) (effs : list Effect) :
  NoDup listeners -> l ∈ listeners ->
  calls listeners e cs = (e', effs) ->
  (frameCount e <= frameCount e')%nat /\
  data_frameCount <$> seenBy l effs
  = seq (frameCount e) (frameCount e' - frameCount e).
Proof.
  intros Hnd Hin. revert e e' effs.
  induction cs as [| c cs IH]; intros e e' effs; simpl.
  - intros [= <- <-]. by rewrite Nat.sub_diag.
  - destruct (call listeners e c) as [e1 out1] eqn:Hc.
    destruct (calls listeners e1 cs) as [e2 out2] eqn:Hcs.
    intros [= <- <-].
    destruct (call_numbers _ _ _ _ _ _ Hnd Hin Hc) as [Hle1 Hn1].
    destruct (IH _ _ _ Hcs) as [Hle2 Hn2].
    split; [lia |].
    rewrite seenBy_app, fmap_app, Hn1, Hn2.
    replace (frameCount e2 - frameCount e)%nat
      with ((frameCount e1 - frameCount e) + (frameCount e2 - frameCount e1))%nat
      by lia.
    rewrite seq_app. do 2 f_equal. lia.
Qed.

Lemma frame_numbers_consecutive_witness :
  exists e' effs,
    calls [7%nat; 9%nat] Examples.exporter session = (e', effs) /\
    data_frameCount <$> seenBy 7 effs
    = seq (frameCount Examples.exporter)
          (frameCount e' - frameCount Examples.exporter).
Proof.
  eexists _, _. split; [reflexivity |].
  refine (proj2 (frame_numbers_consecutive [7%nat; 9%nat] 7 Examples.exporter
                   _ session _ _ _ eq_refl)).
  - refine (bool_decide_unpack _ _). vm_compute. exact I.
  - apply list_elem_of_here.
Defined.

(** X23.  After [destroy()] a publish still calls every listener of
    [pose-data], but posts nothing on the channel and sends nothing on the
    socket; if the exporter had a channel, the failure to post is printed as
    an error. *)
Theorem destroyed_exporter_serves_listeners (e : t) (listeners : list nat)
    (result : Result) (timestamp : R) (videoInfo : VideoInfo)
    (lms : list (list Pose.Landmark)) :
  enabled e = true -> landmarks result = Some lms -> lms <> [] ->
  let effs := (exportPose (destroy e) listeners result timestamp videoInfo).2 in
  (forall d, (PostMessage d ∉ effs) /\ (Send d ∉ effs)) /\
  (forall l, l ∈ listeners -> exists d, Invoke l d ∈ effs) /\
  (is_Some (channel e) ->
   ConsoleError "PoseExporter: BroadcastChannel error" ∈ effs).
Proof.
  intros He Hl Hne effs.
  pose proof (exportPose_enabled (destroy e) listeners result timestamp videoInfo
                lms He Hl Hne) as Hexp.
  cbv zeta in Hexp. unfold effs. rewrite Hexp. cbn [snd].
  set (d := mkPoseData _ _ _ _).
  split; [| split].
  - intros d'. split; intros Hin.
    + apply elem_of_app in Hin as [Hin | Hin].
      * apply elem_of_broadcast in Hin as [[Hc _] | [_ Heq]]; [| discriminate Heq].
        simpl in Hc. destruct (channel e); discriminate Hc.
      * apply elem_of_app in Hin as [Hin | Hin].
        -- apply elem_of_sendSocket in Hin as [_ Heq]. discriminate Heq.
        -- apply elem_of_dispatchEvent in Hin as (l & _ & Heq). discriminate Heq.
    + apply elem_of_app in Hin as [Hin | Hin].
      * apply elem_of_broadcast in Hin as [[_ Heq] | [_ Heq]]; discriminate Heq.
      * apply elem_of_app in Hin as [Hin | Hin].
        -- apply elem_of_sendSocket in Hin as [Hws _]. simpl in Hws.
           destruct (websocket e) as [[| | |] |]; discriminate Hws.
        -- apply elem_of_dispatchEvent in Hin as (l & _ & Heq). discriminate Heq.
  - intros l Hin. exists d. rewrite !elem_of_app. right; right.
    apply elem_of_dispatchEvent. eauto.
  - intros [c Hc]. rewrite elem_of_app. left.
    apply elem_of_broadcast. right. simpl. by rewrite Hc.
Qed.

Lemma destroyed_exporter_serves_listeners_witness :
  (forall d,
     (PostMessage d ∉ (exportPose (destroy Examples.exporter) [7%nat]
                         Examples.unseenResult 0 Examples.noVideoInfo).2) /\
     (Send d ∉ (exportPose (destroy Examples.exporter) [7%nat]
                  Examples.unseenResult 0 Examples.noVideoInfo).2)) /\
  (forall l, l ∈ [7%nat] ->
     exists d, Invoke l d ∈ (exportPose (destroy Examples.exporter) [7%nat]
                               Examples.unseenResult 0 Examples.noVideoInfo).2) /\
  (is_Some (channel Examples.exporter) ->
   ConsoleError "PoseExporter: BroadcastChannel error"
   ∈ (exportPose (destroy Examples.exporter) [7%nat]
        Examples.unseenResult 0 Examples.noVideoInfo).2).
Proof.
  apply (destroyed_exporter_serves_listeners Examples.exporter [7%nat]
           Examples.unseenResult 0 Examples.noVideoInfo
           [[Pose.mkLandmark 0.5 0.5 0 (Some 0)]]).
  - reflexivity.
  - reflexivity.
  - discriminate.
Defined.

Lemma orOne_shown (v : option R) :
  Rgtb (orOne v) 0.5 = true <->
  v = None \/ exists a, v = Some a /\ (a = 0 \/ a > 0.5).
Proof.
  unfold orOne. destruct v as [a |].
  - destruct (Req_dec_T a 0) as [-> | Hne].
    + split; [intros _; right; exists 0; by split; [| left] |].
      intros _. apply Rgtb_true. lra.
    + rewrite Rgtb_true. split.
      * intros Ha. right. exists a. split; [done | by right].
      * intros [[=] | (b & [= <-] & [-> | Hb])]; [done | done].
  - split; [by left |]. intros _. apply Rgtb_true. lra.
Qed.

(** What the model viewer selects of the first pose of a relayed frame:
    the relayed form of the landmarks [viewed] picks. *)
Lemma selected_relayed (result : Result) (person : list Pose.Landmark) :
  let pose := exportPerson result 0 person in
  ModelViewerApp.selected
    (Pose.mkPoseEntry (asLandmark <$> pose_landmarks pose)
                      (asLandmark <$> pose_worldLandmarks pose))
  = asLandmark <$> imap exportLandmark (viewed result person).
Proof.
  cbv zeta. unfold ModelViewerApp.selected, exportPerson, viewed.
  cbn [Pose.worldLandmarks Pose.landmarks pose_landmarks pose_worldLandmarks].
  destruct (worldLandmarks result ≫= _) as [[| w ws] |]; reflexivity.
Qed.

(** X24.  From the estimator to the screen of the model viewer: a landmark
    of the first person that the exporter publishes on a listening channel
    is shown by a model viewer that receives the frame exactly when its
    confidence is missing, is 0, or is above 0.5.  A landmark the estimator
    gives confidence 0 is shown, because the exporter turns that 0 into
    1. *)
Theorem relayed_landmark_is_shown (e : t) (listeners : list nat)
    (result : Result) (timestamp : R) (videoInfo : VideoInfo)
    (person : list Pose.Landmark) (others : list (list Pose.Landmark))
    (r : ModelViewer.t) (i : nat) (lm : Pose.Landmark) :
  enabled e = true -> channel e = Some Listening ->
  landmarks result = Some (person :: others) ->
  viewed result person !! i = Some lm ->
  ModelViewerApp.rigged r -> (i < 33)%nat ->
  exists d r' sphere,
    PostMessage d ∈ (exportPose e listeners result timestamp videoInfo).2 /\
    receive ModelViewer.updateVisualization r (PostMessage d) = Some r' /\
    ModelViewer.jointSpheres r' !! i = Some sphere /\
    (THREE.visible sphere = true <->
     Pose.visibility lm = None \/
     exists a, Pose.visibility lm = Some a /\ (a = 0 \/ a > 0.5)).
Proof.
  intros He Hc Hl Hi Hr Hlt.
  pose proof (exportPose_enabled e listeners result timestamp videoInfo
                (person :: others) He Hl) as Hexp.
  cbv zeta in Hexp. rewrite Hexp by done. cbn [snd].
  set (d := mkPoseData _ _ _ _).
  destruct (ModelViewerMore.updateVisualization_rigged r (asPoseData d) Hr)
    as (r' & Hu & _).
  destruct Hr as [Hj _]. destruct (Hj i Hlt) as [sphere0 Hs].
  exists d, r'. eexists. split; [| split; [exact Hu |]].
  { rewrite elem_of_app. left. apply elem_of_broadcast. left. by rewrite Hc. }
  unfold asPoseData, d in Hu. cbn [poses imap fmap list_fmap] in Hu.
  pose proof (ModelViewerMore.updateVisualization_spheres r r' _ _ i Hu) as Hsp.
  rewrite selected_relayed in Hsp.
  rewrite list_lookup_fmap, list_lookup_imap, Hi, Hs in Hsp. simpl in Hsp.
  split; [exact Hsp |]. simpl. apply orOne_shown.
Qed.

Lemma relayed_landmark_is_shown_witness :
  exists d r' sphere,
    PostMessage d ∈ (exportPose Examples.exporter [] Examples.unseenResult 0
                       Examples.noVideoInfo).2 /\
    receive ModelViewer.updateVisualization ModelViewer.new (PostMessage d)
    = Some r' /\
    ModelViewer.jointSpheres r' !! 0%nat = Some sphere /\
    (THREE.visible sphere = true <->
     Pose.visibility (Pose.mkLandmark 0.5 0.5 0 (Some 0)) = None \/
     exists a, Pose.visibility (Pose.mkLandmark 0.5 0.5 0 (Some 0)) = Some a /\
               (a = 0 \/ a > 0.5)).
Proof.
  apply (relayed_landmark_is_shown Examples.exporter [] Examples.unseenResult 0
           Examples.noVideoInfo [Pose.mkLandmark 0.5 0.5 0 (Some 0)] []
           ModelViewer.new 0 (Pose.mkLandmark 0.5 0.5 0 (Some 0))).
  - reflexivity.
  - reflexivity.
  - reflexivity.
  - reflexivity.
  - exact ModelViewerMore.new_rigged.
  - lia.
Defined.

End PoseRelayProps.
